(** * GaussianSplats3D: the visibility culler and the sort scheduler of [Viewer.js]

    A shallow embedding of [gatherSceneNodes], [updateView],
    [updateSplatMeshIndexes] and the [sortWorker.onmessage] handler of
    [src/Viewer.js], with the properties of the culling rule, the packing of
    the index buffer and the Idle/InFlight protocol.

    Conventions.
    - A JavaScript number is a rational [Q] when it is a coordinate, a length
      or a cosine, and an integer [Z] when it is a count, a byte offset or a
      splat index; NaN and the infinities are outside the model.
    - The functions of three.js and of [Math] that are not exact rational
      arithmetic ([length], [normalize], [applyQuaternion],
      [transformDirection], [invert], [premultiply], [atan], [cos]) are the
      fields of the class [ThreeHost]; every general theorem holds for every
      instance. [ExactHost] is an instance used to run the code on concrete
      scenes.
    - An exception is an outcome [Throw] that keeps the state reached at the
      throw, since the statements before it have already taken effect. *)

From Stdlib Require Import ZArith QArith List Bool Lia Sorted Permutation.
Import ListNotations.

Set Implicit Arguments.

(** ** Numbers *)

Definition Qltb (a b : Q) : bool := negb (Qle_bool b a).
Definition Qgtb (a b : Q) : bool := Qltb b a.
Definition Qleb (a b : Q) : bool := Qle_bool a b.
Definition Qgeb (a b : Q) : bool := Qle_bool b a.

(** ** three.js vectors: the exact part *)

Record Vector3 : Type := mkVector3 { vx : Q; vy : Q; vz : Q }.

Definition v3_sub (a b : Vector3) : Vector3 :=
  mkVector3 (vx a - vx b) (vy a - vy b) (vz a - vz b).

Definition v3_dot (a b : Vector3) : Q :=
  vx a * vx b + vy a * vy b + vz a * vz b.

Definition v3_setX (v : Vector3) (x : Q) : Vector3 := mkVector3 x (vy v) (vz v).
Definition v3_setY (v : Vector3) (y : Q) : Vector3 := mkVector3 (vx v) y (vz v).

(** ** three.js and Math: the part taken as an interface *)

Class ThreeHost : Type := {
  Quaternion : Type;
  Matrix4 : Type;
  v3_length : Vector3 -> Q;
  v3_normalize : Vector3 -> Vector3;
  v3_applyQuaternion : Vector3 -> Quaternion -> Vector3;
  v3_transformDirection : Vector3 -> Matrix4 -> Vector3;
  m4_invert : Matrix4 -> Matrix4;
  m4_premultiply : Matrix4 -> Matrix4 -> Matrix4;
  Math_atan : Q -> Q;
  Math_cos : Q -> Q
}.

(** ** Typed arrays and [Array.prototype.sort] *)

Module JS.

Local Open Scope Z_scope.

Inductive Error : Type := TypeError | RangeError.

(** Storing a number into a [Uint32Array] element. *)
Definition ToUint32 (n : Z) : Z := n mod 2 ^ 32.

(** An [ArrayBuffer] seen as its 32-bit words; [buf_id] is its identity. *)
Record ArrayBuffer : Type := mkArrayBuffer { buf_id : nat; words : list Z }.

Definition byteLength (b : ArrayBuffer) : Z := 4 * Z.of_nat (length (words b)).

(** A [Uint32Array] view: its buffer, its byte offset and its length. *)
Record Uint32Array : Type :=
  mkUint32Array { buffer : ArrayBuffer; byteOffset : Z; view_length : Z }.

(** [new Uint32Array(buffer, byteOffset, length)]: a [RangeError] unless
    the offset is a multiple of 4 and the window lies inside the buffer. *)
Definition view_ok (b : ArrayBuffer) (off len : Z) : bool :=
  (0 <=? off) && (off mod 4 =? 0) && (0 <=? len) && (off + 4 * len <=? byteLength b).

(** Overwriting the words from word index [start] on with [src]. *)
Definition write_words (ws : list Z) (start : nat) (src : list Z) : list Z :=
  firstn start ws ++ map ToUint32 src ++ skipn (start + length src) ws.

(** [new Uint32Array(b, off, src.length).set(src)]. *)
Definition window_set (b : ArrayBuffer) (off : Z) (src : list Z) : option ArrayBuffer :=
  if view_ok b off (Z.of_nat (length src))
  then Some (mkArrayBuffer (buf_id b) (write_words (words b) (Z.to_nat (off / 4)) src))
  else None.

(** [target.set(src)] on a typed array of 32-bit words: a [RangeError]
    when the source is longer than the target. *)
Definition typed_set (target src : list Z) : option (list Z) :=
  if (length src <=? length target)%nat
  then Some (map ToUint32 src ++ skipn (length src) target)
  else None.

(** [Array.prototype.sort(comparefn)], as the insertion phase engines run
    on short arrays: the elements are taken front to back, and each pivot
    goes before the first element [e] of the sorted part with
    [comparefn(pivot, e) < 0]. Only the sign of [comparefn] is consulted. *)
Fixpoint sort_insert (A : Type) (comparefn : A -> A -> Z) (pivot : A) (sorted : list A)
  : list A :=
  match sorted with
  | [] => [pivot]
  | e :: rest =>
      if comparefn pivot e <? 0 then pivot :: e :: rest
      else e :: sort_insert comparefn pivot rest
  end.

Definition Array_sort (A : Type) (comparefn : A -> A -> Z) (l : list A) : list A :=
  fold_left (fun sorted pivot => sort_insert comparefn pivot sorted) l [].

End JS.

(** ** The data of the viewer *)

(** A leaf of the octree. [distanceToNode] is [undefined] until the culler
    first keeps the node. [nmin] and [nmax] are the fields [min] and [max]. *)
Record NodeData : Type := mkNodeData {
  indexes : list Z;
  distanceToNode : option Q
}.

Record OctreeNode : Type := mkOctreeNode {
  center : Vector3;
  nmin : Vector3;
  nmax : Vector3;
  data : NodeData
}.

Definition set_distanceToNode (node : OctreeNode) (d : Q) : OctreeNode :=
  mkOctreeNode (center node) (nmin node) (nmax node)
    (mkNodeData (indexes (data node)) (Some d)).

Definition member_count (node : OctreeNode) : Z :=
  Z.of_nat (length (indexes (data node))).

(** The constant [MaximumDistanceToSort] of the closure of [gatherSceneNodes]. *)
Definition MaximumDistanceToSort : Q := 125.

(** Modelled from the spec: [Constants.BytesPerInt]; [Constants.js] is not
    among the sources. The spec packs the index arrays contiguously into an
    array of 32-bit indices, which is a stride of four bytes per index. *)
Definition BytesPerInt : Z := 4.

(** An outcome of a method: it returns, or it throws and leaves the state
    the statements before the throw have built. *)
Inductive Outcome (S : Type) : Type :=
| Ok (s : S)
| Throw (err : JS.Error) (s : S).

Arguments Ok {S} s.
Arguments Throw {S} err s.

Definition state_of (S : Type) (o : Outcome S) : S :=
  match o with Ok s => s | Throw _ s => s end.

Definition returns (S : Type) (o : Outcome S) : bool :=
  match o with Ok _ => true | Throw _ _ => false end.

Definition bind (S : Type) (o : Outcome S) (k : S -> Outcome S) : Outcome S :=
  match o with Ok s => k s | Throw e s => Throw e s end.

(** [this.splatMesh.geometry]: the draw-order attribute and the number of
    instances drawn. *)
Record Geometry : Type := mkGeometry {
  splatIndex : list Z;
  splatIndex_needsUpdate : bool;
  instanceCount : Z
}.

(** [e.data] of a message of the sort worker. *)
Record MessageData : Type := mkMessageData {
  sortDone : bool;
  sortCanceled : bool;
  sortSetupPhase1Complete : bool;
  sortSetupComplete : bool;
  e_vertexRenderCount : Z;
  e_outIndexBuffer : JS.ArrayBuffer;
  e_outIndexOffset : Z;
  e_inIndexBuffer : JS.ArrayBuffer;
  e_inIndexOffset : Z
}.

Inductive JobState : Type := Idle | InFlight.

(** The comparisons of JavaScript on a number that may be [undefined]:
    [undefined] converts to NaN and every comparison with it is false. *)
Definition js_gt (a b : option Q) : bool :=
  match a, b with Some x, Some y => Qgtb x y | _, _ => false end.

Definition js_le (a b : option Q) : bool :=
  match a, b with Some x, Some y => Qleb x y | _, _ => false end.

(** The comparator handed to [nodeRenderList.sort]. *)
Definition compareNodes (a b : OctreeNode) : Z :=
  if js_gt (distanceToNode (data a)) (distanceToNode (data b)) then 1%Z else (-1)%Z.

Definition shouldSort (node : OctreeNode) : bool :=
  js_le (distanceToNode (data node)) (Some MaximumDistanceToSort).

(** [a] is at most as far as [b]; both distances are known. *)
Definition distance_le (a b : OctreeNode) : Prop :=
  match distanceToNode (data a), distanceToNode (data b) with
  | Some x, Some y => (x <= y)%Q
  | _, _ => False
  end.

Definition has_distance (a : OctreeNode) : Prop :=
  distanceToNode (data a) <> None.

(** A splat index that a [Uint32Array] element holds unchanged. *)
Definition uint32 (i : Z) : Prop := (0 <= i < 2 ^ 32)%Z.

(** The splat indices of a list of nodes, node after node. *)
Definition members (l : list OctreeNode) : list Z :=
  flat_map (fun node => indexes (data node)) l.

Section Viewer.

Context {host : ThreeHost}.

Record Camera : Type := mkCamera {
  position : Vector3;
  quaternion : Quaternion;
  matrixWorld : Matrix4;
  projectionMatrix : Matrix4
}.

(** The [sort] message of [updateView]. *)
Record SortJob : Type := mkSortJob {
  job_view : Matrix4;
  job_cameraPosition : list Q;
  job_vertexRenderCount : Z;
  job_vertexSortCount : Z;
  job_inIndexBuffer : JS.ArrayBuffer
}.

Inductive Posted : Type :=
| PostSort (job : SortJob)
| PostPositions.

Record Viewer : Type := mkViewer {
  camera : Camera;   (* [this.camera] *)
  renderDimensions : Q * Q;   (* width and height, from [getRenderDimensions] *)
  cameraFocalLength : Q;   (* [this.cameraFocalLength] *)
  vertexCount : Z;   (* [this.splatBuffer.getVertexCount()] *)
  nodesWithIndexes : list OctreeNode;   (* [this.octree.nodesWithIndexes] *)
  vertexRenderCount : Z;
  vertexSortCount : Z;
  inIndexArray : option JS.Uint32Array;   (* [null] until the first handshake *)
  outIndexArray : option (list Z);   (* what the out view reads; [undefined] at first *)
  sortRunning : bool;
  splatRenderingInitialized : bool;
  geometry : Geometry;   (* [this.splatMesh.geometry] *)
  lastSortViewDir : Vector3;   (* closure of [updateView] *)
  sortViewDir : Vector3;   (* closure of [updateView] *)
  lastSortViewPos : Vector3;   (* closure of [updateView] *)
  posted : list Posted   (* the arguments of [sortWorker.postMessage], oldest first *)
}.

(** Field updates. *)
Definition with_nodesWithIndexes (v : list OctreeNode) (st : Viewer) : Viewer :=
  mkViewer (camera st) (renderDimensions st) (cameraFocalLength st) (vertexCount st)
    v (vertexRenderCount st) (vertexSortCount st) (inIndexArray st)
    (outIndexArray st) (sortRunning st) (splatRenderingInitialized st) (geometry st)
    (lastSortViewDir st) (sortViewDir st) (lastSortViewPos st) (posted st).

Definition with_vertexRenderCount (v : Z) (st : Viewer) : Viewer :=
  mkViewer (camera st) (renderDimensions st) (cameraFocalLength st) (vertexCount st)
    (nodesWithIndexes st) v (vertexSortCount st) (inIndexArray st) (outIndexArray st)
    (sortRunning st) (splatRenderingInitialized st) (geometry st)
    (lastSortViewDir st) (sortViewDir st) (lastSortViewPos st) (posted st).

Definition with_vertexSortCount (v : Z) (st : Viewer) : Viewer :=
  mkViewer (camera st) (renderDimensions st) (cameraFocalLength st) (vertexCount st)
    (nodesWithIndexes st) (vertexRenderCount st) v (inIndexArray st)
    (outIndexArray st) (sortRunning st) (splatRenderingInitialized st) (geometry st)
    (lastSortViewDir st) (sortViewDir st) (lastSortViewPos st) (posted st).

Definition with_inIndexArray (v : option JS.Uint32Array) (st : Viewer) : Viewer :=
  mkViewer (camera st) (renderDimensions st) (cameraFocalLength st) (vertexCount st)
    (nodesWithIndexes st) (vertexRenderCount st) (vertexSortCount st) v
    (outIndexArray st) (sortRunning st) (splatRenderingInitialized st) (geometry st)
    (lastSortViewDir st) (sortViewDir st) (lastSortViewPos st) (posted st).

Definition with_outIndexArray (v : option (list Z)) (st : Viewer) : Viewer :=
  mkViewer (camera st) (renderDimensions st) (cameraFocalLength st) (vertexCount st)
    (nodesWithIndexes st) (vertexRenderCount st) (vertexSortCount st)
    (inIndexArray st) v (sortRunning st) (splatRenderingInitialized st) (geometry st)
    (lastSortViewDir st) (sortViewDir st) (lastSortViewPos st) (posted st).

Definition with_sortRunning (v : bool) (st : Viewer) : Viewer :=
  mkViewer (camera st) (renderDimensions st) (cameraFocalLength st) (vertexCount st)
    (nodesWithIndexes st) (vertexRenderCount st) (vertexSortCount st)
    (inIndexArray st) (outIndexArray st) v (splatRenderingInitialized st)
    (geometry st) (lastSortViewDir st) (sortViewDir st) (lastSortViewPos st)
    (posted st).

Definition with_splatRenderingInitialized (v : bool) (st : Viewer) : Viewer :=
  mkViewer (camera st) (renderDimensions st) (cameraFocalLength st) (vertexCount st)
    (nodesWithIndexes st) (vertexRenderCount st) (vertexSortCount st)
    (inIndexArray st) (outIndexArray st) (sortRunning st) v (geometry st)
    (lastSortViewDir st) (sortViewDir st) (lastSortViewPos st) (posted st).

Definition with_geometry (v : Geometry) (st : Viewer) : Viewer :=
  mkViewer (camera st) (renderDimensions st) (cameraFocalLength st) (vertexCount st)
    (nodesWithIndexes st) (vertexRenderCount st) (vertexSortCount st)
    (inIndexArray st) (outIndexArray st) (sortRunning st)
    (splatRenderingInitialized st) v (lastSortViewDir st) (sortViewDir st)
    (lastSortViewPos st) (posted st).

Definition with_lastSortViewDir (v : Vector3) (st : Viewer) : Viewer :=
  mkViewer (camera st) (renderDimensions st) (cameraFocalLength st) (vertexCount st)
    (nodesWithIndexes st) (vertexRenderCount st) (vertexSortCount st)
    (inIndexArray st) (outIndexArray st) (sortRunning st)
    (splatRenderingInitialized st) (geometry st) v (sortViewDir st)
    (lastSortViewPos st) (posted st).

Definition with_sortViewDir (v : Vector3) (st : Viewer) : Viewer :=
  mkViewer (camera st) (renderDimensions st) (cameraFocalLength st) (vertexCount st)
    (nodesWithIndexes st) (vertexRenderCount st) (vertexSortCount st)
    (inIndexArray st) (outIndexArray st) (sortRunning st)
    (splatRenderingInitialized st) (geometry st) (lastSortViewDir st) v
    (lastSortViewPos st) (posted st).

Definition with_lastSortViewPos (v : Vector3) (st : Viewer) : Viewer :=
  mkViewer (camera st) (renderDimensions st) (cameraFocalLength st) (vertexCount st)
    (nodesWithIndexes st) (vertexRenderCount st) (vertexSortCount st)
    (inIndexArray st) (outIndexArray st) (sortRunning st)
    (splatRenderingInitialized st) (geometry st) (lastSortViewDir st)
    (sortViewDir st) v (posted st).

Definition with_posted (v : list Posted) (st : Viewer) : Viewer :=
  mkViewer (camera st) (renderDimensions st) (cameraFocalLength st) (vertexCount st)
    (nodesWithIndexes st) (vertexRenderCount st) (vertexSortCount st)
    (inIndexArray st) (outIndexArray st) (sortRunning st)
    (splatRenderingInitialized st) (geometry st) (lastSortViewDir st)
    (sortViewDir st) (lastSortViewPos st) v.

Definition with_environment (cam : Camera) (dims : Q * Q) (focal : Q) (st : Viewer)
  : Viewer :=
  mkViewer cam dims focal (vertexCount st) (nodesWithIndexes st)
    (vertexRenderCount st) (vertexSortCount st) (inIndexArray st) (outIndexArray st)
    (sortRunning st) (splatRenderingInitialized st) (geometry st)
    (lastSortViewDir st) (sortViewDir st) (lastSortViewPos st) (posted st).

Definition jobState (st : Viewer) : JobState :=
  if sortRunning st then InFlight else Idle.

(** *** [gatherSceneNodes] *)

Definition forward : Vector3 := mkVector3 0 0 (-1).

Definition nodeSize (node : OctreeNode) : Q :=
  v3_length (v3_sub (nmax node) (nmin node)).

(** The numbers the first loop computes for one node. *)
Record Measure : Type := mkMeasure {
  m_distanceToNode : Q;
  m_cameraAngleXZDot : Q;
  m_cameraAngleYZDot : Q;
  m_ns : Q
}.

Definition measure (cam : Camera) (tempMatrix4 : Matrix4) (node : OctreeNode) : Measure :=
  let tempVector := v3_sub (center node) (position cam) in
  let distanceToNode := v3_length tempVector in
  let tempVector := v3_normalize tempVector in
  let tempVector := v3_transformDirection tempVector tempMatrix4 in
  let tempVectorYZ := v3_normalize (v3_setX tempVector 0) in
  let tempVectorXZ := v3_normalize (v3_setY tempVector 0) in
  let cameraAngleXZDot := v3_dot forward tempVectorXZ in
  let cameraAngleYZDot := v3_dot forward tempVectorYZ in
  let ns := nodeSize node in
  mkMeasure distanceToNode cameraAngleXZDot cameraAngleYZDot ns.

Definition outOfFovY (cosFovYOver2 : Q) (m : Measure) : bool :=
  Qltb (m_cameraAngleYZDot m) (cosFovYOver2 - (4 # 10)).

Definition outOfFovX (cosFovXOver2 : Q) (m : Measure) : bool :=
  Qltb (m_cameraAngleXZDot m) (cosFovXOver2 - (4 # 10)).

(** The condition of the [continue] of the first loop. *)
Definition culled (gatherAllNodes : bool) (cosFovXOver2 cosFovYOver2 : Q) (m : Measure)
  : bool :=
  negb gatherAllNodes
  && ((outOfFovX cosFovXOver2 m || outOfFovY cosFovYOver2 m)
      && Qgtb (m_distanceToNode m) (m_ns m)).

(** The variables of the first loop; [nodeRenderCount] is the length of
    [nodeRenderList], and [visited] is the octree's list with the
    distances the loop has written into the nodes it kept. *)
Record Scan : Type := mkScan {
  nodeRenderList : list OctreeNode;
  verticesToCopy : Z;
  visited : list OctreeNode
}.

Definition scanStep (gatherAllNodes : bool) (cosFovXOver2 cosFovYOver2 : Q)
    (cam : Camera) (tempMatrix4 : Matrix4) (acc : Scan) (node : OctreeNode) : Scan :=
  let m := measure cam tempMatrix4 node in
  if culled gatherAllNodes cosFovXOver2 cosFovYOver2 m
  then mkScan (nodeRenderList acc) (verticesToCopy acc) (visited acc ++ [node])
  else
    let node' := set_distanceToNode node (m_distanceToNode m) in
    mkScan (nodeRenderList acc ++ [node'])
           (verticesToCopy acc + member_count node)%Z
           (visited acc ++ [node']).

Definition cosFovXOver2 (st : Viewer) : Q :=
  Math_cos (Math_atan (fst (renderDimensions st) / 2 / cameraFocalLength st)).

Definition cosFovYOver2 (st : Viewer) : Q :=
  Math_cos (Math_atan (snd (renderDimensions st) / 2 / cameraFocalLength st)).

Definition scanNodes (gatherAllNodes : bool) (st : Viewer) : Scan :=
  let tempMatrix4 := m4_invert (matrixWorld (camera st)) in
  fold_left
    (scanStep gatherAllNodes (cosFovXOver2 st) (cosFovYOver2 st) (camera st) tempMatrix4)
    (nodesWithIndexes st) (mkScan [] 0%Z []).

(** The culler's view of one node during a pass over [st]: what it
    measures, whether it skips the node, and the node as it keeps it. *)
Definition nodeMeasure (st : Viewer) (node : OctreeNode) : Measure :=
  measure (camera st) (m4_invert (matrixWorld (camera st))) node.

Definition nodeCulled (gatherAllNodes : bool) (st : Viewer) (node : OctreeNode) : bool :=
  culled gatherAllNodes (cosFovXOver2 st) (cosFovYOver2 st) (nodeMeasure st node).

Definition keepNode (st : Viewer) (node : OctreeNode) : OctreeNode :=
  set_distanceToNode node (m_distanceToNode (nodeMeasure st node)).

(** The nodes the first loop does not skip, in the order of the scan,
    before and after the distance is written into them. *)
Definition retainedNodes (gatherAllNodes : bool) (st : Viewer) : list OctreeNode :=
  filter (fun node => negb (nodeCulled gatherAllNodes st node)) (nodesWithIndexes st).

Definition keptNodes (gatherAllNodes : bool) (st : Viewer) : list OctreeNode :=
  map (keepNode st) (retainedNodes gatherAllNodes st).

(** [nodeRenderList] after the truncation and the sort: the Candidate List. *)
Definition candidateList (gatherAllNodes : bool) (st : Viewer) : list OctreeNode :=
  JS.Array_sort compareNodes (nodeRenderList (scanNodes gatherAllNodes st)).

(** The second loop, from the node at hand on. *)
Fixpoint packLoop (list : list OctreeNode) (currentByteOffset : Z) (st : Viewer)
  : Outcome Viewer :=
  match list with
  | [] => Ok st
  | node :: rest =>
      let st1 :=
        if shouldSort node
        then with_vertexSortCount (vertexSortCount st + member_count node)%Z st
        else st in
      let windowSizeInts := member_count node in
      match inIndexArray st1 with
      | None => Throw JS.TypeError st1
      | Some arr =>
          match JS.window_set (JS.buffer arr) currentByteOffset (indexes (data node)) with
          | None => Throw JS.RangeError st1
          | Some buf =>
              packLoop rest (currentByteOffset + windowSizeInts * BytesPerInt)%Z
                (with_inIndexArray
                   (Some (JS.mkUint32Array buf (JS.byteOffset arr) (JS.view_length arr)))
                   st1)
          end
      end
  end.

Definition gatherSceneNodes (gatherAllNodes : bool) (st : Viewer) : Outcome Viewer :=
  let scan := scanNodes gatherAllNodes st in
  let list := candidateList gatherAllNodes st in
  let st1 := with_nodesWithIndexes (visited scan) st in
  let st2 := with_vertexRenderCount (verticesToCopy scan) st1 in
  let st3 := with_vertexSortCount 0%Z st2 in
  packLoop list 0%Z st3.

(** The in array with the words of its buffer replaced. *)
Definition rewritten (arr : JS.Uint32Array) (ws : list Z) : JS.Uint32Array :=
  JS.mkUint32Array (JS.mkArrayBuffer (JS.buf_id (JS.buffer arr)) ws)
    (JS.byteOffset arr) (JS.view_length arr).

(** The state a pass leaves when it completes. *)
Definition gathered (g : bool) (st : Viewer) (arr : JS.Uint32Array) : Viewer :=
  with_inIndexArray
    (Some (rewritten arr
             (JS.write_words (JS.words (JS.buffer arr)) 0 (members (candidateList g st)))))
    (with_vertexSortCount
       (Z.of_nat (length (members (filter shouldSort (candidateList g st)))))
       (with_vertexRenderCount
          (Z.of_nat (length (members (candidateList g st))))
          (with_nodesWithIndexes
             (map (fun node => if nodeCulled g st node then node else keepNode st node)
                (nodesWithIndexes st))
             st))).

(** *** [updateView] *)

Definition needsRefreshForRotation (st : Viewer) : bool :=
  Qleb (v3_dot (sortViewDir st) (lastSortViewDir st)) (95 # 100).

Definition needsRefreshForPosition (st : Viewer) : bool :=
  Qgeb (v3_length (v3_sub (position (camera st)) (lastSortViewPos st))) 1.

(** The first statement of the branch [!force]: the closure's
    [sortViewDir] becomes the camera's forward direction. *)
Definition refreshSortViewDir (st : Viewer) : Viewer :=
  with_sortViewDir (v3_applyQuaternion forward (quaternion (camera st))) st.

(** The statements after the view-change gate: the request for a sort.
    [tempMatrix] and [cameraPositionArray] are scratch values of the
    closure; every call writes them before it reads them. *)
Definition requestSort (gatherAllNodes : bool) (st : Viewer) : Outcome Viewer :=
  let cam := camera st in
  let tempMatrix := m4_premultiply (m4_invert (matrixWorld cam)) (projectionMatrix cam) in
  let cameraPositionArray := [vx (position cam); vy (position cam); vz (position cam)] in
  if sortRunning st then Ok st
  else
    bind (gatherSceneNodes gatherAllNodes st) (fun st1 =>
      let st2 := with_sortRunning true st1 in
      match inIndexArray st2 with
      | None => Throw JS.TypeError st2
      | Some arr =>
          let job := mkSortJob tempMatrix cameraPositionArray
                       (vertexRenderCount st2) (vertexSortCount st2) (JS.buffer arr) in
          let st3 := with_posted (posted st2 ++ [PostSort job]) st2 in
          let st4 := with_lastSortViewPos (position cam) st3 in
          Ok (with_lastSortViewDir (sortViewDir st4) st4)
      end).

(** Whether a call passes the gate in front of the request. *)
Definition sortRequested (force : bool) (st : Viewer) : bool :=
  force
  || needsRefreshForRotation (refreshSortViewDir st)
  || needsRefreshForPosition (refreshSortViewDir st).

Definition updateView (force gatherAllNodes : bool) (st : Viewer) : Outcome Viewer :=
  if negb force then
    let st1 := refreshSortViewDir st in
    if negb (needsRefreshForRotation st1) && negb (needsRefreshForPosition st1)
    then Ok st1
    else requestSort gatherAllNodes st1
  else requestSort gatherAllNodes st.

(** *** [updateSplatMeshIndexes] and the handler of the worker's messages *)

Definition updateSplatMeshIndexes (indexes : option (list Z)) (renderVertexCount : Z)
    (st : Viewer) : Outcome Viewer :=
  match indexes with
  | None => Throw JS.TypeError st
  | Some src =>
      match JS.typed_set (splatIndex (geometry st)) src with
      | None => Throw JS.RangeError st
      | Some arr => Ok (with_geometry (mkGeometry arr true renderVertexCount) st)
      end
  end.

(** The elements a view of [len] words at byte offset [off] reads. *)
Definition view_elements (b : JS.ArrayBuffer) (off len : Z) : list Z :=
  firstn (Z.to_nat len) (skipn (Z.to_nat (off / 4)) (JS.words b)).

(** [0, 1, ..., n-1]: the seed of the in array. *)
Definition identityIndexes (n : Z) : list Z :=
  map Z.of_nat (seq 0 (Z.to_nat n)).

(** The branch [sortSetupPhase1Complete]. *)
Definition onSetupPhase1 (e : MessageData) (st : Viewer) : Outcome Viewer :=
  let st1 := with_posted (posted st ++ [PostPositions]) st in
  if negb (JS.view_ok (e_outIndexBuffer e) (e_outIndexOffset e) (vertexCount st1))
  then Throw JS.RangeError st1
  else
    let st2 :=
      with_outIndexArray
        (Some (view_elements (e_outIndexBuffer e) (e_outIndexOffset e) (vertexCount st1)))
        st1 in
    if negb (JS.view_ok (e_inIndexBuffer e) (e_inIndexOffset e) (vertexCount st2))
    then Throw JS.RangeError st2
    else
      let seeded :=
        JS.mkArrayBuffer (JS.buf_id (e_inIndexBuffer e))
          (JS.write_words (JS.words (e_inIndexBuffer e))
             (Z.to_nat (e_inIndexOffset e / 4)) (identityIndexes (vertexCount st2))) in
      Ok (with_inIndexArray
            (Some (JS.mkUint32Array seeded (e_inIndexOffset e) (vertexCount st2))) st2).

(** The branch [sortSetupComplete]. The textures [updateSplatMeshAttributes]
    fills are not part of the state; its last statement sets the instance
    count to the vertex count. *)
Definition onSetupComplete (st : Viewer) : Outcome Viewer :=
  bind (updateSplatMeshIndexes (outIndexArray st) (vertexCount st) st) (fun st1 =>
    let g := geometry st1 in
    let st2 :=
      with_geometry (mkGeometry (splatIndex g) (splatIndex_needsUpdate g) (vertexCount st1))
        st1 in
    bind (updateView true true st2) (fun st3 =>
      Ok (with_splatRenderingInitialized true st3))).

Definition onmessage (e : MessageData) (st : Viewer) : Outcome Viewer :=
  if sortDone e then
    let st1 := with_sortRunning false st in
    updateSplatMeshIndexes (outIndexArray st1) (e_vertexRenderCount e) st1
  else if sortCanceled e then Ok (with_sortRunning false st)
  else if sortSetupPhase1Complete e then onSetupPhase1 e st
  else if sortSetupComplete e then onSetupComplete st
  else Ok st.

(** What [gatherSceneNodes] leaves alone, whether it returns or throws:
    the scheduler's flag, the outbox, the geometry, the closure of
    [updateView], the camera, the out array, and whether there is an in
    array. *)
Definition untouched (st s : Viewer) : Prop :=
  camera s = camera st
  /\ sortRunning s = sortRunning st
  /\ posted s = posted st
  /\ geometry s = geometry st
  /\ lastSortViewDir s = lastSortViewDir st
  /\ lastSortViewPos s = lastSortViewPos st
  /\ sortViewDir s = sortViewDir st
  /\ outIndexArray s = outIndexArray st
  /\ (inIndexArray st <> None -> inIndexArray s <> None).

(** What a call of [updateView] does to the flag and the outbox: it raises
    the flag and posts one job, or it leaves both. *)
Definition submits (st s : Viewer) : Prop :=
  sortRunning st = false /\ sortRunning s = true
  /\ exists job, posted s = posted st ++ [PostSort job].

Definition keeps_schedule (st s : Viewer) : Prop :=
  sortRunning s = sortRunning st /\ posted s = posted st.

(** *** What can happen to a viewer *)

Inductive Event : Type :=
| EvEnvironment (cam : Camera) (dims : Q * Q) (focal : Q)
    (* the controls move the camera, the canvas is resized *)
| EvExecutorWrote (out : list Z)
    (* the sort executor fills the window of the out array *)
| EvUpdateView (force gatherAllNodes : bool)
| EvMessage (e : MessageData).

Definition step (ev : Event) (st : Viewer) : Outcome Viewer :=
  match ev with
  | EvEnvironment cam dims focal => Ok (with_environment cam dims focal st)
  | EvExecutorWrote out =>
      match outIndexArray st with
      | Some old =>
          if (length out =? length old)%nat
          then Ok (with_outIndexArray (Some (map JS.ToUint32 out)) st)
          else Ok st
      | None => Ok st
      end
  | EvUpdateView force gatherAllNodes => updateView force gatherAllNodes st
  | EvMessage e => onmessage e st
  end.

(** A run: the events in turn, each from the state the previous one left,
    whether it returned or threw. *)
Definition run (evs : list Event) (st : Viewer) : Viewer :=
  fold_left (fun s ev => state_of (step ev s)) evs st.

End Viewer.

(** ** An exact host

    The functions of three.js over the rationals. A square root is the
    root rounded down to a multiple of [2^-32], exact on the squares of
    rationals; an angle is represented by its tangent, so that the cosine of
    an arc tangent is [1 / sqrt (1 + t^2)]. *)

Module Exact.

Definition Qsqrt (q : Q) : Q :=
  Qred (Z.sqrt (Qnum q * Zpos (Qden q) * 4 ^ 32) # (Qden q * 2 ^ 32)).

Definition length (v : Vector3) : Q :=
  Qsqrt (vx v * vx v + vy v * vy v + vz v * vz v).

Definition divideScalar (v : Vector3) (s : Q) : Vector3 :=
  mkVector3 (Qred (vx v / s)) (Qred (vy v / s)) (Qred (vz v / s)).

(** [divideScalar(this.length() || 1)]. *)
Definition normalize (v : Vector3) : Vector3 :=
  let l := length v in
  divideScalar v (if Qeq_bool l 0 then 1 else l).

Record Quat : Type := mkQuat { qx : Q; qy : Q; qz : Q; qw : Q }.

Definition applyQuaternion (v : Vector3) (q : Quat) : Vector3 :=
  let '(x, y, z) := (vx v, vy v, vz v) in
  let ix := qw q * x + qy q * z - qz q * y in
  let iy := qw q * y + qz q * x - qx q * z in
  let iz := qw q * z + qx q * y - qy q * x in
  let iw := - qx q * x - qy q * y - qz q * z in
  mkVector3
    (Qred (ix * qw q + iw * - qx q + iy * - qz q - iz * - qy q))
    (Qred (iy * qw q + iw * - qy q + iz * - qx q - ix * - qz q))
    (Qred (iz * qw q + iw * - qz q + ix * - qy q - iy * - qx q)).

(** A matrix is the list of its rows. *)
Definition Mat : Type := list (list Q).

Definition identity4 : Mat :=
  [[1; 0; 0; 0]; [0; 1; 0; 0]; [0; 0; 1; 0]; [0; 0; 0; 1]].

Definition entry (m : Mat) (i j : nat) : Q := nth j (nth i m []) 0.

Fixpoint drop_nth (A : Type) (n : nat) (l : list A) : list A :=
  match l, n with
  | [], _ => []
  | _ :: t, O => t
  | h :: t, S k => h :: drop_nth k t
  end.

Definition minor (i j : nat) (m : Mat) : Mat := map (drop_nth j) (drop_nth i m).

Definition sign (k : nat) : Q := if Nat.even k then 1 else -1.

(** The determinant of an [n] by [n] matrix, along its first row. *)
Fixpoint det (n : nat) (m : Mat) : Q :=
  match n with
  | O => 1
  | S k =>
      fold_left Qplus
        (map (fun j => sign j * entry m 0 j * det k (minor 0 j m)) (seq 0 (S k))) 0
  end.

(** [Matrix4.invert]: the adjugate over the determinant, and the zero
    matrix when the determinant is zero. *)
Definition invert (m : Mat) : Mat :=
  let d := det 4 m in
  map (fun i =>
         map (fun j =>
                if Qeq_bool d 0 then 0
                else Qred (sign (i + j) * det 3 (minor j i m) / d))
             (seq 0 4))
      (seq 0 4).

Definition multiply (a b : Mat) : Mat :=
  map (fun i =>
         map (fun j =>
                Qred (fold_left Qplus (map (fun k => entry a i k * entry b k j) (seq 0 4)) 0))
             (seq 0 4))
      (seq 0 4).

(** [m.premultiply(p)] is [p * m]. *)
Definition premultiply (m p : Mat) : Mat := multiply p m.

(** [Vector3.transformDirection]: the upper left 3 by 3 block applied to
    the vector, then [normalize]. *)
Definition transformDirection (v : Vector3) (m : Mat) : Vector3 :=
  let '(x, y, z) := (vx v, vy v, vz v) in
  normalize
    (mkVector3 (entry m 0 0 * x + entry m 0 1 * y + entry m 0 2 * z)
               (entry m 1 0 * x + entry m 1 1 * y + entry m 1 2 * z)
               (entry m 2 0 * x + entry m 2 1 * y + entry m 2 2 * z)).

Definition atan (t : Q) : Q := t.
Definition cos (a : Q) : Q := Qred (1 / Qsqrt (1 + a * a)).

#[export] Instance ExactHost : ThreeHost := {
  Quaternion := Quat;
  Matrix4 := Mat;
  v3_length := length;
  v3_normalize := normalize;
  v3_applyQuaternion := applyQuaternion;
  v3_transformDirection := transformDirection;
  m4_invert := invert;
  m4_premultiply := premultiply;
  Math_atan := atan;
  Math_cos := cos
}.

End Exact.

(** ** A concrete scene

    A camera at the origin that looks down the negative z axis, a square
    viewport of 1200 pixels and a focal length of 800, so that the tangent of
    either half field of view is 3/4 and its cosine 4/5, and five leaves. *)

Module Scene.

Import Exact.

Definition leaf (c lo hi : Vector3) (idx : list Z) : OctreeNode :=
  mkOctreeNode c lo hi (mkNodeData idx None).

(** Straight ahead, at distance 10. *)
Definition ahead : OctreeNode :=
  leaf (mkVector3 0 0 (-10)) (mkVector3 (-1) (-1) (-11)) (mkVector3 1 1 (-9)) [0; 1; 2]%Z.

(** In the vertical plane of the view direction, 67 degrees above it, at
    distance 13, with a diagonal of 3. *)
Definition above : OctreeNode :=
  leaf (mkVector3 0 12 (-5)) (mkVector3 (-1) 11 (-6)) (mkVector3 1 13 (-5)) [3; 4]%Z.

(** Straight ahead, at distance 200. *)
Definition far : OctreeNode :=
  leaf (mkVector3 0 0 (-200)) (mkVector3 (-1) (-1) (-201)) (mkVector3 1 1 (-199))
    [5; 6; 7]%Z.

(** Behind the camera, at distance 3, with a diagonal of more than 13. *)
Definition behind : OctreeNode :=
  leaf (mkVector3 0 0 3) (mkVector3 (-4) (-4) (-1)) (mkVector3 4 4 7) [8]%Z.

(** Ahead and to the right, at distance 10 like [ahead]. *)
Definition beside : OctreeNode :=
  leaf (mkVector3 6 0 (-8)) (mkVector3 5 (-1) (-9)) (mkVector3 7 1 (-7)) [9; 10]%Z.

Definition restingCamera : Camera :=
  mkCamera (mkVector3 0 0 0) (mkQuat 0 0 0 1) identity4 identity4.

(** The camera turned by half a turn about the y axis. *)
Definition turnedCamera : Camera :=
  mkCamera (mkVector3 0 0 0) (mkQuat 0 1 0 0)
    [[-1; 0; 0; 0]; [0; 1; 0; 0]; [0; 0; -1; 0]; [0; 0; 0; 1]] identity4.

(** The camera moved by one unit along z. *)
Definition movedCamera : Camera :=
  mkCamera (mkVector3 0 0 1) (mkQuat 0 0 0 1)
    [[1; 0; 0; 0]; [0; 1; 0; 0]; [0; 0; 1; 1]; [0; 0; 0; 1]] identity4.

Definition seededIn : JS.Uint32Array :=
  JS.mkUint32Array (JS.mkArrayBuffer 1 (identityIndexes 11)) 0 11.

(** The viewer after both handshakes, with no job in flight. *)
Definition idle (cam : Camera) (nodes : list OctreeNode) : Viewer :=
  mkViewer cam (1200, 1200) 800 11 nodes 11 0
    (Some seededIn) (Some (identityIndexes 11)) false true
    (mkGeometry (identityIndexes 11) true 11)
    (mkVector3 0 0 (-1)) (mkVector3 0 0 (-1)) (mkVector3 0 0 0) [].

Definition leaves : list OctreeNode := [ahead; above; far; behind; beside].

Definition inFlight (cam : Camera) (nodes : list OctreeNode) : Viewer :=
  with_sortRunning true (idle cam nodes).

Definition doneMessage (n : Z) : MessageData :=
  mkMessageData true false false false n
    (JS.mkArrayBuffer 0 []) 0 (JS.mkArrayBuffer 0 []) 0.

Definition canceledMessage : MessageData :=
  mkMessageData false true false false 0
    (JS.mkArrayBuffer 0 []) 0 (JS.mkArrayBuffer 0 []) 0.

End Scene.

(** ** Counting over a run *)

Section Counting.

Context {host : ThreeHost}.

Definition isPostSort (p : Posted) : bool :=
  match p with PostSort _ => true | PostPositions => false end.

(** The number of sort jobs among the posted messages. *)
Definition sortJobs (l : list Posted) : nat := length (filter isPostSort l).

(** A message that the handler takes as [sortDone] or as [sortCanceled]. *)
Definition isDoneOrCanceled (ev : Event) : bool :=
  match ev with
  | EvMessage e => sortDone e || sortCanceled e
  | _ => false
  end.

Definition answers (evs : list Event) : nat := length (filter isDoneOrCanceled evs).

(** A message that the handler takes as [sortSetupPhase1Complete]. *)
Definition isHandshake (ev : Event) : bool :=
  match ev with
  | EvMessage e => negb (sortDone e) && negb (sortCanceled e) && sortSetupPhase1Complete e
  | _ => false
  end.

(** The jobs posted so far, plus one when no job is in flight. *)
Definition credit (st : Viewer) : nat :=
  (sortJobs (posted st) + if sortRunning st then 0 else 1)%nat.

(** The attribute and the out array have one element per splat. *)
Definition sized (st : Viewer) : Prop :=
  length (splatIndex (geometry st)) = Z.to_nat (vertexCount st)
  /\ forall out, outIndexArray st = Some out -> length out = Z.to_nat (vertexCount st).

End Counting.

(** ** The attribute textures

    [getAttributeDataFromSplatBuffer] and [updateSplatMeshAttributes]. A
    typed array is its length and its elements; an index out of range reads
    [undefined], and a store out of range is ignored. The arithmetic of
    JavaScript numbers and the rounding of a store into a [Float32Array]
    are the fields of the class [NumberHost]; reading an element of a
    [Float32Array] and storing it again gives the element back. *)

Class NumberHost : Type := {
  number : Type;
  float32 : Type;
  num_nan : number;
  num_of_Z : Z -> number;
  num_min : number -> number -> number;
  num_div : number -> number -> number;
  num_add : number -> number -> number;
  fround : number -> float32;
  widen : float32 -> number;
  fround_widen : forall x : float32, fround (widen x) = x
}.

Record TypedArray (A : Type) : Type := mkTypedArray {
  ta_length : Z;
  ta_get : Z -> A
}.

(** [new T(n)]: [n] elements, all zero. *)
Definition ta_new (A : Type) (zero : A) (n : Z) : TypedArray A :=
  mkTypedArray n (fun _ => zero).

Definition ta_in_range (A : Type) (a : TypedArray A) (i : Z) : bool :=
  ((0 <=? i) && (i <? ta_length a))%Z.

(** [a[i]] as an expression: [None] is [undefined]. *)
Definition ta_read (A : Type) (a : TypedArray A) (i : Z) : option A :=
  if ta_in_range a i then Some (ta_get a i) else None.

(** [a[i] = v] with [v] already converted to the element type. *)
Definition ta_store (A : Type) (a : TypedArray A) (i : Z) (v : A) : TypedArray A :=
  if ta_in_range a i
  then mkTypedArray (ta_length a) (fun j => if (j =? i)%Z then v else ta_get a j)
  else a.

(** Assignments [a[i] = v] one after the other. *)
Definition ta_stores (A : Type) (a : TypedArray A) (ws : list (Z * A)) : TypedArray A :=
  fold_left (fun arr w => ta_store arr (fst w) (snd w)) ws a.

(** The values of [c] in [for (let c = 0; c < n; c++)]. *)
Definition upto (n : Z) : list Z := map Z.of_nat (seq 0 (Z.to_nat n)).

Definition COVARIANCE_DATA_TEXTURE_WIDTH : Z := 4096.
Definition COVARIANCE_DATA_TEXTURE_HEIGHT : Z := 4096.
Definition CENTER_COLOR_DATA_TEXTURE_WIDTH : Z := 4096.
Definition CENTER_COLOR_DATA_TEXTURE_HEIGHT : Z := 4096.

Section Attributes.

Context {num : NumberHost}.

(** What a [Float32Array] element becomes when an expression that read
    [r] is stored: [undefined] converts to NaN. *)
Definition storeFloat (r : option float32) : float32 :=
  match r with
  | Some x => fround (widen x)
  | None => fround num_nan
  end.

(** What a [Uint8Array] element becomes when an expression that read [r]
    from a [Uint8Array] is stored: [undefined] converts to 0. *)
Definition storeByte (r : option Z) : Z :=
  match r with Some z => z | None => 0%Z end.

(** The number an expression that read [r] from a [Uint8Array] denotes. *)
Definition byteNumber (r : option Z) : number :=
  match r with Some z => num_of_Z z | None => num_nan end.

Definition zero32 : float32 := fround (num_of_Z 0).

(** The parts of a splat buffer that [getAttributeDataFromSplatBuffer]
    reads: [getVertexCount()] and the three buffers as typed arrays. *)
Record SplatBufferData : Type := mkSplatBufferData {
  sb_vertexCount : Z;
  sb_bufferData : TypedArray float32;
  sb_precomputedCovariance : TypedArray float32;
  sb_precomputedColor : TypedArray Z
}.

Record AttributeData : Type := mkAttributeData {
  ad_colors : TypedArray Z;
  ad_centerCovariances : TypedArray float32
}.

(** The body of the loop of [getAttributeDataFromSplatBuffer], as the
    assignments it makes: three into [centerCov], four into [color], six
    into [centerCov]. [RowSizeFloats] is [SplatBuffer.RowSizeFloats], which
    is not among the sources. *)
Definition centerWrites (RowSizeFloats : Z) (sb : SplatBufferData) (i : Z)
  : list (Z * float32) :=
  let splatArray := sb_bufferData sb in
  let centerCovBase := (9 * i)%Z in
  let splatArrayBase := (RowSizeFloats * i)%Z in
  [(centerCovBase, storeFloat (ta_read splatArray splatArrayBase));
   (centerCovBase + 1, storeFloat (ta_read splatArray (splatArrayBase + 1)));
   (centerCovBase + 2, storeFloat (ta_read splatArray (splatArrayBase + 2)))]%Z.

Definition colorWrites (sb : SplatBufferData) (i : Z) : list (Z * Z) :=
  let pColorArray := sb_precomputedColor sb in
  let colorBase := (4 * i)%Z in
  let pcColorBase := (4 * i)%Z in
  [(colorBase, storeByte (ta_read pColorArray pcColorBase));
   (colorBase + 1, storeByte (ta_read pColorArray (pcColorBase + 1)));
   (colorBase + 2, storeByte (ta_read pColorArray (pcColorBase + 2)));
   (colorBase + 3, storeByte (ta_read pColorArray (pcColorBase + 3)))]%Z.

Definition covWrites (sb : SplatBufferData) (i : Z) : list (Z * float32) :=
  let pCovarianceArray := sb_precomputedCovariance sb in
  let centerCovBase := (9 * i)%Z in
  let pCovarianceBase := (6 * i)%Z in
  [(centerCovBase + 3, storeFloat (ta_read pCovarianceArray pCovarianceBase));
   (centerCovBase + 4, storeFloat (ta_read pCovarianceArray (pCovarianceBase + 1)));
   (centerCovBase + 5, storeFloat (ta_read pCovarianceArray (pCovarianceBase + 2)));
   (centerCovBase + 6, storeFloat (ta_read pCovarianceArray (pCovarianceBase + 3)));
   (centerCovBase + 7, storeFloat (ta_read pCovarianceArray (pCovarianceBase + 4)));
   (centerCovBase + 8, storeFloat (ta_read pCovarianceArray (pCovarianceBase + 5)))]%Z.

Definition attributeDataStep (RowSizeFloats : Z) (sb : SplatBufferData)
    (acc : AttributeData) (i : Z) : AttributeData :=
  let centerCov := ta_stores (ad_centerCovariances acc) (centerWrites RowSizeFloats sb i) in
  let color := ta_stores (ad_colors acc) (colorWrites sb i) in
  let centerCov := ta_stores centerCov (covWrites sb i) in
  mkAttributeData color centerCov.

Definition getAttributeDataFromSplatBuffer (RowSizeFloats : Z) (sb : SplatBufferData)
  : AttributeData :=
  let vertexCount := sb_vertexCount sb in
  let color := ta_new 0%Z (vertexCount * 4)%Z in
  let centerCov := ta_new zero32 (vertexCount * 9)%Z in
  fold_left (attributeDataStep RowSizeFloats sb) (upto vertexCount)
    (mkAttributeData color centerCov).

Definition rgToFloat (rg0 rg1 : number) : number :=
  num_add rg0 (num_div rg1 (num_of_Z 65025)).

(** A color channel as [updateSplatMeshAttributes] scales it. *)
Definition channel (r : option Z) : number :=
  num_div (num_min (byteNumber r) (num_of_Z 254)) (num_of_Z 255).

(** The body of the first loop of [updateSplatMeshAttributes], as the
    assignments it makes. *)
Definition covarianceWrites (centerCovariances : TypedArray float32) (c : Z)
  : list (Z * float32) :=
  let centerCovarianceBase := (c * 9)%Z in
  let covariancesBase := (c * 6)%Z in
  [(covariancesBase, storeFloat (ta_read centerCovariances (centerCovarianceBase + 3)));
   (covariancesBase + 1, storeFloat (ta_read centerCovariances (centerCovarianceBase + 4)));
   (covariancesBase + 2, storeFloat (ta_read centerCovariances (centerCovarianceBase + 5)));
   (covariancesBase + 3, storeFloat (ta_read centerCovariances (centerCovarianceBase + 6)));
   (covariancesBase + 4, storeFloat (ta_read centerCovariances (centerCovarianceBase + 7)));
   (covariancesBase + 5, storeFloat (ta_read centerCovariances (centerCovarianceBase + 8)))]%Z.

Definition covariancesStep (centerCovariances : TypedArray float32)
    (covariances : TypedArray float32) (c : Z) : TypedArray float32 :=
  ta_stores covariances (covarianceWrites centerCovariances c).

(** The body of the second loop. [tempRG] holds two channels at a time. *)
Definition centerColorWrites (colors : TypedArray Z)
    (centerCovariances : TypedArray float32) (c : Z) : list (Z * float32) :=
  let colorsBase := (c * 4)%Z in
  let centerCovarianceBase := (c * 9)%Z in
  let centerColorsBase := (c * 6)%Z in
  let rg0 := channel (ta_read colors colorsBase) in
  let rg1 := channel (ta_read colors (colorsBase + 1)%Z) in
  let rg2 := channel (ta_read colors (colorsBase + 2)%Z) in
  let rg3 := channel (ta_read colors (colorsBase + 3)%Z) in
  [(centerColorsBase, fround (rgToFloat rg0 rg1));
   (centerColorsBase + 1, fround (rgToFloat rg2 rg3));
   (centerColorsBase + 2, storeFloat (ta_read centerCovariances centerCovarianceBase));
   (centerColorsBase + 3, storeFloat (ta_read centerCovariances (centerCovarianceBase + 1)));
   (centerColorsBase + 4, storeFloat (ta_read centerCovariances (centerCovarianceBase + 2)))]%Z.

Definition centerColorsStep (colors : TypedArray Z) (centerCovariances : TypedArray float32)
    (centerColors : TypedArray float32) (c : Z) : TypedArray float32 :=
  ta_stores centerColors (centerColorWrites colors centerCovariances c).

(** The data of the two textures [updateSplatMeshAttributes] creates. *)
Record AttributeTextures : Type := mkAttributeTextures {
  covarianceTexture : TypedArray float32;
  centerColorTexture : TypedArray float32
}.

Definition updateSplatMeshAttributes (colors : TypedArray Z)
    (centerCovariances : TypedArray float32) (vertexCount : Z) (g : Geometry)
  : AttributeTextures * Geometry :=
  let covariances :=
    fold_left (covariancesStep centerCovariances) (upto vertexCount)
      (ta_new zero32
         (COVARIANCE_DATA_TEXTURE_WIDTH * COVARIANCE_DATA_TEXTURE_HEIGHT * 2)%Z) in
  let centerColors :=
    fold_left (centerColorsStep colors centerCovariances) (upto vertexCount)
      (ta_new zero32
         (CENTER_COLOR_DATA_TEXTURE_WIDTH * CENTER_COLOR_DATA_TEXTURE_HEIGHT * 2)%Z) in
  (mkAttributeTextures covariances centerColors,
   mkGeometry (splatIndex g) (splatIndex_needsUpdate g) vertexCount).

(** The two calls of the [sortSetupComplete] branch that fill the textures:
    the attribute data of the splat buffer, given to
    [updateSplatMeshAttributes] with the vertex count of the buffer. *)
Definition uploadAttributes (RowSizeFloats : Z) (sb : SplatBufferData) (g : Geometry)
  : AttributeTextures * Geometry :=
  let attributeData := getAttributeDataFromSplatBuffer RowSizeFloats sb in
  updateSplatMeshAttributes (ad_colors attributeData) (ad_centerCovariances attributeData)
    (sb_vertexCount sb) g.

(** The element of [centerCov] at index [j], once the loop of
    [getAttributeDataFromSplatBuffer] has reached the splat [j / 9]. *)
Definition centerCovLayout (RowSizeFloats : Z) (sb : SplatBufferData) (j : Z) : float32 :=
  if (j mod 9 <? 3)%Z
  then storeFloat (ta_read (sb_bufferData sb) (RowSizeFloats * (j / 9) + j mod 9)%Z)
  else storeFloat (ta_read (sb_precomputedCovariance sb) (6 * (j / 9) + (j mod 9 - 3))%Z).

(** The element of [covariances] at index [j], once written. *)
Definition covarianceLayout (centerCovariances : TypedArray float32) (j : Z) : float32 :=
  storeFloat (ta_read centerCovariances (9 * (j / 6) + 3 + j mod 6)%Z).

(** The element of [centerColors] at index [j], once written. *)
Definition centerColorLayout (colors : TypedArray Z)
    (centerCovariances : TypedArray float32) (j : Z) : float32 :=
  if (j mod 6 =? 0)%Z then
    fround (rgToFloat (channel (ta_read colors (4 * (j / 6))%Z))
                      (channel (ta_read colors (4 * (j / 6) + 1)%Z)))
  else if (j mod 6 =? 1)%Z then
    fround (rgToFloat (channel (ta_read colors (4 * (j / 6) + 2)%Z))
                      (channel (ta_read colors (4 * (j / 6) + 3)%Z)))
  else storeFloat (ta_read centerCovariances (9 * (j / 6) + (j mod 6 - 2))%Z).

End Attributes.

(** Numbers as rationals, with [None] for NaN, for running the code. *)
Module ExactNumbers.

Definition lift2 (f : Q -> Q -> Q) (a b : option Q) : option Q :=
  match a, b with Some x, Some y => Some (f x y) | _, _ => None end.

Definition min (a b : option Q) : option Q :=
  lift2 (fun x y => if Qle_bool x y then x else y) a b.

#[export] Instance QNumbers : NumberHost := {
  number := option Q;
  float32 := option Q;
  num_nan := None;
  num_of_Z := fun z => Some (inject_Z z);
  num_min := min;
  num_div := lift2 Qdiv;
  num_add := lift2 Qplus;
  fround := fun x => x;
  widen := fun x => x;
  fround_widen := fun x => eq_refl
}.

(** Two splats in rows of eight floats. *)
Definition twoSplats : SplatBufferData :=
  mkSplatBufferData 2
    (mkTypedArray 16 (fun i => Some (inject_Z (100 + i))))
    (mkTypedArray 12 (fun i => Some (inject_Z (200 + i))))
    (mkTypedArray 8 (fun i => (240 + i)%Z)).

End ExactNumbers.

(** ** The viewer at start-up

    The scene of [Scene] before its handshakes, the two messages of the
    handshakes, and a viewer whose in buffer is too small for its octree. *)

Module Startup.

Import Exact.

Definition beforeHandshake (cam : Camera) (nodes : list OctreeNode) : Viewer :=
  with_splatRenderingInitialized false
    (with_inIndexArray None (with_outIndexArray None (Scene.idle cam nodes))).

(** Two buffers of sixteen words; the out window starts at word 5 and the
    in window at word 2. *)
Definition phase1Message : MessageData :=
  mkMessageData false false true false 0
    (JS.mkArrayBuffer 2 (repeat 0%Z 16)) 20 (JS.mkArrayBuffer 3 (repeat 7%Z 16)) 8.

Definition setupCompleteMessage : MessageData :=
  mkMessageData false false false true 0
    (JS.mkArrayBuffer 0 []) 0 (JS.mkArrayBuffer 0 []) 0.

(** An in array of four words. *)
Definition smallIn : JS.Uint32Array :=
  JS.mkUint32Array (JS.mkArrayBuffer 1 (identityIndexes 4)) 0 4.

Definition cramped (cam : Camera) (nodes : list OctreeNode) : Viewer :=
  with_inIndexArray (Some smallIn) (Scene.idle cam nodes).

Definition noGeometry : Geometry := mkGeometry [] false 0.

(** Straight ahead of the resting camera, at distance 20. *)
Definition beyond : OctreeNode :=
  Scene.leaf (mkVector3 0 0 (-20)) (mkVector3 (-1) (-1) (-21)) (mkVector3 1 1 (-19)) [8]%Z.

(** Eleven splats in five leaves, all on the side of the negative z. *)
Definition backLeaves : list OctreeNode :=
  [Scene.ahead; Scene.above; Scene.far; beyond; Scene.beside].

End Startup.

(** The error of an outcome that threw. *)
Definition thrown (S : Type) (o : Outcome S) : option JS.Error :=
  match o with
  | Ok _ => None
  | Throw err _ => Some err
  end.

(** ** The faces of [SplatAnim.updateMesh]

    The index array of the reference mesh is cut into faces of three
    indices. A face is the array literal of three reads of the index array;
    a read past the end is [undefined]. *)

Definition Face : Type := list (option Z).

(** [for (let i = ...; i < indices.length; i += 3) faces.push([...])] from
    the value [i] of the counter and the faces pushed so far, in at most
    [fuel] tests of the loop condition; [None] when they do not suffice. *)
Fixpoint facesLoop (fuel : nat) (indices : TypedArray Z) (i : Z) (faces : list Face)
  : option (list Face) :=
  match fuel with
  | O => None
  | S fuel' =>
      if (i <? ta_length indices)%Z
      then facesLoop fuel' indices (i + 3)%Z
             (faces ++ [[ta_read indices (i + 0)%Z;
                         ta_read indices (i + 1)%Z;
                         ta_read indices (i + 2)%Z]])
      else Some faces
  end.

(** The face the loop pushes in turn [k], and the number of its turns. *)
Definition faceAt (indices : TypedArray Z) (k : Z) : Face :=
  [ta_read indices (3 * k + 0)%Z; ta_read indices (3 * k + 1)%Z;
   ta_read indices (3 * k + 2)%Z].

Definition faceCount (indices : TypedArray Z) : Z := ((ta_length indices + 2) / 3)%Z.

Module Meshes.

(** Two triangles that share an edge. *)
Definition quad : TypedArray Z :=
  mkTypedArray 6 (fun i => nth (Z.to_nat i) [0; 1; 2; 2; 1; 3]%Z 0%Z).

(** An index array with one index too many. *)
Definition ragged : TypedArray Z :=
  mkTypedArray 4 (fun i => nth (Z.to_nat i) [0; 1; 2; 3]%Z 0%Z).

End Meshes.

(** * Properties *)

Unset Implicit Arguments.

(** ** The host's sort with a comparator that orders by a key *)

Section SortSpec.

Variable A : Type.
Variable comparefn : A -> A -> Z.
Variable R : A -> A -> Prop.
Variable P : A -> Prop.

Hypothesis R_trans :
  forall a b c, P a -> P b -> P c -> R a b -> R b c -> R a c.
Hypothesis comparefn_neg :
  forall a b, P a -> P b -> (comparefn a b <? 0)%Z = true -> R a b.
Hypothesis comparefn_nonneg :
  forall a b, P a -> P b -> (comparefn a b <? 0)%Z = false -> R b a.

Lemma sort_insert_perm (pivot : A) (sorted : list A) :
  Permutation (JS.sort_insert comparefn pivot sorted) (pivot :: sorted).
Proof.
  induction sorted as [|e rest IH]; simpl.
  - apply Permutation_refl.
  - destruct (comparefn pivot e <? 0)%Z.
    + apply Permutation_refl.
    + eapply perm_trans; [apply perm_skip, IH | apply perm_swap].
Qed.

Lemma Array_sort_perm_acc (l acc : list A) :
  Permutation
    (fold_left (fun sorted pivot => JS.sort_insert comparefn pivot sorted) l acc)
    (l ++ acc).
Proof.
  revert acc; induction l as [|x l IH]; intros acc; simpl.
  - apply Permutation_refl.
  - eapply perm_trans; [apply IH|].
    eapply perm_trans; [apply Permutation_app_head, sort_insert_perm|].
    apply Permutation_sym, Permutation_middle.
Qed.

Lemma Array_sort_perm (l : list A) : Permutation (JS.Array_sort comparefn l) l.
Proof.
  unfold JS.Array_sort.
  eapply perm_trans; [apply Array_sort_perm_acc|].
  rewrite app_nil_r; apply Permutation_refl.
Qed.

Lemma sort_insert_Forall (Q0 : A -> Prop) (pivot : A) (sorted : list A) :
  Q0 pivot -> Forall Q0 sorted -> Forall Q0 (JS.sort_insert comparefn pivot sorted).
Proof.
  intros Hp Hs.
  eapply Permutation_Forall; [apply Permutation_sym, sort_insert_perm|].
  constructor; assumption.
Qed.

Lemma sort_insert_sorted (pivot : A) (sorted : list A) :
  P pivot -> Forall P sorted -> StronglySorted R sorted ->
  StronglySorted R (JS.sort_insert comparefn pivot sorted).
Proof.
  intros Hp HP Hs.
  induction sorted as [|e rest IH]; simpl.
  - constructor; constructor.
  - inversion HP as [|? ? Pe Prest]; subst.
    inversion Hs as [|? ? Srest Fe]; subst.
    destruct (comparefn pivot e <? 0)%Z eqn:Hc.
    + constructor; [assumption|].
      assert (Rpe : R pivot e) by (apply comparefn_neg; assumption).
      constructor; [assumption|].
      rewrite Forall_forall in *.
      intros x Hx. apply (R_trans _ _ _ Hp Pe (Prest x Hx) Rpe (Fe x Hx)).
    + constructor; [apply IH; assumption|].
      apply sort_insert_Forall; [|assumption].
      apply comparefn_nonneg; assumption.
Qed.

Lemma Array_sort_sorted_acc (l acc : list A) :
  Forall P l -> Forall P acc -> StronglySorted R acc ->
  StronglySorted R
    (fold_left (fun sorted pivot => JS.sort_insert comparefn pivot sorted) l acc).
Proof.
  revert acc; induction l as [|x l IH]; intros acc Hl Hacc Hs; simpl.
  - assumption.
  - inversion Hl; subst.
    apply IH; [assumption| |].
    + apply sort_insert_Forall; assumption.
    + apply sort_insert_sorted; assumption.
Qed.

Lemma Array_sort_sorted (l : list A) :
  Forall P l -> StronglySorted R (JS.Array_sort comparefn l).
Proof.
  intros Hl. apply Array_sort_sorted_acc; [assumption|constructor|constructor].
Qed.

End SortSpec.

(** ** Nodes ordered by their distance *)

Lemma Qltb_true (a b : Q) : Qltb a b = true <-> (a < b)%Q.
Proof.
  unfold Qltb. rewrite negb_true_iff, <- not_true_iff_false, Qle_bool_iff.
  split; [apply Qnot_le_lt | apply Qlt_not_le].
Qed.

Lemma Qltb_false (a b : Q) : Qltb a b = false <-> (b <= a)%Q.
Proof.
  unfold Qltb. rewrite negb_false_iff. apply Qle_bool_iff.
Qed.

Lemma Qgtb_true (a b : Q) : Qgtb a b = true <-> (b < a)%Q.
Proof. apply Qltb_true. Qed.

Lemma Qgtb_false (a b : Q) : Qgtb a b = false <-> (a <= b)%Q.
Proof. apply Qltb_false. Qed.

Lemma Qleb_true (a b : Q) : Qleb a b = true <-> (a <= b)%Q.
Proof. apply Qle_bool_iff. Qed.

Lemma Qleb_false (a b : Q) : Qleb a b = false <-> (b < a)%Q.
Proof.
  unfold Qleb. rewrite <- not_true_iff_false, Qle_bool_iff.
  split; [apply Qnot_le_lt | apply Qlt_not_le].
Qed.

Lemma Qgeb_true (a b : Q) : Qgeb a b = true <-> (b <= a)%Q.
Proof. apply Qle_bool_iff. Qed.

Lemma compareNodes_neg (a b : OctreeNode) :
  has_distance a -> has_distance b ->
  (compareNodes a b <? 0)%Z = true -> distance_le a b.
Proof.
  unfold has_distance, compareNodes, distance_le, js_gt.
  destruct (distanceToNode (data a)) as [x|], (distanceToNode (data b)) as [y|];
    try congruence.
  intros _ _. destruct (Qgtb x y) eqn:G; simpl; [discriminate|].
  intros _. apply Qgtb_false; assumption.
Qed.

Lemma compareNodes_nonneg (a b : OctreeNode) :
  has_distance a -> has_distance b ->
  (compareNodes a b <? 0)%Z = false -> distance_le b a.
Proof.
  unfold has_distance, compareNodes, distance_le, js_gt.
  destruct (distanceToNode (data a)) as [x|], (distanceToNode (data b)) as [y|];
    try congruence.
  intros _ _. destruct (Qgtb x y) eqn:G; simpl; [|discriminate].
  intros _. apply Qlt_le_weak, Qgtb_true; assumption.
Qed.

Lemma distance_le_trans (a b c : OctreeNode) :
  has_distance a -> has_distance b -> has_distance c ->
  distance_le a b -> distance_le b c -> distance_le a c.
Proof.
  unfold has_distance, distance_le.
  destruct (distanceToNode (data a)), (distanceToNode (data b)),
    (distanceToNode (data c)); try tauto.
  intros _ _ _. apply Qle_trans.
Qed.

Lemma Array_sort_by_distance (l : list OctreeNode) :
  Forall has_distance l -> StronglySorted distance_le (JS.Array_sort compareNodes l).
Proof.
  apply Array_sort_sorted with (P := has_distance).
  - apply distance_le_trans.
  - apply compareNodes_neg.
  - apply compareNodes_nonneg.
Qed.

(** ** Writing windows of words *)

Lemma write_words_length (ws : list Z) (k : nat) (src : list Z) :
  (k + length src <= length ws)%nat ->
  length (JS.write_words ws k src) = length ws.
Proof.
  intros Hk. unfold JS.write_words.
  rewrite !length_app, length_map, length_firstn, length_skipn. lia.
Qed.

Lemma firstn_exact (A : Type) (l1 l2 : list A) (n : nat) :
  n = length l1 -> firstn n (l1 ++ l2) = l1.
Proof.
  intros ->. rewrite firstn_app, Nat.sub_diag, firstn_all. simpl. apply app_nil_r.
Qed.

Lemma skipn_exact (A : Type) (l1 l2 : list A) (n : nat) :
  n = length l1 -> skipn n (l1 ++ l2) = l2.
Proof.
  intros ->. rewrite skipn_app, Nat.sub_diag, skipn_all. reflexivity.
Qed.

Lemma write_words_app (ws : list Z) (k : nat) (a b : list Z) :
  (k + length a <= length ws)%nat ->
  JS.write_words (JS.write_words ws k a) (k + length a) b
  = JS.write_words ws k (a ++ b).
Proof.
  intros Hk. unfold JS.write_words.
  assert (Hfa : (k + length a)%nat = length (firstn k ws ++ map JS.ToUint32 a))
    by (rewrite length_app, length_map, length_firstn; lia).
  rewrite (app_assoc (firstn k ws) (map JS.ToUint32 a)).
  rewrite (firstn_exact _ _ _ _ Hfa).
  replace (k + length a + length b)%nat with (length b + (k + length a))%nat by lia.
  rewrite <- skipn_skipn, (skipn_exact _ _ _ _ Hfa), skipn_skipn.
  rewrite map_app, length_app, <- !app_assoc.
  do 4 f_equal. lia.
Qed.

Lemma write_words_nil (ws : list Z) (k : nat) : JS.write_words ws k [] = ws.
Proof.
  unfold JS.write_words. simpl. rewrite Nat.add_0_r. apply firstn_skipn.
Qed.

Lemma write_words_prefix (ws src : list Z) :
  (length src <= length ws)%nat ->
  firstn (length src) (JS.write_words ws 0 src) = map JS.ToUint32 src.
Proof.
  intros _. unfold JS.write_words. simpl.
  apply firstn_exact. symmetry. apply length_map.
Qed.

Lemma window_set_ok (b : JS.ArrayBuffer) (k : nat) (src : list Z) :
  (k + length src <= length (JS.words b))%nat ->
  JS.window_set b (4 * Z.of_nat k) src
  = Some (JS.mkArrayBuffer (JS.buf_id b) (JS.write_words (JS.words b) k src)).
Proof.
  intros Hk. unfold JS.window_set, JS.view_ok, JS.byteLength.
  replace (4 * Z.of_nat k / 4)%Z with (Z.of_nat k)
    by (rewrite Z.mul_comm, Z.div_mul; lia).
  rewrite Nat2Z.id.
  replace (0 <=? 4 * Z.of_nat k)%Z with true by (symmetry; apply Z.leb_le; lia).
  replace (4 * Z.of_nat k mod 4 =? 0)%Z with true
    by (symmetry; apply Z.eqb_eq; rewrite Z.mul_comm; apply Z.mod_mul; lia).
  replace (0 <=? Z.of_nat (length src))%Z with true by (symmetry; apply Z.leb_le; lia).
  replace (4 * Z.of_nat k + 4 * Z.of_nat (length src)
           <=? 4 * Z.of_nat (length (JS.words b)))%Z with true
    by (symmetry; apply Z.leb_le; lia).
  reflexivity.
Qed.

Lemma members_app (l1 l2 : list OctreeNode) : members (l1 ++ l2) = members l1 ++ members l2.
Proof. apply flat_map_app. Qed.

Lemma members_perm (l l' : list OctreeNode) :
  Permutation l l' -> Permutation (members l) (members l').
Proof.
  induction 1; simpl.
  - apply Permutation_refl.
  - apply Permutation_app_head; assumption.
  - rewrite !app_assoc. apply Permutation_app_tail, Permutation_app_comm.
  - eapply perm_trans; eassumption.
Qed.

(** ** The first loop of [gatherSceneNodes] *)

Section Culler.

Context {host : ThreeHost}.

Lemma members_keepNode (st : Viewer) (l : list OctreeNode) :
  members (map (keepNode st) l) = members l.
Proof.
  induction l as [|n l IH]; simpl; [reflexivity|]. now rewrite IH.
Qed.

Lemma member_count_members (l : list OctreeNode) :
  fold_right (fun n s => (member_count n + s)%Z) 0%Z l = Z.of_nat (length (members l)).
Proof.
  induction l as [|n l IH]; simpl; [reflexivity|].
  rewrite IH, length_app. unfold member_count. lia.
Qed.

Lemma scan_fold (g : bool) (st : Viewer) (nodes : list OctreeNode) (acc : Scan) :
  let keep := fun node => negb (nodeCulled g st node) in
  fold_left
    (scanStep g (cosFovXOver2 st) (cosFovYOver2 st) (camera st)
       (m4_invert (matrixWorld (camera st))))
    nodes acc
  = mkScan
      (nodeRenderList acc ++ map (keepNode st) (filter keep nodes))
      (verticesToCopy acc + Z.of_nat (length (members (filter keep nodes))))%Z
      (visited acc
       ++ map (fun node => if nodeCulled g st node then node else keepNode st node) nodes).
Proof.
  intros keep. revert acc.
  induction nodes as [|n nodes IH]; intros acc; simpl.
  - rewrite !app_nil_r, Z.add_0_r. destruct acc; reflexivity.
  - rewrite IH. unfold scanStep, keep.
    change (measure (camera st) (m4_invert (matrixWorld (camera st))) n)
      with (nodeMeasure st n).
    change (culled g (cosFovXOver2 st) (cosFovYOver2 st) (nodeMeasure st n))
      with (nodeCulled g st n).
    change (set_distanceToNode n (m_distanceToNode (nodeMeasure st n)))
      with (keepNode st n).
    destruct (nodeCulled g st n); simpl.
    + rewrite <- app_assoc. reflexivity.
    + rewrite <- !app_assoc. simpl.
      f_equal. rewrite length_app. unfold member_count. lia.
Qed.

Lemma scanNodes_spec (g : bool) (st : Viewer) :
  scanNodes g st
  = mkScan (keptNodes g st)
      (Z.of_nat (length (members (retainedNodes g st))))
      (map (fun node => if nodeCulled g st node then node else keepNode st node)
         (nodesWithIndexes st)).
Proof.
  unfold scanNodes. rewrite scan_fold. reflexivity.
Qed.

Lemma keptNodes_have_distance (g : bool) (st : Viewer) :
  Forall has_distance (keptNodes g st).
Proof.
  unfold keptNodes. apply Forall_forall. intros n Hn.
  apply in_map_iff in Hn as (m & <- & _). unfold has_distance, keepNode. simpl.
  discriminate.
Qed.

Lemma candidateList_perm (g : bool) (st : Viewer) :
  Permutation (candidateList g st) (keptNodes g st).
Proof.
  unfold candidateList. rewrite scanNodes_spec. simpl. apply Array_sort_perm.
Qed.

Lemma candidateList_sorted (g : bool) (st : Viewer) :
  StronglySorted distance_le (candidateList g st).
Proof.
  unfold candidateList. rewrite scanNodes_spec. simpl.
  apply Array_sort_by_distance, keptNodes_have_distance.
Qed.

Lemma candidateList_have_distance (g : bool) (st : Viewer) :
  Forall has_distance (candidateList g st).
Proof.
  eapply Permutation_Forall;
    [apply Permutation_sym, candidateList_perm | apply keptNodes_have_distance].
Qed.

Lemma candidate_members_length (g : bool) (st : Viewer) :
  length (members (candidateList g st)) = length (members (retainedNodes g st)).
Proof.
  rewrite (Permutation_length (members_perm _ _ (candidateList_perm g st))).
  unfold keptNodes. now rewrite members_keepNode.
Qed.

Lemma retained_members_le (g : bool) (st : Viewer) :
  (length (members (retainedNodes g st)) <= length (members (nodesWithIndexes st)))%nat.
Proof.
  unfold retainedNodes.
  induction (nodesWithIndexes st) as [|n l IH]; simpl; [lia|].
  destruct (negb (nodeCulled g st n)); simpl; rewrite ?length_app; lia.
Qed.

End Culler.

(** Reduces the projections of a viewer applied to a record. *)
Ltac viewer_fields :=
  cbn [camera renderDimensions cameraFocalLength vertexCount nodesWithIndexes
       vertexRenderCount vertexSortCount inIndexArray outIndexArray sortRunning
       splatRenderingInitialized geometry lastSortViewDir sortViewDir
       lastSortViewPos posted] in *.

(** ** The second loop of [gatherSceneNodes] *)

Section Packer.

Context {host : ThreeHost}.

Lemma packLoop_spec (list : list OctreeNode) :
  forall (k : nat) (st : Viewer) (arr : JS.Uint32Array),
    inIndexArray st = Some arr ->
    (k + length (members list) <= length (JS.words (JS.buffer arr)))%nat ->
    packLoop list (4 * Z.of_nat k) st
    = Ok (with_inIndexArray
            (Some (rewritten arr (JS.write_words (JS.words (JS.buffer arr)) k (members list))))
            (with_vertexSortCount
               (vertexSortCount st
                + Z.of_nat (length (members (filter shouldSort list))))%Z st)).
Proof.
  induction list as [|node rest IH]; intros k st arr Harr Hk.
  - simpl. rewrite write_words_nil, Z.add_0_r.
    destruct arr as [[id ws] off len]. destruct st; simpl in *; subst. reflexivity.
  - simpl in Hk. rewrite length_app in Hk.
    cbn [packLoop].
    set (st1 := if shouldSort node
                then with_vertexSortCount (vertexSortCount st + member_count node)%Z st
                else st).
    assert (Harr1 : inIndexArray st1 = Some arr)
      by (unfold st1; destruct (shouldSort node); assumption).
    rewrite Harr1, window_set_ok by lia.
    replace (4 * Z.of_nat k + member_count node * BytesPerInt)%Z
      with (4 * Z.of_nat (k + length (indexes (data node))))%Z
      by (unfold member_count, BytesPerInt; lia).
    rewrite (IH _ _ (JS.mkUint32Array
                       (JS.mkArrayBuffer (JS.buf_id (JS.buffer arr))
                          (JS.write_words (JS.words (JS.buffer arr)) k
                             (indexes (data node))))
                       (JS.byteOffset arr) (JS.view_length arr))).
    + unfold rewritten. cbn [JS.buffer JS.words JS.buf_id JS.byteOffset JS.view_length].
      rewrite write_words_app by lia.
      cbn [members flat_map filter].
      subst st1. clear.
      destruct (shouldSort node); unfold with_inIndexArray, with_vertexSortCount;
        viewer_fields; [|reflexivity].
      do 2 f_equal. cbn [flat_map]. rewrite length_app.
      unfold member_count, members. lia.
    + destruct st1; reflexivity.
    + cbn [JS.buffer JS.words]. rewrite write_words_length by lia. lia.
Qed.

(** A pass completes when the in array exists and its buffer has a word
    for every splat of the octree. *)
Lemma gatherSceneNodes_spec (g : bool) (st : Viewer) (arr : JS.Uint32Array) :
  inIndexArray st = Some arr ->
  (length (members (nodesWithIndexes st)) <= length (JS.words (JS.buffer arr)))%nat ->
  gatherSceneNodes g st = Ok (gathered g st arr).
Proof.
  intros Harr Hlen. unfold gatherSceneNodes.
  pose proof (candidate_members_length g st) as Hc.
  pose proof (retained_members_le g st) as Hr.
  change (packLoop (candidateList g st) 0%Z)
    with (packLoop (candidateList g st) (4 * Z.of_nat 0)%Z).
  rewrite packLoop_spec with (arr := arr).
  - unfold gathered. rewrite scanNodes_spec. cbn [verticesToCopy visited].
    rewrite <- Hc. destruct st; reflexivity.
  - destruct st; assumption.
  - simpl. lia.
Qed.

End Packer.

(** ** The culling rule *)

Section CullingRule.

Context {host : ThreeHost}.

Lemma culled_iff (g : bool) (cx cy : Q) (m : Measure) :
  culled g cx cy m = true <->
  g = false
  /\ ((m_cameraAngleXZDot m < cx - (4 # 10))%Q \/ (m_cameraAngleYZDot m < cy - (4 # 10))%Q)
  /\ (m_ns m < m_distanceToNode m)%Q.
Proof.
  unfold culled, outOfFovX, outOfFovY.
  rewrite !andb_true_iff, orb_true_iff, negb_true_iff, !Qltb_true, Qgtb_true.
  tauto.
Qed.

(** C1, as amended. With [gatherAllNodes] false the Candidate List is a
    rearrangement of the nodes the first loop does not skip, and the loop
    skips a node exactly when its planar cosine is below
    [cos(halfFOV) - 0.4] on the horizontal or on the vertical axis and its
    distance to the camera exceeds the length of [max - min]. Hence a
    node that passes both angle tests is kept, and so is a node that is
    not farther than its size. *)
Theorem culler_excludes_on_either_axis (st : Viewer) (node : OctreeNode) :
  let m := nodeMeasure st node in
  Permutation (candidateList false st)
    (map (keepNode st)
       (filter (fun n => negb (nodeCulled false st n)) (nodesWithIndexes st)))
  /\ (nodeCulled false st node = true <->
      ((m_cameraAngleXZDot m < cosFovXOver2 st - (4 # 10))%Q
       \/ (m_cameraAngleYZDot m < cosFovYOver2 st - (4 # 10))%Q)
      /\ (m_ns m < m_distanceToNode m)%Q)
  /\ nodeCulled true st node = false.
Proof.
  intros m. split; [exact (candidateList_perm false st)|]. split.
  - unfold nodeCulled. rewrite culled_iff. fold m. tauto.
  - reflexivity.
Qed.

End CullingRule.

(** C1, as stated, fails. The leaf [above] lies in the vertical plane of the
    view direction, so it passes the horizontal test with a planar cosine of
    1; it fails the vertical test (5/13 is below 4/5 - 0.4) and is farther
    (13) than its size (3). The culler excludes it: the Candidate List is
    made of the other four leaves. *)
Lemma culler_excludes_node_inside_horizontal_fov :
  let st := Scene.idle Scene.restingCamera Scene.leaves in
  In Scene.above (nodesWithIndexes st)
  /\ outOfFovX (cosFovXOver2 st) (nodeMeasure st Scene.above) = false
  /\ outOfFovY (cosFovYOver2 st) (nodeMeasure st Scene.above) = true
  /\ Qgtb (m_distanceToNode (nodeMeasure st Scene.above))
          (m_ns (nodeMeasure st Scene.above)) = true
  /\ candidateList false st
     = map (keepNode st) [Scene.behind; Scene.beside; Scene.ahead; Scene.far].
Proof.
  cbv zeta. split; [right; left; reflexivity|].
  repeat split; vm_compute; reflexivity.
Qed.

(** ** The order of the Candidate List *)

(** C6. After the sort the Candidate List is non-decreasing in
    [distanceToNode], every node in it carries a distance, and it holds the
    kept nodes and nothing else. The order of nodes at equal distance is
    not the order of the scan: [ahead] is scanned before [beside], both are
    at distance 10, and the sort puts [beside] first. *)
Theorem candidate_list_sorted_by_distance :
  (forall (host : ThreeHost) (g : bool) (st : Viewer),
      StronglySorted distance_le (candidateList g st)
      /\ Forall has_distance (candidateList g st)
      /\ Permutation (candidateList g st) (keptNodes g st))
  /\ (let st := Scene.idle Scene.restingCamera [Scene.ahead; Scene.beside] in
      keptNodes false st = [keepNode st Scene.ahead; keepNode st Scene.beside]
      /\ candidateList false st = [keepNode st Scene.beside; keepNode st Scene.ahead]
      /\ distanceToNode (data (keepNode st Scene.ahead)) = Some 10%Q
      /\ distanceToNode (data (keepNode st Scene.beside)) = Some 10%Q).
Proof.
  split.
  - intros host g st. split; [apply candidateList_sorted|].
    split; [apply candidateList_have_distance | apply candidateList_perm].
  - cbv zeta. repeat split; vm_compute; reflexivity.
Qed.

(** ** The packed index buffer *)

Lemma uint32_forallb (l : list Z) :
  forallb (fun i => (0 <=? i)%Z && (i <? 2 ^ 32)%Z) l = true -> Forall uint32 l.
Proof.
  rewrite forallb_forall, Forall_forall. intros H i Hi.
  specialize (H i Hi). apply andb_true_iff in H as [H1 H2].
  apply Z.leb_le in H1. apply Z.ltb_lt in H2. split; assumption.
Qed.

Lemma ToUint32_id (l : list Z) : Forall uint32 l -> map JS.ToUint32 l = l.
Proof.
  induction 1 as [|i l Hi _ IH]; simpl; [reflexivity|].
  rewrite IH. f_equal. apply Z.mod_small. exact Hi.
Qed.

Lemma NoDup_app_disjoint (A : Type) (l1 l2 : list A) (a : A) :
  NoDup (l1 ++ l2) -> In a l1 -> ~ In a l2.
Proof.
  induction l1 as [|x l1 IH]; simpl; [tauto|].
  intros Hnd [->|Hin] H2; inversion Hnd; subst.
  - match goal with H : ~ In _ _ |- _ => apply H end.
    apply in_or_app; right; assumption.
  - apply IH; assumption.
Qed.

Lemma members_filter_incl (p : OctreeNode -> bool) (l : list OctreeNode) :
  incl (members (filter p l)) (members l).
Proof.
  intros i Hi. unfold members in *. apply in_flat_map in Hi as (n & Hn & Hin).
  apply in_flat_map. exists n. apply filter_In in Hn. tauto.
Qed.

Lemma members_filter_NoDup (p : OctreeNode -> bool) (l : list OctreeNode) :
  NoDup (members l) -> NoDup (members (filter p l)).
Proof.
  induction l as [|n l IH]; simpl; intros Hnd; [constructor|].
  pose proof (NoDup_app_remove_l _ _ Hnd) as Hl.
  destruct (p n); simpl; [|apply IH; assumption].
  apply NoDup_app.
  - apply (NoDup_app_remove_r _ _ Hnd).
  - apply IH; assumption.
  - intros a Ha Hin. apply (NoDup_app_disjoint _ _ _ a Hnd Ha).
    apply (members_filter_incl p l). exact Hin.
Qed.

(** In a list sorted by distance the nodes near enough for the fine sort
    come first. *)
Lemma shouldSort_downward (a b : OctreeNode) :
  distance_le a b -> shouldSort b = true -> shouldSort a = true.
Proof.
  unfold distance_le, shouldSort, js_le.
  destruct (distanceToNode (data a)) as [x|], (distanceToNode (data b)) as [y|];
    try tauto.
  rewrite !Qleb_true. apply Qle_trans.
Qed.

Lemma sorted_near_prefix (l : list OctreeNode) :
  StronglySorted distance_le l ->
  l = filter shouldSort l ++ filter (fun n => negb (shouldSort n)) l.
Proof.
  induction 1 as [|a l Hs IH Ha]; simpl; [reflexivity|].
  destruct (shouldSort a) eqn:Sa; simpl.
  - f_equal. exact IH.
  - assert (Hnone : Forall (fun n => shouldSort n = false) l).
    { rewrite Forall_forall in *. intros n Hn.
      destruct (shouldSort n) eqn:Sn; [|reflexivity].
      rewrite (shouldSort_downward _ _ (Ha n Hn) Sn) in Sa. discriminate. }
    clear IH Hs Ha.
    assert (Hsplit : filter shouldSort l = []
                     /\ filter (fun n => negb (shouldSort n)) l = l).
    { induction Hnone as [|n l Hn _ [IH1 IH2]]; simpl; [split; reflexivity|].
      rewrite Hn. simpl. split; [exact IH1 | f_equal; exact IH2]. }
    destruct Hsplit as [-> ->]. reflexivity.
Qed.

Section Packing.

Context {host : ThreeHost}.

Lemma candidate_members_incl (g : bool) (st : Viewer) :
  incl (members (candidateList g st)) (members (nodesWithIndexes st)).
Proof.
  intros i Hi.
  apply (Permutation_in _ (members_perm _ _ (candidateList_perm g st))) in Hi.
  unfold keptNodes in Hi. rewrite members_keepNode in Hi.
  apply (members_filter_incl _ _ _ Hi).
Qed.

Lemma candidate_members_NoDup (g : bool) (st : Viewer) :
  NoDup (members (nodesWithIndexes st)) -> NoDup (members (candidateList g st)).
Proof.
  intros Hnd.
  apply (Permutation_NoDup
           (Permutation_sym (members_perm _ _ (candidateList_perm g st)))).
  unfold keptNodes. rewrite members_keepNode.
  apply members_filter_NoDup. exact Hnd.
Qed.

Lemma candidate_members_uint32 (g : bool) (st : Viewer) :
  Forall uint32 (members (nodesWithIndexes st)) ->
  Forall uint32 (members (candidateList g st)).
Proof.
  rewrite !Forall_forall. intros H i Hi. apply H, (candidate_members_incl _ _ _ Hi).
Qed.

(** C3. When the in array exists, its buffer has a word for every splat of
    the octree and the splat indices are 32-bit, a pass of
    [gatherSceneNodes] returns, [vertexRenderCount] is the number of
    splats of the Candidate List, and the first [vertexRenderCount] words
    of the in buffer are the index arrays of the Candidate List one after
    the other in the sorted order. So an index is packed exactly when a
    candidate owns it, and when no two leaves of the octree share a splat
    no index is packed twice. *)
Theorem packed_buffer_is_candidate_concatenation
    (g : bool) (st : Viewer) (arr : JS.Uint32Array) :
  inIndexArray st = Some arr ->
  (length (members (nodesWithIndexes st)) <= length (JS.words (JS.buffer arr)))%nat ->
  Forall uint32 (members (nodesWithIndexes st)) ->
  exists (st' : Viewer) (arr' : JS.Uint32Array),
    gatherSceneNodes g st = Ok st'
    /\ inIndexArray st' = Some arr'
    /\ vertexRenderCount st' = Z.of_nat (length (members (candidateList g st)))
    /\ firstn (Z.to_nat (vertexRenderCount st')) (JS.words (JS.buffer arr'))
       = concat (map (fun node => indexes (data node)) (candidateList g st))
    /\ (forall i : Z,
           In i (firstn (Z.to_nat (vertexRenderCount st')) (JS.words (JS.buffer arr')))
           <-> exists node, In node (candidateList g st) /\ In i (indexes (data node)))
    /\ (NoDup (members (nodesWithIndexes st)) ->
        NoDup (firstn (Z.to_nat (vertexRenderCount st')) (JS.words (JS.buffer arr')))).
Proof.
  intros Harr Hlen Hrange.
  pose proof (candidate_members_length g st) as Hc.
  pose proof (retained_members_le g st) as Hr.
  assert (Hprefix :
    firstn (length (members (candidateList g st)))
      (JS.write_words (JS.words (JS.buffer arr)) 0 (members (candidateList g st)))
    = members (candidateList g st)).
  { rewrite write_words_prefix by lia.
    apply ToUint32_id, candidate_members_uint32, Hrange. }
  exists (gathered g st arr),
    (rewritten arr
       (JS.write_words (JS.words (JS.buffer arr)) 0 (members (candidateList g st)))).
  split; [apply gatherSceneNodes_spec; assumption|].
  unfold gathered, rewritten, with_inIndexArray, with_vertexSortCount,
    with_vertexRenderCount. viewer_fields. cbn [JS.buffer JS.words].
  rewrite Nat2Z.id, Hprefix.
  split; [reflexivity|]. split; [reflexivity|].
  split; [unfold members; apply flat_map_concat_map|].
  split.
  - intros i. unfold members. rewrite in_flat_map. reflexivity.
  - apply candidate_members_NoDup.
Qed.

(** C4. Under the same conditions the Candidate List splits into the
    nodes at distance at most 125 followed by the nodes farther than 125;
    [vertexSortCount] is the number of splats of the first part, and the
    first [vertexSortCount] words of the in buffer are the index arrays of
    that part. *)
Theorem near_buckets_form_the_packed_prefix
    (g : bool) (st : Viewer) (arr : JS.Uint32Array) :
  inIndexArray st = Some arr ->
  (length (members (nodesWithIndexes st)) <= length (JS.words (JS.buffer arr)))%nat ->
  Forall uint32 (members (nodesWithIndexes st)) ->
  exists (st' : Viewer) (arr' : JS.Uint32Array) (near far : list OctreeNode),
    gatherSceneNodes g st = Ok st'
    /\ inIndexArray st' = Some arr'
    /\ candidateList g st = near ++ far
    /\ Forall (fun node => exists d, distanceToNode (data node) = Some d
                                     /\ (d <= MaximumDistanceToSort)%Q) near
    /\ Forall (fun node => exists d, distanceToNode (data node) = Some d
                                     /\ (MaximumDistanceToSort < d)%Q) far
    /\ vertexSortCount st' = Z.of_nat (length (members near))
    /\ firstn (Z.to_nat (vertexSortCount st')) (JS.words (JS.buffer arr'))
       = concat (map (fun node => indexes (data node)) near).
Proof.
  intros Harr Hlen Hrange.
  pose proof (candidate_members_length g st) as Hc.
  pose proof (retained_members_le g st) as Hr.
  pose proof (sorted_near_prefix _ (candidateList_sorted g st)) as Hsplit.
  pose proof (candidateList_have_distance g st) as Hdist.
  set (near := filter shouldSort (candidateList g st)) in *.
  set (far := filter (fun n => negb (shouldSort n)) (candidateList g st)) in *.
  exists (gathered g st arr),
    (rewritten arr
       (JS.write_words (JS.words (JS.buffer arr)) 0 (members (candidateList g st)))),
    near, far.
  split; [apply gatherSceneNodes_spec; assumption|].
  split; [reflexivity|]. split; [exact Hsplit|].
  split; [|split; [|split; [reflexivity|]]].
  - apply Forall_forall. intros n Hn. apply filter_In in Hn as [_ Hs].
    unfold shouldSort, js_le in Hs.
    destruct (distanceToNode (data n)) as [d|]; [|discriminate].
    exists d. split; [reflexivity | apply Qleb_true, Hs].
  - apply Forall_forall. intros n Hn. apply filter_In in Hn as [Hin Hs].
    rewrite Forall_forall in Hdist. specialize (Hdist n Hin).
    unfold has_distance in Hdist. unfold shouldSort, js_le in Hs.
    destruct (distanceToNode (data n)) as [d|]; [|congruence].
    exists d. split; [reflexivity | apply Qleb_false, negb_true_iff, Hs].
  - unfold gathered, rewritten, with_inIndexArray, with_vertexSortCount.
    viewer_fields. cbn [JS.buffer JS.words]. fold near.
    rewrite Nat2Z.id. rewrite Hsplit at 1. rewrite members_app.
    unfold JS.write_words. cbn [firstn app]. rewrite map_app, <- app_assoc.
    rewrite firstn_exact by (symmetry; apply length_map).
    rewrite <- flat_map_concat_map. fold (members near).
    apply ToUint32_id. apply Forall_forall. intros i Hi.
    pose proof (candidate_members_uint32 g st Hrange) as Hu.
    rewrite Forall_forall in Hu. apply Hu.
    rewrite Hsplit, members_app. apply in_or_app. left. exact Hi.
Qed.

End Packing.

(** ** The scheduler *)

Section Scheduler.

Context {host : ThreeHost}.

Lemma untouched_refl (st : Viewer) : untouched st st.
Proof. unfold untouched. tauto. Qed.

Lemma untouched_trans (a b c : Viewer) : untouched a b -> untouched b c -> untouched a c.
Proof.
  unfold untouched. intros (A1 & A2 & A3 & A4 & A5 & A6 & A7 & A8 & A9)
                           (B1 & B2 & B3 & B4 & B5 & B6 & B7 & B8 & B9).
  repeat split; try congruence. auto.
Qed.

Lemma packLoop_untouched (list : list OctreeNode) :
  forall (off : Z) (st : Viewer), untouched st (state_of (packLoop list off st)).
Proof.
  induction list as [|node rest IH]; intros off st; cbn [packLoop].
  - apply untouched_refl.
  - set (st1 := if shouldSort node
                then with_vertexSortCount (vertexSortCount st + member_count node)%Z st
                else st).
    assert (H1 : untouched st st1).
    { unfold st1. destruct (shouldSort node); [|apply untouched_refl].
      unfold untouched. cbn. tauto. }
    destruct (inIndexArray st1) as [arr|] eqn:Harr; [|exact H1].
    destruct (JS.window_set (JS.buffer arr) off (indexes (data node))); [|exact H1].
    eapply untouched_trans; [exact H1|].
    eapply untouched_trans; [|apply IH].
    unfold untouched. cbn. repeat split; intros; discriminate.
Qed.

Lemma gatherSceneNodes_untouched (g : bool) (st : Viewer) :
  untouched st (state_of (gatherSceneNodes g st)).
Proof.
  unfold gatherSceneNodes.
  eapply untouched_trans; [|apply packLoop_untouched].
  unfold untouched. cbn. tauto.
Qed.

(** A request while a job is in flight returns at once. *)
Lemma requestSort_dropped (g : bool) (st : Viewer) :
  sortRunning st = true -> requestSort g st = Ok st.
Proof. intros H. unfold requestSort. rewrite H. reflexivity. Qed.

(** A request while idle either throws inside [gatherSceneNodes], before
    the flag is raised, or raises the flag, posts one job and records the
    snapshot. *)
Lemma requestSort_idle (g : bool) (st : Viewer) :
  inIndexArray st <> None ->
  sortRunning st = false ->
  (exists e s, requestSort g st = Throw e s /\ untouched st s)
  \/ (exists s job,
         requestSort g st = Ok s
         /\ sortRunning s = true
         /\ posted s = posted st ++ [PostSort job]
         /\ lastSortViewPos s = position (camera st)
         /\ lastSortViewDir s = sortViewDir st
         /\ sortViewDir s = sortViewDir st
         /\ geometry s = geometry st
         /\ inIndexArray s <> None).
Proof.
  intros Hin Hidle. unfold requestSort. rewrite Hidle.
  pose proof (gatherSceneNodes_untouched g st) as Hu.
  destruct (gatherSceneNodes g st) as [st1|e s]; cbn [bind state_of] in *.
  - right. destruct Hu as (U1 & U2 & U3 & U4 & U5 & U6 & U7 & U8 & U9).
    specialize (U9 Hin).
    change (inIndexArray (with_sortRunning true st1)) with (inIndexArray st1).
    destruct (inIndexArray st1) as [arr|] eqn:Harr; [|congruence].
    eexists; eexists. split; [reflexivity|]. cbn.
    rewrite U3, U4, U7, Harr. repeat split; discriminate.
  - left. exists e, s. split; [reflexivity | exact Hu].
Qed.

Lemma requestSort_schedule (g : bool) (st : Viewer) :
  inIndexArray st <> None ->
  let s := state_of (requestSort g st) in
  (keeps_schedule st s \/ submits st s) /\ inIndexArray s <> None.
Proof.
  intros Hin. destruct (sortRunning st) eqn:Hrun.
  - rewrite requestSort_dropped by assumption. cbn.
    split; [left; split; reflexivity | assumption].
  - destruct (requestSort_idle g st Hin Hrun)
      as [(e & s & -> & Hu) | (s & job & -> & H1 & H2 & _ & _ & _ & _ & H3)]; cbn.
    + destruct Hu as (_ & U2 & U3 & _ & _ & _ & _ & _ & U9).
      split; [left; split; assumption | auto].
    + split; [right; repeat split; eauto | assumption].
Qed.

Lemma updateView_gate (force g : bool) (st : Viewer) :
  updateView force g st
  = if sortRequested force st
    then requestSort g (if force then st else refreshSortViewDir st)
    else Ok (refreshSortViewDir st).
Proof.
  unfold updateView, sortRequested. destruct force; cbn; [reflexivity|].
  destruct (needsRefreshForRotation (refreshSortViewDir st)),
    (needsRefreshForPosition (refreshSortViewDir st)); reflexivity.
Qed.

Lemma updateView_schedule (force g : bool) (st : Viewer) :
  inIndexArray st <> None ->
  let s := state_of (updateView force g st) in
  (keeps_schedule st s \/ submits st s) /\ inIndexArray s <> None.
Proof.
  intros Hin. rewrite updateView_gate.
  destruct (sortRequested force st).
  - destruct force; [apply requestSort_schedule; assumption|].
    apply (requestSort_schedule g (refreshSortViewDir st)). exact Hin.
  - cbn. split; [left; split; reflexivity | exact Hin].
Qed.

Lemma updateSplatMeshIndexes_schedule (idx : option (list Z)) (n : Z) (st : Viewer) :
  let s := state_of (updateSplatMeshIndexes idx n st) in
  keeps_schedule st s /\ inIndexArray s = inIndexArray st.
Proof.
  unfold updateSplatMeshIndexes.
  destruct idx as [src|]; [|cbn; repeat split].
  destruct (JS.typed_set (splatIndex (geometry st)) src); cbn; repeat split.
Qed.

End Scheduler.

(** ** The view-change gate and the snapshot *)

Section Gate.

Context {host : ThreeHost}.

(** C5. A call with [force] false passes the gate exactly when the dot
    product of the camera's forward vector with the snapshot's direction is
    at most 0.95 or the camera is at least 1.0 away from the snapshot's
    position, both bounds included; a call with [force] true always passes.
    A call that passes goes on with the request, and a call that does not
    returns with nothing changed but the closure's [sortViewDir]. *)
Theorem view_change_gate (force g : bool) (st : Viewer) :
  let dir := v3_applyQuaternion forward (quaternion (camera st)) in
  let offset := v3_sub (position (camera st)) (lastSortViewPos st) in
  (sortRequested false st = true <->
   (v3_dot dir (lastSortViewDir st) <= 95 # 100)%Q \/ (1 <= v3_length offset)%Q)
  /\ sortRequested true st = true
  /\ updateView force g st
     = if sortRequested force st
       then requestSort g (if force then st else refreshSortViewDir st)
       else Ok (refreshSortViewDir st).
Proof.
  intros dir offset. split; [|split; [reflexivity | apply updateView_gate]].
  unfold sortRequested, needsRefreshForRotation, needsRefreshForPosition.
  cbn [orb]. rewrite orb_true_iff, Qleb_true, Qgeb_true. reflexivity.
Qed.

(** The snapshot changes only when a job is posted. *)
Lemma snapshot_kept_without_submission (force g : bool) (st : Viewer) :
  let s := state_of (updateView force g st) in
  posted s = posted st ->
  lastSortViewPos s = lastSortViewPos st /\ lastSortViewDir s = lastSortViewDir st.
Proof.
  cbv zeta. rewrite updateView_gate.
  assert (Hreq : forall st0 : Viewer,
             posted (state_of (requestSort g st0)) = posted st0 ->
             lastSortViewPos (state_of (requestSort g st0)) = lastSortViewPos st0
             /\ lastSortViewDir (state_of (requestSort g st0)) = lastSortViewDir st0).
  { intros st0. unfold requestSort. destruct (sortRunning st0); [cbn; tauto|].
    pose proof (gatherSceneNodes_untouched g st0) as Hu.
    destruct (gatherSceneNodes g st0) as [st1|e s]; cbn [bind state_of] in *;
      destruct Hu as (_ & _ & U3 & _ & U5 & U6 & _).
    - change (inIndexArray (with_sortRunning true st1)) with (inIndexArray st1).
      destruct (inIndexArray st1); cbn; [|tauto].
      rewrite U3. intros Hp. exfalso.
      apply (f_equal (@length _)) in Hp. rewrite length_app in Hp. cbn in Hp. lia.
    - tauto. }
  destruct (sortRequested force st); [|cbn; tauto].
  destruct force; [apply Hreq|]. apply (Hreq (refreshSortViewDir st)).
Qed.

(** A submission of a call with [force] false records the camera's
    position and forward direction. *)
Lemma unforced_submission_records_camera (g : bool) (st : Viewer) :
  let s := state_of (updateView false g st) in
  posted s <> posted st ->
  lastSortViewPos s = position (camera st)
  /\ lastSortViewDir s = v3_applyQuaternion forward (quaternion (camera st)).
Proof.
  cbv zeta. rewrite updateView_gate.
  destruct (sortRequested false st); [|cbn; tauto].
  unfold requestSort. destruct (sortRunning (refreshSortViewDir st)); [cbn; tauto|].
  pose proof (gatherSceneNodes_untouched g (refreshSortViewDir st)) as Hu.
  destruct (gatherSceneNodes g (refreshSortViewDir st)) as [st1|e s];
    cbn [bind state_of] in *; destruct Hu as (_ & _ & U3 & _ & _ & _ & U7 & _).
  - change (inIndexArray (with_sortRunning true st1)) with (inIndexArray st1).
    destruct (inIndexArray st1); cbn; [|tauto].
    rewrite U7. intros _. split; reflexivity.
  - tauto.
Qed.

(** C10. A call with [force] true while a job is in flight returns the
    viewer as it was: no job is posted, the in array and its buffer are
    the same, the snapshot is the same, the flag stays raised, and every
    later run goes as it would have gone without the call. *)
Theorem forced_request_in_flight_is_dropped (g : bool) (st : Viewer) :
  sortRunning st = true ->
  updateView true g st = Ok st
  /\ jobState (state_of (updateView true g st)) = InFlight
  /\ posted (state_of (updateView true g st)) = posted st
  /\ inIndexArray (state_of (updateView true g st)) = inIndexArray st
  /\ lastSortViewPos (state_of (updateView true g st)) = lastSortViewPos st
  /\ lastSortViewDir (state_of (updateView true g st)) = lastSortViewDir st
  /\ forall evs : list Event, run evs (state_of (updateView true g st)) = run evs st.
Proof.
  intros Hrun.
  assert (E : updateView true g st = Ok st)
    by (unfold updateView; cbn; apply requestSort_dropped; exact Hrun).
  rewrite E. cbn [state_of]. unfold jobState. rewrite Hrun. repeat split.
Qed.

End Gate.

(** C7, at the failing input. The camera is turned by half a turn about the
    y axis, so that its forward direction is (0, 0, 1), and the viewer is
    idle. The forced call posts a job and records the position of the
    camera, but the direction it records is the initial [sortViewDir] of the
    closure, (0, 0, -1): the statement that computes the camera's forward
    direction is inside the branch [!force]. *)
Theorem forced_submission_records_stale_direction :
  let st := Scene.idle Scene.turnedCamera Scene.leaves in
  let s := state_of (updateView true true st) in
  returns (updateView true true st) = true
  /\ sortRunning s = true
  /\ length (posted s) = S (length (posted st))
  /\ lastSortViewPos s = position (camera st)
  /\ v3_applyQuaternion forward (quaternion (camera st)) = mkVector3 0 0 1
  /\ lastSortViewDir s = mkVector3 0 0 (-1).
Proof.
  cbv zeta. repeat split; vm_compute; reflexivity.
Qed.

(** ** The job state and the worker's messages *)

Section Protocol.

Context {host : ThreeHost}.

Lemma jobState_Idle (st : Viewer) : jobState st = Idle <-> sortRunning st = false.
Proof. unfold jobState. destruct (sortRunning st); split; congruence. Qed.

Lemma jobState_InFlight (st : Viewer) : jobState st = InFlight <-> sortRunning st = true.
Proof. unfold jobState. destruct (sortRunning st); split; congruence. Qed.

Lemma onSetupPhase1_schedule (e : MessageData) (st : Viewer) :
  sortRunning (state_of (onSetupPhase1 e st)) = sortRunning st.
Proof.
  unfold onSetupPhase1.
  destruct (negb (JS.view_ok (e_outIndexBuffer e) (e_outIndexOffset e) _));
    [reflexivity|].
  destruct (negb (JS.view_ok (e_inIndexBuffer e) (e_inIndexOffset e) _)); reflexivity.
Qed.

Lemma onSetupComplete_schedule (st : Viewer) :
  inIndexArray st <> None ->
  let s := state_of (onSetupComplete st) in
  keeps_schedule st s \/ submits st s.
Proof.
  intros Hin. unfold onSetupComplete.
  pose proof (updateSplatMeshIndexes_schedule (outIndexArray st) (vertexCount st) st)
    as [[K1 K2] K3].
  destruct (updateSplatMeshIndexes (outIndexArray st) (vertexCount st) st)
    as [st1|err st1]; cbn [bind state_of] in *; [|left; split; assumption].
  set (st2 := with_geometry _ st1).
  assert (Hin2 : inIndexArray st2 <> None) by (unfold st2; cbn; congruence).
  pose proof (updateView_schedule true true st2 Hin2) as [Hs _].
  assert (Hfinal :
    sortRunning (state_of (bind (updateView true true st2)
                             (fun st3 => Ok (with_splatRenderingInitialized true st3))))
    = sortRunning (state_of (updateView true true st2))
    /\ posted (state_of (bind (updateView true true st2)
                           (fun st3 => Ok (with_splatRenderingInitialized true st3))))
       = posted (state_of (updateView true true st2)))
    by (destruct (updateView true true st2); split; reflexivity).
  destruct Hfinal as [F1 F2].
  change (sortRunning st2) with (sortRunning st1) in Hs.
  change (posted st2) with (posted st1) in Hs.
  unfold keeps_schedule, submits in *. rewrite F1, F2, <- K1, <- K2.
  exact Hs.
Qed.

(** The transitions of the job state once the first handshake has set the
    in array. The job state is [Idle] or [InFlight]. From a viewer that has its
    in array, an event takes the state from [Idle] to [InFlight] only if
    it is a call of [updateView], direct or from the handler of
    [sortSetupComplete], and then exactly one sort job has been posted; it
    takes the state from [InFlight] to [Idle] only if it is a message with
    [sortDone] or [sortCanceled]. A call of [updateView] while the state
    is [InFlight] returns, posts nothing, and leaves the state [InFlight]
    and the in array, buffer identity and words included, as they were;
    nothing of the request remains but the refreshed [sortViewDir]. *)
Theorem job_state_transitions (ev : Event) (st : Viewer) :
  inIndexArray st <> None ->
  let s := state_of (step ev st) in
  (jobState st = Idle \/ jobState st = InFlight)
  /\ (jobState st = Idle -> jobState s = InFlight ->
      ((exists f g, ev = EvUpdateView f g)
       \/ (exists e, ev = EvMessage e /\ sortSetupComplete e = true))
      /\ exists job, posted s = posted st ++ [PostSort job])
  /\ (jobState st = InFlight -> jobState s = Idle ->
      exists e, ev = EvMessage e /\ (sortDone e = true \/ sortCanceled e = true))
  /\ (forall f g, ev = EvUpdateView f g -> jobState st = InFlight ->
      step ev st = Ok (if f then st else refreshSortViewDir st)
      /\ jobState s = InFlight
      /\ inIndexArray s = inIndexArray st
      /\ posted s = posted st).
Proof.
  intros Hin s.
  split; [unfold jobState; destruct (sortRunning st); tauto|].
  assert (Hcases :
    sortRunning s = sortRunning st
    \/ (submits st s
        /\ ((exists f g, ev = EvUpdateView f g)
            \/ (exists e, ev = EvMessage e /\ sortSetupComplete e = true)))
    \/ (sortRunning s = false
        /\ exists e, ev = EvMessage e /\ (sortDone e = true \/ sortCanceled e = true))).
  { subst s. destruct ev as [cam dims focal|out|f g|e]; cbn [step].
    - left; reflexivity.
    - left. destruct (outIndexArray st) as [old|]; [|reflexivity].
      destruct (length out =? length old)%nat; reflexivity.
    - destruct (updateView_schedule f g st Hin) as [[[K _]|Hs] _].
      + left; exact K.
      + right; left. split; [exact Hs | left; eauto].
    - unfold onmessage.
      destruct (sortDone e) eqn:Hd.
      { right; right. split; [|exists e; auto].
        pose proof (updateSplatMeshIndexes_schedule
                      (outIndexArray (with_sortRunning false st))
                      (e_vertexRenderCount e) (with_sortRunning false st))
          as [[K1 _] _].
        rewrite K1. reflexivity. }
      destruct (sortCanceled e) eqn:Hc.
      { right; right. split; [reflexivity | exists e; auto]. }
      destruct (sortSetupPhase1Complete e).
      { left. apply onSetupPhase1_schedule. }
      destruct (sortSetupComplete e) eqn:Hsc; [|left; reflexivity].
      destruct (onSetupComplete_schedule st Hin) as [[K _]|Hs].
      + left; exact K.
      + right; left. split; [exact Hs | right; eauto]. }
  split; [|split].
  - rewrite jobState_Idle, jobState_InFlight. intros Hidle Hfly.
    destruct Hcases as [K|[[(_ & _ & Hjob) Hev]|[K _]]]; [congruence| |congruence].
    split; assumption.
  - rewrite jobState_Idle, jobState_InFlight. intros Hfly Hidle.
    destruct Hcases as [K|[[(K & _) _]|[_ Hev]]]; [congruence|congruence|].
    exact Hev.
  - intros f g -> Hfly. apply jobState_InFlight in Hfly.
    assert (E : step (EvUpdateView f g) st
                = Ok (if f then st else refreshSortViewDir st)).
    { cbn [step]. unfold updateView. destruct f; cbn [negb].
      - apply requestSort_dropped; exact Hfly.
      - destruct (negb (needsRefreshForRotation (refreshSortViewDir st))
                  && negb (needsRefreshForPosition (refreshSortViewDir st)));
          [reflexivity | apply requestSort_dropped; exact Hfly]. }
    subst s. rewrite E. cbn [state_of].
    split; [reflexivity|]. rewrite jobState_InFlight.
    destruct f; repeat split; assumption.
Qed.

(** The handshake message keeps the job state, whatever the viewer. *)
Lemma setup_phase1_keeps_job_state (e : MessageData) (st : Viewer) :
  sortDone e = false -> sortCanceled e = false -> sortSetupPhase1Complete e = true ->
  jobState (state_of (onmessage e st)) = jobState st.
Proof.
  intros Hd Hc Hp. unfold onmessage, jobState. rewrite Hd, Hc, Hp.
  rewrite onSetupPhase1_schedule. reflexivity.
Qed.

(** C8. A message that carries [sortCanceled], and not [sortDone], lowers
    the flag and does nothing else: the state becomes [Idle], and the
    draw-order attribute, its update mark and the instance count are the
    ones the last publish left. *)
Theorem cancel_returns_to_idle_without_publishing (e : MessageData) (st : Viewer) :
  sortRunning st = true ->
  sortDone e = false ->
  sortCanceled e = true ->
  onmessage e st = Ok (with_sortRunning false st)
  /\ jobState (state_of (onmessage e st)) = Idle
  /\ splatIndex (geometry (state_of (onmessage e st))) = splatIndex (geometry st)
  /\ instanceCount (geometry (state_of (onmessage e st))) = instanceCount (geometry st)
  /\ geometry (state_of (onmessage e st)) = geometry st
  /\ posted (state_of (onmessage e st)) = posted st.
Proof.
  intros _ Hd Hc. unfold onmessage. rewrite Hd, Hc. cbn. repeat split.
Qed.

(** C9. A message that carries [sortDone] with render count [N], received
    by a viewer whose out array fits the draw-order attribute, lowers the
    flag, copies the out array into the attribute and sets the instance
    count to [N], whatever the vertex count of the scene. *)
Theorem publish_sets_instance_count (e : MessageData) (st : Viewer) (out : list Z) :
  sortDone e = true ->
  outIndexArray st = Some out ->
  (length out <= length (splatIndex (geometry st)))%nat ->
  exists s : Viewer,
    onmessage e st = Ok s
    /\ instanceCount (geometry s) = e_vertexRenderCount e
    /\ splatIndex (geometry s)
       = map JS.ToUint32 out ++ skipn (length out) (splatIndex (geometry st))
    /\ splatIndex_needsUpdate (geometry s) = true
    /\ jobState s = Idle
    /\ vertexCount s = vertexCount st.
Proof.
  intros Hd Hout Hlen. unfold onmessage, updateSplatMeshIndexes. rewrite Hd.
  change (outIndexArray (with_sortRunning false st)) with (outIndexArray st).
  change (geometry (with_sortRunning false st)) with (geometry st).
  rewrite Hout. unfold JS.typed_set.
  apply Nat.leb_le in Hlen. rewrite Hlen.
  eexists. split; [reflexivity|]. cbn. repeat split.
Qed.

(** A viewer that has its in array keeps one, whatever happens. *)
Lemma in_array_kept (ev : Event) (st : Viewer) :
  inIndexArray st <> None -> inIndexArray (state_of (step ev st)) <> None.
Proof.
  intros Hin. destruct ev as [cam dims focal|out|f g|e]; cbn [step].
  - exact Hin.
  - destruct (outIndexArray st) as [old|]; [|exact Hin].
    destruct (length out =? length old)%nat; exact Hin.
  - apply updateView_schedule; exact Hin.
  - unfold onmessage.
    destruct (sortDone e).
    { pose proof (updateSplatMeshIndexes_schedule
                    (outIndexArray (with_sortRunning false st))
                    (e_vertexRenderCount e) (with_sortRunning false st)) as [_ K].
      rewrite K. exact Hin. }
    destruct (sortCanceled e); [exact Hin|].
    destruct (sortSetupPhase1Complete e).
    { unfold onSetupPhase1.
      destruct (negb (JS.view_ok (e_outIndexBuffer e) (e_outIndexOffset e) _));
        [exact Hin|].
      destruct (negb (JS.view_ok (e_inIndexBuffer e) (e_inIndexOffset e) _));
        [exact Hin | cbn; discriminate]. }
    destruct (sortSetupComplete e); [|exact Hin].
    unfold onSetupComplete.
    pose proof (updateSplatMeshIndexes_schedule (outIndexArray st) (vertexCount st) st)
      as [_ K].
    destruct (updateSplatMeshIndexes (outIndexArray st) (vertexCount st) st)
      as [st1|err st1]; cbn [bind state_of] in *; [|congruence].
    set (st2 := with_geometry _ st1).
    assert (Hin2 : inIndexArray st2 <> None) by (unfold st2; cbn; congruence).
    pose proof (updateView_schedule true true st2 Hin2) as [_ Hk].
    destruct (updateView true true st2); exact Hk.
Qed.

Lemma in_array_kept_along_run (evs : list Event) (st : Viewer) :
  inIndexArray st <> None -> inIndexArray (run evs st) <> None.
Proof.
  revert st. induction evs as [|ev evs IH]; intros st Hin; cbn; [exact Hin|].
  apply IH, in_array_kept, Hin.
Qed.

(** The geometry changes only when a handler publishes. *)
Lemma geometry_changes_only_by_publish (ev : Event) (st : Viewer) :
  geometry (state_of (step ev st)) <> geometry st ->
  exists e, ev = EvMessage e /\ (sortDone e = true \/ sortSetupComplete e = true).
Proof.
  intros Hg. destruct ev as [cam dims focal|out|f g|e]; cbn [step] in Hg.
  - exfalso; apply Hg; reflexivity.
  - exfalso; apply Hg. destruct (outIndexArray st) as [old|]; [|reflexivity].
    destruct (length out =? length old)%nat; reflexivity.
  - exfalso; apply Hg. rewrite updateView_gate.
    assert (Hreq : forall st0, geometry (state_of (requestSort g st0)) = geometry st0).
    { intros st0. unfold requestSort. destruct (sortRunning st0); [reflexivity|].
      pose proof (gatherSceneNodes_untouched g st0) as (_ & _ & _ & U4 & _).
      destruct (gatherSceneNodes g st0) as [st1|err s1]; cbn [bind state_of] in *;
        [|exact U4].
      change (inIndexArray (with_sortRunning true st1)) with (inIndexArray st1).
      destruct (inIndexArray st1); cbn; exact U4. }
    destruct (sortRequested f st); [|reflexivity].
    destruct f; [apply Hreq | apply (Hreq (refreshSortViewDir st))].
  - exists e. split; [reflexivity|]. unfold onmessage in Hg.
    destruct (sortDone e); [left; reflexivity|].
    destruct (sortCanceled e); [exfalso; apply Hg; reflexivity|].
    destruct (sortSetupPhase1Complete e).
    + exfalso; apply Hg. unfold onSetupPhase1.
      destruct (negb (JS.view_ok (e_outIndexBuffer e) (e_outIndexOffset e) _));
        [reflexivity|].
      destruct (negb (JS.view_ok (e_inIndexBuffer e) (e_inIndexOffset e) _));
        reflexivity.
    + destruct (sortSetupComplete e); [right; reflexivity|].
      exfalso; apply Hg; reflexivity.
Qed.

End Protocol.

(** C2, at the failing input. The octree is built and the sort worker has
    not yet answered, so the in array is still [null]; the camera has been
    turned by half a turn about the y axis and looks away from every leaf.
    The call [updateView()] of a frame finds no candidate, so
    [gatherSceneNodes] returns; the call then sets [sortRunning] and throws
    a [TypeError] on [this.inIndexArray.buffer] in the argument of
    [postMessage]: the job state goes from [Idle] to [InFlight] and no sort
    job has been posted. Nothing lowers the flag afterwards: both
    handshakes arrive, the forced request of the second is dropped, and so
    is every later request. *)
Theorem flag_raised_without_submission :
  let st := Startup.beforeHandshake Scene.turnedCamera Startup.backLeaves in
  let s := state_of (updateView false false st) in
  let later :=
    run [EvMessage Startup.phase1Message; EvMessage Startup.setupCompleteMessage;
         EvUpdateView false false; EvUpdateView true true] s in
  inIndexArray st = None
  /\ jobState st = Idle
  /\ candidateList false (refreshSortViewDir st) = []
  /\ thrown (updateView false false st) = Some JS.TypeError
  /\ jobState s = InFlight
  /\ length (posted s) = length (posted st)
  /\ sortJobs (posted s) = 0%nat
  /\ inIndexArray later <> None
  /\ splatRenderingInitialized later = true
  /\ jobState later = InFlight
  /\ sortJobs (posted later) = 0%nat.
Proof.
  cbv zeta. repeat split; try (vm_compute; reflexivity).
  vm_compute. discriminate.
Qed.

(** ** The theorems at work on the concrete scene *)

Lemma packed_buffer_witness :
  let st := Scene.idle Scene.restingCamera Scene.leaves in
  inIndexArray st = Some Scene.seededIn
  /\ (length (members (nodesWithIndexes st))
      <= length (JS.words (JS.buffer Scene.seededIn)))%nat
  /\ Forall uint32 (members (nodesWithIndexes st))
  /\ exists (st' : Viewer) (arr' : JS.Uint32Array),
      gatherSceneNodes false st = Ok st'
      /\ inIndexArray st' = Some arr'
      /\ vertexRenderCount st' = 9%Z
      /\ firstn 9 (JS.words (JS.buffer arr')) = [8; 9; 10; 0; 1; 2; 5; 6; 7]%Z.
Proof.
  intros st.
  assert (H1 : inIndexArray st = Some Scene.seededIn) by reflexivity.
  assert (H2 : (length (members (nodesWithIndexes st))
                <= length (JS.words (JS.buffer Scene.seededIn)))%nat)
    by (vm_compute; lia).
  assert (H3 : Forall uint32 (members (nodesWithIndexes st)))
    by (apply uint32_forallb; vm_compute; reflexivity).
  split; [exact H1|]. split; [exact H2|]. split; [exact H3|].
  destruct (packed_buffer_is_candidate_concatenation false st Scene.seededIn H1 H2 H3)
    as (st' & arr' & E & A & V & F & _).
  exists st', arr'. split; [exact E|]. split; [exact A|].
  split; [rewrite V; vm_compute; reflexivity|].
  rewrite V in F. vm_compute in F. vm_compute. exact F.
Defined.

Lemma near_prefix_witness :
  let st := Scene.idle Scene.restingCamera Scene.leaves in
  inIndexArray st = Some Scene.seededIn
  /\ (length (members (nodesWithIndexes st))
      <= length (JS.words (JS.buffer Scene.seededIn)))%nat
  /\ Forall uint32 (members (nodesWithIndexes st))
  /\ exists (st' : Viewer) (arr' : JS.Uint32Array) (near far : list OctreeNode),
      gatherSceneNodes false st = Ok st'
      /\ inIndexArray st' = Some arr'
      /\ candidateList false st = near ++ far
      /\ vertexSortCount st' = Z.of_nat (length (members near))
      /\ firstn (Z.to_nat (vertexSortCount st')) (JS.words (JS.buffer arr'))
         = concat (map (fun node => indexes (data node)) near).
Proof.
  intros st.
  assert (H1 : inIndexArray st = Some Scene.seededIn) by reflexivity.
  assert (H2 : (length (members (nodesWithIndexes st))
                <= length (JS.words (JS.buffer Scene.seededIn)))%nat)
    by (vm_compute; lia).
  assert (H3 : Forall uint32 (members (nodesWithIndexes st)))
    by (apply uint32_forallb; vm_compute; reflexivity).
  split; [exact H1|]. split; [exact H2|]. split; [exact H3|].
  destruct (near_buckets_form_the_packed_prefix false st Scene.seededIn H1 H2 H3)
    as (st' & arr' & near & far & E & A & S & _ & _ & V & F).
  exists st', arr', near, far. repeat split; assumption.
Defined.

Lemma forced_request_witness :
  let st := Scene.inFlight Scene.turnedCamera Scene.leaves in
  sortRunning st = true /\ updateView true true st = Ok st.
Proof.
  intros st.
  assert (H : sortRunning st = true) by reflexivity.
  split; [exact H|].
  exact (proj1 (forced_request_in_flight_is_dropped true st H)).
Defined.

Lemma job_state_witness :
  let st := Scene.idle Scene.restingCamera Scene.leaves in
  let s := state_of (step (EvUpdateView true false) st) in
  inIndexArray st <> None
  /\ jobState st = Idle
  /\ jobState s = InFlight
  /\ exists job, posted s = posted st ++ [PostSort job].
Proof.
  intros st s.
  assert (H : inIndexArray st <> None) by (vm_compute; discriminate).
  assert (Hidle : jobState st = Idle) by reflexivity.
  assert (Hfly : jobState s = InFlight) by (vm_compute; reflexivity).
  split; [exact H|]. split; [exact Hidle|]. split; [exact Hfly|].
  exact (proj2 (proj1 (proj2 (job_state_transitions (EvUpdateView true false) st H))
                  Hidle Hfly)).
Defined.

Lemma cancel_witness :
  let st := Scene.inFlight Scene.restingCamera Scene.leaves in
  sortRunning st = true
  /\ sortDone Scene.canceledMessage = false
  /\ sortCanceled Scene.canceledMessage = true
  /\ onmessage Scene.canceledMessage st = Ok (with_sortRunning false st).
Proof.
  intros st.
  assert (H1 : sortRunning st = true) by reflexivity.
  assert (H2 : sortDone Scene.canceledMessage = false) by reflexivity.
  assert (H3 : sortCanceled Scene.canceledMessage = true) by reflexivity.
  split; [exact H1|]. split; [exact H2|]. split; [exact H3|].
  exact (proj1 (cancel_returns_to_idle_without_publishing
                  Scene.canceledMessage st H1 H2 H3)).
Defined.

Lemma publish_witness :
  let st := Scene.inFlight Scene.restingCamera Scene.leaves in
  sortDone (Scene.doneMessage 9) = true
  /\ outIndexArray st = Some (identityIndexes 11)
  /\ (length (identityIndexes 11) <= length (splatIndex (geometry st)))%nat
  /\ exists s : Viewer,
      onmessage (Scene.doneMessage 9) st = Ok s
      /\ instanceCount (geometry s) = 9%Z.
Proof.
  intros st.
  assert (H1 : sortDone (Scene.doneMessage 9) = true) by reflexivity.
  assert (H2 : outIndexArray st = Some (identityIndexes 11)) by reflexivity.
  assert (H3 : (length (identityIndexes 11) <= length (splatIndex (geometry st)))%nat)
    by (vm_compute; lia).
  split; [exact H1|]. split; [exact H2|]. split; [exact H3|].
  destruct (publish_sets_instance_count (Scene.doneMessage 9) st _ H1 H2 H3)
    as (s & E & N & _).
  exists s. split; [exact E | exact N].
Defined.

(** * Further properties of [gatherSceneNodes] *)

Section Pass.

Context {host : ThreeHost}.

Lemma members_filter_length (p : OctreeNode -> bool) (l : list OctreeNode) :
  (length (members (filter p l)) <= length (members l))%nat.
Proof.
  unfold members. induction l as [|n l IH]; cbn; [lia|].
  destruct (p n); cbn; rewrite ?length_app; lia.
Qed.

Lemma retainedNodes_all (st : Viewer) : retainedNodes true st = nodesWithIndexes st.
Proof.
  unfold retainedNodes.
  induction (nodesWithIndexes st) as [|n l IH]; cbn; [reflexivity|].
  f_equal. exact IH.
Qed.

(** X1. A pass with [gatherAllNodes] true keeps every node of the octree:
    the Candidate List is a rearrangement of all the nodes, the pass
    returns, [vertexRenderCount] is the number of splats of the octree, and
    the packed words are a rearrangement of all the splat indices. *)
Theorem full_pass_packs_every_splat (st : Viewer) (arr : JS.Uint32Array) :
  inIndexArray st = Some arr ->
  (length (members (nodesWithIndexes st)) <= length (JS.words (JS.buffer arr)))%nat ->
  Forall uint32 (members (nodesWithIndexes st)) ->
  exists (st' : Viewer) (arr' : JS.Uint32Array),
    gatherSceneNodes true st = Ok st'
    /\ inIndexArray st' = Some arr'
    /\ Permutation (candidateList true st) (map (keepNode st) (nodesWithIndexes st))
    /\ vertexRenderCount st' = Z.of_nat (length (members (nodesWithIndexes st)))
    /\ Permutation
         (firstn (length (members (nodesWithIndexes st))) (JS.words (JS.buffer arr')))
         (members (nodesWithIndexes st)).
Proof.
  intros Harr Hlen Hrange.
  pose proof (candidateList_perm true st) as Hperm.
  unfold keptNodes in Hperm. rewrite retainedNodes_all in Hperm.
  pose proof (candidate_members_length true st) as Hc.
  rewrite retainedNodes_all in Hc.
  exists (gathered true st arr),
    (rewritten arr
       (JS.write_words (JS.words (JS.buffer arr)) 0 (members (candidateList true st)))).
  split; [apply gatherSceneNodes_spec; assumption|].
  split; [reflexivity|]. split; [exact Hperm|].
  split; [cbn; rewrite Hc; reflexivity|].
  cbn [rewritten JS.buffer JS.words]. rewrite <- Hc.
  rewrite write_words_prefix by lia.
  rewrite ToUint32_id by (apply candidate_members_uint32; exact Hrange).
  eapply perm_trans; [apply members_perm; exact Hperm|].
  rewrite members_keepNode. apply Permutation_refl.
Qed.

Lemma packLoop_counts (list : list OctreeNode) :
  forall (off : Z) (st : Viewer),
    let s := state_of (packLoop list off st) in
    nodesWithIndexes s = nodesWithIndexes st
    /\ vertexRenderCount s = vertexRenderCount st
    /\ vertexCount s = vertexCount st
    /\ (vertexSortCount st <= vertexSortCount s
        <= vertexSortCount st + Z.of_nat (length (members (filter shouldSort list))))%Z.
Proof.
  induction list as [|node rest IH]; intros off st; cbn [packLoop].
  - cbn. repeat split; lia.
  - set (st1 := if shouldSort node
                then with_vertexSortCount (vertexSortCount st + member_count node)%Z st
                else st).
    assert (H1 : nodesWithIndexes st1 = nodesWithIndexes st
                 /\ vertexRenderCount st1 = vertexRenderCount st
                 /\ vertexCount st1 = vertexCount st
                 /\ vertexSortCount st1
                    = (vertexSortCount st
                       + Z.of_nat (length (members (filter shouldSort [node]))))%Z).
    { unfold st1. cbn [filter]. destruct (shouldSort node); cbn.
      - rewrite app_nil_r. unfold member_count. repeat split.
      - repeat split. lia. }
    destruct H1 as (N1 & R1 & C1 & S1).
    assert (Hsplit : length (members (filter shouldSort (node :: rest)))
                     = (length (members (filter shouldSort [node]))
                        + length (members (filter shouldSort rest)))%nat).
    { change (node :: rest) with ([node] ++ rest).
      rewrite filter_app, members_app, length_app. reflexivity. }
    assert (Hthrow : let s := st1 in
              nodesWithIndexes s = nodesWithIndexes st
              /\ vertexRenderCount s = vertexRenderCount st
              /\ vertexCount s = vertexCount st
              /\ (vertexSortCount st <= vertexSortCount s
                  <= vertexSortCount st
                     + Z.of_nat (length (members (filter shouldSort (node :: rest)))))%Z)
      by (cbn zeta; repeat split; try assumption; lia).
    destruct (inIndexArray st1) as [arr|]; [|exact Hthrow].
    destruct (JS.window_set (JS.buffer arr) off (indexes (data node))); [|exact Hthrow].
    match goal with |- context [packLoop rest ?o ?x] =>
      destruct (IH o x) as (N2 & R2 & C2 & S2) end.
    cbn zeta. cbn in N2, R2, C2, S2.
    repeat split; try congruence; lia.
Qed.

(** X2. Whether a pass returns or throws, it leaves
    [0 <= vertexSortCount <= vertexRenderCount], and [vertexRenderCount] is
    at most the number of splats of the octree. *)
Theorem pass_counts_are_ordered (g : bool) (st : Viewer) :
  let s := state_of (gatherSceneNodes g st) in
  (0 <= vertexSortCount s <= vertexRenderCount s)%Z
  /\ (vertexRenderCount s <= Z.of_nat (length (members (nodesWithIndexes st))))%Z.
Proof.
  unfold gatherSceneNodes. rewrite scanNodes_spec. cbn [verticesToCopy visited].
  match goal with |- context [packLoop ?l ?o ?x] =>
    destruct (packLoop_counts l o x) as (_ & R & _ & S) end.
  cbn zeta. rewrite R. cbn in S |- *.
  pose proof (candidate_members_length g st) as Hc.
  pose proof (retained_members_le g st) as Hr.
  pose proof (members_filter_length shouldSort (candidateList g st)) as Hf.
  lia.
Qed.

(** X3. A pass that returns rewrites only the packed prefix: the words of
    the in buffer after the first [vertexRenderCount] are the ones that were
    there, stale indices of earlier passes included, and the buffer keeps its
    identity and its length, and the view its offset and length. *)
Theorem pass_leaves_words_after_prefix (g : bool) (st : Viewer) (arr : JS.Uint32Array) :
  inIndexArray st = Some arr ->
  (length (members (nodesWithIndexes st)) <= length (JS.words (JS.buffer arr)))%nat ->
  exists (st' : Viewer) (arr' : JS.Uint32Array),
    gatherSceneNodes g st = Ok st'
    /\ inIndexArray st' = Some arr'
    /\ skipn (Z.to_nat (vertexRenderCount st')) (JS.words (JS.buffer arr'))
       = skipn (Z.to_nat (vertexRenderCount st')) (JS.words (JS.buffer arr))
    /\ length (JS.words (JS.buffer arr')) = length (JS.words (JS.buffer arr))
    /\ JS.buf_id (JS.buffer arr') = JS.buf_id (JS.buffer arr)
    /\ JS.byteOffset arr' = JS.byteOffset arr
    /\ JS.view_length arr' = JS.view_length arr.
Proof.
  intros Harr Hlen.
  pose proof (candidate_members_length g st) as Hc.
  pose proof (retained_members_le g st) as Hr.
  exists (gathered g st arr),
    (rewritten arr
       (JS.write_words (JS.words (JS.buffer arr)) 0 (members (candidateList g st)))).
  split; [apply gatherSceneNodes_spec; assumption|].
  split; [reflexivity|].
  unfold gathered, rewritten.
  cbn [JS.buffer JS.words JS.buf_id JS.byteOffset JS.view_length].
  unfold with_inIndexArray, with_vertexSortCount, with_vertexRenderCount.
  viewer_fields. rewrite Nat2Z.id.
  split; [|split; [apply write_words_length; cbn; lia | repeat split]].
  unfold JS.write_words. cbn [firstn app Nat.add].
  rewrite skipn_exact by (symmetry; apply length_map). reflexivity.
Qed.

(** X4. Whether a pass returns or throws, the octree keeps its nodes in
    their order with their centers, bounds and splat indices; a node the
    culler keeps gets the distance measured in this pass, and a node it
    skips is left as it was, with the distance of an earlier pass if any. *)
Theorem pass_keeps_the_octree (g : bool) (st : Viewer) :
  let nodes' := nodesWithIndexes (state_of (gatherSceneNodes g st)) in
  map center nodes' = map center (nodesWithIndexes st)
  /\ map nmin nodes' = map nmin (nodesWithIndexes st)
  /\ map nmax nodes' = map nmax (nodesWithIndexes st)
  /\ map (fun node => indexes (data node)) nodes'
     = map (fun node => indexes (data node)) (nodesWithIndexes st)
  /\ Forall2
       (fun old new =>
          if nodeCulled g st old then new = old
          else distanceToNode (data new) = Some (m_distanceToNode (nodeMeasure st old)))
       (nodesWithIndexes st) nodes'.
Proof.
  unfold gatherSceneNodes.
  match goal with |- context [packLoop ?l ?o ?x] =>
    destruct (packLoop_counts l o x) as (N & _) end.
  cbn zeta. rewrite N. cbn [nodesWithIndexes with_vertexSortCount
    with_vertexRenderCount with_nodesWithIndexes].
  rewrite scanNodes_spec. cbn [visited].
  induction (nodesWithIndexes st) as [|n l (I1 & I2 & I3 & I4 & I5)]; cbn [map].
  - repeat split; constructor.
  - rewrite I1, I2, I3, I4.
    destruct (nodeCulled g st n) eqn:Hn; cbn; repeat split; constructor;
      try assumption; rewrite Hn; reflexivity.
Qed.

End Pass.

(** * Errors of a request *)

Lemma window_set_overflow (b : JS.ArrayBuffer) (off : Z) (src : list Z) :
  (JS.byteLength b < off + 4 * Z.of_nat (length src))%Z ->
  JS.window_set b off src = None.
Proof.
  intros H. unfold JS.window_set, JS.view_ok.
  replace (off + 4 * Z.of_nat (length src) <=? JS.byteLength b)%Z with false
    by (symmetry; apply Z.leb_gt; exact H).
  rewrite andb_false_r. reflexivity.
Qed.

Section RequestErrors.

Context {host : ThreeHost}.

Lemma packLoop_overflow (list : list OctreeNode) :
  forall (k : nat) (st : Viewer) (arr : JS.Uint32Array),
    inIndexArray st = Some arr ->
    (k <= length (JS.words (JS.buffer arr)))%nat ->
    (length (JS.words (JS.buffer arr)) < k + length (members list))%nat ->
    exists s, packLoop list (4 * Z.of_nat k) st = Throw JS.RangeError s.
Proof.
  induction list as [|node rest IH]; intros k st arr Harr Hk Hover.
  - cbn in Hover. lia.
  - cbn [members flat_map] in Hover. rewrite length_app in Hover.
    fold (members rest) in Hover. cbn [packLoop].
    set (st1 := if shouldSort node
                then with_vertexSortCount (vertexSortCount st + member_count node)%Z st
                else st).
    assert (Harr1 : inIndexArray st1 = Some arr)
      by (unfold st1; destruct (shouldSort node); assumption).
    rewrite Harr1.
    destruct (Nat.le_gt_cases (k + length (indexes (data node)))
                (length (JS.words (JS.buffer arr)))) as [Hfit|Hbig].
    + rewrite window_set_ok by exact Hfit.
      replace (4 * Z.of_nat k + member_count node * BytesPerInt)%Z
        with (4 * Z.of_nat (k + length (indexes (data node))))%Z
        by (unfold member_count, BytesPerInt; lia).
      eapply IH.
      * reflexivity.
      * cbn [JS.buffer JS.words]. rewrite write_words_length by exact Hfit. exact Hfit.
      * cbn [JS.buffer JS.words]. rewrite write_words_length by exact Hfit. lia.
    + rewrite window_set_overflow by (unfold JS.byteLength; lia).
      exists st1. reflexivity.
Qed.

(** X5. When the in buffer has fewer words than the Candidate List has
    splats, the request of an idle viewer throws a [RangeError] out of
    [gatherSceneNodes]: the flag stays down, nothing is posted and the
    snapshot is the same. *)
Theorem request_overflow_throws (g : bool) (st : Viewer) (arr : JS.Uint32Array) :
  inIndexArray st = Some arr ->
  (length (JS.words (JS.buffer arr)) < length (members (candidateList g st)))%nat ->
  sortRunning st = false ->
  exists s : Viewer,
    gatherSceneNodes g st = Throw JS.RangeError s
    /\ updateView true g st = Throw JS.RangeError s
    /\ sortRunning s = false
    /\ posted s = posted st
    /\ lastSortViewPos s = lastSortViewPos st
    /\ lastSortViewDir s = lastSortViewDir st.
Proof.
  intros Harr Hover Hidle.
  assert (Hthrow : exists s, gatherSceneNodes g st = Throw JS.RangeError s).
  { unfold gatherSceneNodes.
    change (packLoop (candidateList g st) 0%Z)
      with (packLoop (candidateList g st) (4 * Z.of_nat 0)%Z).
    eapply packLoop_overflow; [exact Harr | lia | cbn; lia]. }
  destruct Hthrow as (s & Hs). exists s.
  pose proof (gatherSceneNodes_untouched g st) as Hu. rewrite Hs in Hu.
  destruct Hu as (_ & U2 & U3 & _ & U5 & U6 & _).
  split; [exact Hs|]. cbn [state_of] in *.
  split; [|repeat split; congruence].
  unfold updateView. cbn [negb]. unfold requestSort. rewrite Hidle, Hs. reflexivity.
Qed.

Lemma packLoop_null (list : list OctreeNode) (off : Z) (st : Viewer) :
  inIndexArray st = None ->
  list <> [] ->
  exists s, packLoop list off st = Throw JS.TypeError s.
Proof.
  intros Hnull Hne. destruct list as [|node rest]; [congruence|].
  cbn [packLoop].
  set (st1 := if shouldSort node
              then with_vertexSortCount (vertexSortCount st + member_count node)%Z st
              else st).
  assert (Harr1 : inIndexArray st1 = None)
    by (unfold st1; destruct (shouldSort node); assumption).
  rewrite Harr1. exists st1. reflexivity.
Qed.

(** X6. Before the first handshake, when the in array is still [null], the
    request of an idle viewer throws a [TypeError] and posts nothing. With
    a candidate it throws inside [gatherSceneNodes] and the flag stays
    down; with no candidate it throws on the argument of [postMessage],
    after the flag has been raised, and leaves the flag raised. *)
Theorem request_before_handshake_throws (g : bool) (st : Viewer) :
  inIndexArray st = None ->
  sortRunning st = false ->
  exists s : Viewer,
    updateView true g st = Throw JS.TypeError s
    /\ posted s = posted st
    /\ sortRunning s = match candidateList g st with [] => true | _ :: _ => false end.
Proof.
  intros Hnull Hidle. unfold updateView. cbn [negb]. unfold requestSort. rewrite Hidle.
  destruct (candidateList g st) as [|node rest] eqn:Hcand.
  - unfold gatherSceneNodes. rewrite Hcand. cbn [packLoop bind].
    change (inIndexArray (with_sortRunning true _)) with (inIndexArray st).
    rewrite Hnull. eexists. split; [reflexivity|]. split; reflexivity.
  - assert (Hthrow : exists s, gatherSceneNodes g st = Throw JS.TypeError s).
    { unfold gatherSceneNodes. rewrite Hcand.
      apply packLoop_null; [exact Hnull | discriminate]. }
    destruct Hthrow as (s & Hs).
    pose proof (gatherSceneNodes_untouched g st) as Hu. rewrite Hs in Hu.
    destruct Hu as (_ & U2 & U3 & _). cbn [state_of] in *.
    rewrite Hs. exists s. cbn [bind]. split; [reflexivity|]. split; congruence.
Qed.

End RequestErrors.

(** * The scheduler over a run *)

Section Throttle.

Context {host : ThreeHost}.

Lemma sortJobs_app (l1 l2 : list Posted) :
  sortJobs (l1 ++ l2) = (sortJobs l1 + sortJobs l2)%nat.
Proof. unfold sortJobs. rewrite filter_app, length_app. reflexivity. Qed.

Ltac credit_fields :=
  cbn [state_of]; unfold credit, refreshSortViewDir, with_environment,
    with_nodesWithIndexes, with_vertexRenderCount, with_vertexSortCount,
    with_inIndexArray, with_outIndexArray, with_sortRunning,
    with_splatRenderingInitialized, with_geometry, with_lastSortViewDir,
    with_sortViewDir, with_lastSortViewPos, with_posted in *;
  viewer_fields.

Lemma requestSort_credit (g : bool) (st : Viewer) :
  (credit (state_of (requestSort g st)) <= credit st)%nat.
Proof.
  unfold requestSort. destruct (sortRunning st) eqn:Hrun; [cbn; lia|].
  pose proof (gatherSceneNodes_untouched g st) as Hu.
  destruct (gatherSceneNodes g st) as [st1|e s]; cbn [bind state_of] in *;
    destruct Hu as (_ & U2 & U3 & _).
  - change (inIndexArray (with_sortRunning true st1)) with (inIndexArray st1).
    destruct (inIndexArray st1); credit_fields; rewrite U3, Hrun, ?sortJobs_app;
      cbn [sortJobs filter isPostSort length]; lia.
  - unfold credit. rewrite U2, U3. lia.
Qed.

Lemma updateView_credit (f g : bool) (st : Viewer) :
  (credit (state_of (updateView f g st)) <= credit st)%nat.
Proof.
  rewrite updateView_gate. destruct (sortRequested f st); [|credit_fields; lia].
  destruct f; [apply requestSort_credit|].
  apply (requestSort_credit g (refreshSortViewDir st)).
Qed.

Lemma step_credit (ev : Event) (st : Viewer) :
  (credit (state_of (step ev st))
   <= credit st + if isDoneOrCanceled ev then 1 else 0)%nat.
Proof.
  destruct ev as [cam dims focal|out|f g|e]; cbn [step isDoneOrCanceled].
  - credit_fields. lia.
  - destruct (outIndexArray st) as [old|]; [|cbn [state_of]; lia].
    destruct (length out =? length old)%nat; credit_fields; lia.
  - pose proof (updateView_credit f g st). lia.
  - unfold onmessage.
    destruct (sortDone e); cbn [orb].
    { pose proof (updateSplatMeshIndexes_schedule
                    (outIndexArray (with_sortRunning false st))
                    (e_vertexRenderCount e) (with_sortRunning false st))
        as [[K1 K2] _].
      unfold credit. rewrite K1, K2. credit_fields. destruct (sortRunning st); lia. }
    destruct (sortCanceled e); cbn [orb].
    { credit_fields. destruct (sortRunning st); lia. }
    destruct (sortSetupPhase1Complete e).
    { unfold onSetupPhase1.
      destruct (negb (JS.view_ok (e_outIndexBuffer e) (e_outIndexOffset e) _));
        [credit_fields; rewrite sortJobs_app; cbn [sortJobs filter isPostSort length]; lia|].
      destruct (negb (JS.view_ok (e_inIndexBuffer e) (e_inIndexOffset e) _));
        credit_fields; rewrite sortJobs_app; cbn [sortJobs filter isPostSort length]; lia. }
    destruct (sortSetupComplete e); [|cbn [state_of]; lia].
    unfold onSetupComplete.
    pose proof (updateSplatMeshIndexes_schedule (outIndexArray st) (vertexCount st) st)
      as [[K1 K2] _].
    destruct (updateSplatMeshIndexes (outIndexArray st) (vertexCount st) st)
      as [st1|err st1]; cbn [bind state_of] in *;
      [|unfold credit; rewrite K1, K2; lia].
    set (st2 := with_geometry _ st1).
    pose proof (updateView_credit true true st2) as Hc.
    assert (E2 : credit st2 = credit st)
      by (unfold st2; credit_fields; rewrite K1, K2; lia).
    destruct (updateView true true st2) as [st3|err st3]; cbn [bind state_of] in *;
      [credit_fields; lia | lia].
Qed.

(** X7. At most one job is in flight. Over any run, from any viewer, the
    sort jobs posted by the end, plus one if the viewer is then idle, are at
    most the jobs posted at the start, plus one if the viewer was idle, plus
    the [sortDone] and [sortCanceled] messages of the run: a new job needs
    the answer to the one before. *)
Theorem jobs_are_throttled_by_answers (evs : list Event) (st : Viewer) :
  (credit (run evs st) <= credit st + answers evs)%nat.
Proof.
  revert st. induction evs as [|ev evs IH]; intros st; cbn [run fold_left].
  - unfold answers. cbn. lia.
  - fold (run evs (state_of (step ev st))).
    specialize (IH (state_of (step ev st))).
    pose proof (step_credit ev st) as Hs.
    unfold answers in *. cbn [filter].
    destruct (isDoneOrCanceled ev); cbn [length]; lia.
Qed.

(** X8. While a job is in flight the viewer does not touch the in array:
    no event but the handshake message changes it, its buffer, or a word of
    that buffer. *)
Theorem in_array_untouched_in_flight (ev : Event) (st : Viewer) :
  sortRunning st = true ->
  isHandshake ev = false ->
  inIndexArray (state_of (step ev st)) = inIndexArray st.
Proof.
  intros Hrun Hhs. destruct ev as [cam dims focal|out|f g|e]; cbn [step].
  - reflexivity.
  - destruct (outIndexArray st) as [old|]; [|reflexivity].
    destruct (length out =? length old)%nat; reflexivity.
  - rewrite updateView_gate. destruct (sortRequested f st); [|reflexivity].
    rewrite requestSort_dropped by (destruct f; exact Hrun).
    destruct f; reflexivity.
  - unfold onmessage. cbn [isHandshake] in Hhs.
    destruct (sortDone e).
    { pose proof (updateSplatMeshIndexes_schedule
                    (outIndexArray (with_sortRunning false st))
                    (e_vertexRenderCount e) (with_sortRunning false st)) as [_ K].
      exact K. }
    destruct (sortCanceled e); [reflexivity|].
    destruct (sortSetupPhase1Complete e); [discriminate|].
    destruct (sortSetupComplete e); [|reflexivity].
    unfold onSetupComplete.
    pose proof (updateSplatMeshIndexes_schedule (outIndexArray st) (vertexCount st) st)
      as [[K1 _] K3].
    destruct (updateSplatMeshIndexes (outIndexArray st) (vertexCount st) st)
      as [st1|err st1]; cbn [bind state_of] in *; [|exact K3].
    set (st2 := with_geometry _ st1).
    assert (Hrun2 : sortRunning st2 = true) by (unfold st2; cbn; congruence).
    assert (E : updateView true true st2 = Ok st2)
      by (unfold updateView; cbn [negb]; apply requestSort_dropped; exact Hrun2).
    rewrite E. cbn. exact K3.
Qed.

(** X9. A message taken as [sortDone] or [sortCanceled] lowers the flag
    whatever the viewer; when the publish of a [sortDone] throws, before the
    handshake or on an out array longer than the attribute, nothing else
    has changed. *)
Theorem answer_lowers_the_flag (e : MessageData) (st : Viewer) :
  sortDone e = true \/ sortCanceled e = true ->
  sortRunning (state_of (onmessage e st)) = false
  /\ (returns (onmessage e st) = false ->
      state_of (onmessage e st) = with_sortRunning false st)
  /\ (sortDone e = true -> outIndexArray st = None ->
      onmessage e st = Throw JS.TypeError (with_sortRunning false st)).
Proof.
  intros Hmsg. unfold onmessage.
  destruct (sortDone e) eqn:Hd.
  - unfold updateSplatMeshIndexes.
    change (outIndexArray (with_sortRunning false st)) with (outIndexArray st).
    destruct (outIndexArray st) as [src|].
    + destruct (JS.typed_set _ src); cbn; repeat split; congruence.
    + cbn. repeat split.
  - destruct Hmsg as [Hmsg|Hc]; [discriminate|]. rewrite Hc. cbn.
    repeat split; congruence.
Qed.

End Throttle.

(** * The handshakes *)

Lemma identityIndexes_length (n : Z) : length (identityIndexes n) = Z.to_nat n.
Proof. unfold identityIndexes. rewrite length_map, length_seq. reflexivity. Qed.

Lemma identityIndexes_uint32 (n : Z) :
  (n <= 2 ^ 32)%Z -> Forall uint32 (identityIndexes n).
Proof.
  intros Hn. unfold identityIndexes. apply Forall_forall. intros i Hi.
  apply in_map_iff in Hi as (k & <- & Hk). apply in_seq in Hk.
  unfold uint32. lia.
Qed.

Lemma view_ok_bounds (b : JS.ArrayBuffer) (off n : Z) :
  JS.view_ok b off n = true ->
  (0 <= n)%Z
  /\ (Z.to_nat (off / 4) + Z.to_nat n <= length (JS.words b))%nat.
Proof.
  unfold JS.view_ok, JS.byteLength. rewrite !andb_true_iff.
  intros [[[H0 Hm] Hn] Hle].
  apply Z.leb_le in H0, Hn, Hle. apply Z.eqb_eq in Hm.
  split; [exact Hn|].
  pose proof (Z.div_mod off 4 ltac:(lia)) as Hd. rewrite Hm in Hd.
  assert (0 <= off / 4)%Z by (apply Z.div_pos; lia).
  lia.
Qed.

Lemma view_elements_of_window (ws src : list Z) (k : nat) (id : nat) (off n : Z) :
  Z.to_nat (off / 4) = k ->
  Z.to_nat n = length src ->
  (k + length src <= length ws)%nat ->
  Forall uint32 src ->
  view_elements (JS.mkArrayBuffer id (JS.write_words ws k src)) off n = src.
Proof.
  intros Hk Hn Hfit Hu. unfold view_elements. cbn [JS.words].
  rewrite Hk, Hn. unfold JS.write_words.
  rewrite skipn_exact by (rewrite length_firstn; lia).
  rewrite firstn_exact by (symmetry; apply length_map).
  apply ToUint32_id. exact Hu.
Qed.

Section Handshakes.

Context {host : ThreeHost}.

(** Reads a field of a viewer through the updates applied to it. *)
Ltac viewer_get :=
  cbn [camera renderDimensions cameraFocalLength vertexCount nodesWithIndexes
       vertexRenderCount vertexSortCount inIndexArray outIndexArray sortRunning
       splatRenderingInitialized geometry lastSortViewDir sortViewDir
       lastSortViewPos posted
       with_environment with_nodesWithIndexes with_vertexRenderCount
       with_vertexSortCount with_inIndexArray with_outIndexArray with_sortRunning
       with_splatRenderingInitialized with_geometry with_lastSortViewDir
       with_sortViewDir with_lastSortViewPos with_posted gathered
       splatIndex splatIndex_needsUpdate instanceCount
       job_vertexRenderCount job_vertexSortCount].

(** X10. The first handshake, with windows that fit their buffers and at
    most 2^32 splats, returns; it posts the positions and nothing else, the
    in array is the window of the message, that window reads
    [0, 1, ..., vertexCount - 1], the words of the buffer before and after
    the window are untouched, and the job state is the same. *)
Theorem handshake_seeds_the_identity (e : MessageData) (st : Viewer) :
  sortDone e = false ->
  sortCanceled e = false ->
  sortSetupPhase1Complete e = true ->
  JS.view_ok (e_outIndexBuffer e) (e_outIndexOffset e) (vertexCount st) = true ->
  JS.view_ok (e_inIndexBuffer e) (e_inIndexOffset e) (vertexCount st) = true ->
  (vertexCount st <= 2 ^ 32)%Z ->
  exists (s : Viewer) (arr : JS.Uint32Array),
    onmessage e st = Ok s
    /\ inIndexArray s = Some arr
    /\ JS.buf_id (JS.buffer arr) = JS.buf_id (e_inIndexBuffer e)
    /\ JS.byteOffset arr = e_inIndexOffset e
    /\ JS.view_length arr = vertexCount st
    /\ view_elements (JS.buffer arr) (JS.byteOffset arr) (JS.view_length arr)
       = identityIndexes (vertexCount st)
    /\ firstn (Z.to_nat (e_inIndexOffset e / 4)) (JS.words (JS.buffer arr))
       = firstn (Z.to_nat (e_inIndexOffset e / 4)) (JS.words (e_inIndexBuffer e))
    /\ skipn (Z.to_nat (e_inIndexOffset e / 4) + Z.to_nat (vertexCount st))
         (JS.words (JS.buffer arr))
       = skipn (Z.to_nat (e_inIndexOffset e / 4) + Z.to_nat (vertexCount st))
           (JS.words (e_inIndexBuffer e))
    /\ outIndexArray s
       = Some (view_elements (e_outIndexBuffer e) (e_outIndexOffset e) (vertexCount st))
    /\ posted s = posted st ++ [PostPositions]
    /\ sortRunning s = sortRunning st.
Proof.
  intros Hd Hc Hp Hout Hin Hmax.
  destruct (view_ok_bounds _ _ _ Hin) as [Hn Hfit].
  pose proof (identityIndexes_length (vertexCount st)) as Hlen.
  unfold onmessage, onSetupPhase1. rewrite Hd, Hc, Hp.
  change (vertexCount (with_posted _ st)) with (vertexCount st).
  rewrite Hout. cbn [negb].
  change (vertexCount (with_outIndexArray _ _)) with (vertexCount st).
  rewrite Hin. cbn [negb].
  eexists; eexists. split; [reflexivity|]. split; [reflexivity|].
  cbn [JS.buffer JS.buf_id JS.byteOffset JS.view_length JS.words].
  split; [reflexivity|]. split; [reflexivity|]. split; [reflexivity|].
  split.
  { apply view_elements_of_window;
      [reflexivity | symmetry; exact Hlen | rewrite Hlen; exact Hfit
      | apply identityIndexes_uint32; exact Hmax]. }
  split.
  { unfold JS.write_words. apply firstn_exact. rewrite length_firstn. lia. }
  split; [|repeat split].
  unfold JS.write_words. rewrite app_assoc. rewrite <- Hlen.
  apply skipn_exact. rewrite length_app, length_map, length_firstn. lia.
Qed.

(** X11. The second handshake, received by an idle viewer that has its two
    arrays, publishes the out array with the vertex count as instance
    count, marks the splat rendering initialised, and submits a job for a
    pass over all the nodes: the job's render count is the number of splats
    of the octree, its sort count lies between 0 and the render count, and
    the snapshot takes the position of the camera. *)
Theorem setup_complete_submits_a_full_pass
    (e : MessageData) (st : Viewer) (arr : JS.Uint32Array) (out : list Z) :
  sortDone e = false ->
  sortCanceled e = false ->
  sortSetupPhase1Complete e = false ->
  sortSetupComplete e = true ->
  sortRunning st = false ->
  inIndexArray st = Some arr ->
  outIndexArray st = Some out ->
  (length out <= length (splatIndex (geometry st)))%nat ->
  (length (members (nodesWithIndexes st)) <= length (JS.words (JS.buffer arr)))%nat ->
  exists (s : Viewer) (job : SortJob),
    onmessage e st = Ok s
    /\ splatRenderingInitialized s = true
    /\ sortRunning s = true
    /\ posted s = posted st ++ [PostSort job]
    /\ job_vertexRenderCount job = Z.of_nat (length (members (nodesWithIndexes st)))
    /\ (0 <= job_vertexSortCount job <= job_vertexRenderCount job)%Z
    /\ instanceCount (geometry s) = vertexCount st
    /\ splatIndex (geometry s)
       = map JS.ToUint32 out ++ skipn (length out) (splatIndex (geometry st))
    /\ lastSortViewPos s = position (camera st).
Proof.
  intros Hd Hc Hp Hs Hidle Harr Hout Hfit Hlen.
  unfold onmessage, onSetupComplete, updateSplatMeshIndexes.
  rewrite Hd, Hc, Hp, Hs, Hout. unfold JS.typed_set.
  apply Nat.leb_le in Hfit. rewrite Hfit. cbn [bind].
  set (st2 := with_geometry _ (with_geometry _ st)).
  assert (Harr2 : inIndexArray st2 = Some arr) by exact Harr.
  assert (Hlen2 : (length (members (nodesWithIndexes st2))
                   <= length (JS.words (JS.buffer arr)))%nat) by exact Hlen.
  unfold updateView. cbn [negb]. unfold requestSort.
  change (sortRunning st2) with (sortRunning st). rewrite Hidle.
  rewrite (gatherSceneNodes_spec true st2 arr Harr2 Hlen2). cbn [bind].
  pose proof (candidate_members_length true st2) as Hcm.
  rewrite retainedNodes_all in Hcm.
  change (nodesWithIndexes st2) with (nodesWithIndexes st) in Hcm.
  pose proof (members_filter_length shouldSort (candidateList true st2)) as Hsc.
  eexists; eexists. split; [reflexivity|].
  repeat match goal with |- _ /\ _ => split end; viewer_get; try reflexivity.
  all: viewer_get; try rewrite Hcm; try reflexivity; lia.
Qed.

End Handshakes.

(** * A camera at rest, and the sizes of the arrays *)

Section Rest.

Context {host : ThreeHost}.

Lemma unforced_submission_state (g : bool) (st : Viewer) :
  let s := state_of (updateView false g st) in
  posted s <> posted st ->
  camera s = camera st
  /\ lastSortViewPos s = position (camera st)
  /\ lastSortViewDir s = v3_applyQuaternion forward (quaternion (camera st))
  /\ sortViewDir s = v3_applyQuaternion forward (quaternion (camera st)).
Proof.
  cbv zeta. rewrite updateView_gate.
  destruct (sortRequested false st); [|cbn; tauto].
  unfold requestSort. destruct (sortRunning (refreshSortViewDir st)); [cbn; tauto|].
  pose proof (gatherSceneNodes_untouched g (refreshSortViewDir st)) as Hu.
  destruct (gatherSceneNodes g (refreshSortViewDir st)) as [st1|e s];
    cbn [bind state_of] in *; destruct Hu as (U1 & _ & U3 & _ & _ & _ & U7 & _).
  - change (inIndexArray (with_sortRunning true st1)) with (inIndexArray st1).
    destruct (inIndexArray st1); cbn; [|tauto].
    intros _. rewrite U1, U7. repeat split.
  - tauto.
Qed.

Lemma with_sortViewDir_same (st : Viewer) : with_sortViewDir (sortViewDir st) st = st.
Proof. destruct st; reflexivity. Qed.

(** X12. After a call with [force] false has submitted a job, a further
    call with [force] false and the camera where it was does nothing at
    all, whether the job is still in flight or not: it returns the viewer
    unchanged. This holds for a camera whose forward vector has a dot
    product with itself above 0.95 and for a host whose zero vector is
    shorter than 1. *)
Theorem camera_at_rest_requests_nothing (g g' : bool) (st : Viewer) :
  let s := state_of (updateView false g st) in
  let dir := v3_applyQuaternion forward (quaternion (camera st)) in
  posted s <> posted st ->
  (95 # 100 < v3_dot dir dir)%Q ->
  (v3_length (v3_sub (position (camera st)) (position (camera st))) < 1)%Q ->
  updateView false g' s = Ok s
  /\ forall e : MessageData,
      sortDone e = false -> sortCanceled e = true ->
      updateView false g' (state_of (onmessage e s)) = Ok (state_of (onmessage e s)).
Proof.
  intros s dir Hsub Hdot Hlen.
  destruct (unforced_submission_state g st Hsub) as (Hcam & Hpos & Hdir & Hsv).
  fold s in Hcam, Hpos, Hdir, Hsv. fold dir in Hdir, Hsv.
  assert (Hrest : forall s0 : Viewer,
            camera s0 = camera st -> lastSortViewPos s0 = position (camera st) ->
            lastSortViewDir s0 = dir -> sortViewDir s0 = dir ->
            updateView false g' s0 = Ok s0).
  { intros s0 C P D V.
    assert (Href : refreshSortViewDir s0 = s0).
    { unfold refreshSortViewDir. rewrite C. fold dir. rewrite <- V.
      apply with_sortViewDir_same. }
    unfold updateView. cbn [negb]. rewrite Href.
    unfold needsRefreshForRotation, needsRefreshForPosition. rewrite C, P, D, V.
    replace (Qleb (v3_dot dir dir) (95 # 100)) with false
      by (symmetry; apply Qleb_false; exact Hdot).
    replace (Qgeb (v3_length (v3_sub (position (camera st)) (position (camera st)))) 1)
      with false
      by (symmetry; unfold Qgeb; apply Qleb_false; exact Hlen).
    reflexivity. }
  split; [apply Hrest; assumption|].
  intros e Hd Hc. unfold onmessage. rewrite Hd, Hc. cbn [state_of].
  apply Hrest; assumption.
Qed.

Lemma typed_set_length (target src arr : list Z) :
  JS.typed_set target src = Some arr -> length arr = length target.
Proof.
  unfold JS.typed_set. destruct (length src <=? length target)%nat eqn:Hle; [|discriminate].
  apply Nat.leb_le in Hle. intros [= <-].
  rewrite length_app, length_map, length_skipn. lia.
Qed.

Lemma gatherSceneNodes_vertexCount (g : bool) (st : Viewer) :
  vertexCount (state_of (gatherSceneNodes g st)) = vertexCount st.
Proof.
  unfold gatherSceneNodes.
  match goal with |- context [packLoop ?l ?o ?x] =>
    destruct (packLoop_counts l o x) as (_ & _ & C & _) end.
  exact C.
Qed.

Lemma requestSort_sized (g : bool) (st : Viewer) :
  sized st -> sized (state_of (requestSort g st)).
Proof.
  intros Hs. unfold requestSort. destruct (sortRunning st); [exact Hs|].
  pose proof (gatherSceneNodes_untouched g st) as (_ & _ & _ & U4 & _ & _ & _ & U8 & _).
  pose proof (gatherSceneNodes_vertexCount g st) as Hv.
  assert (H1 : sized (state_of (gatherSceneNodes g st)))
    by (unfold sized in *; rewrite U4, U8, Hv; exact Hs).
  destruct (gatherSceneNodes g st) as [st1|e s]; cbn [bind state_of] in *; [|exact H1].
  change (inIndexArray (with_sortRunning true st1)) with (inIndexArray st1).
  destruct (inIndexArray st1); exact H1.
Qed.

Lemma updateView_sized (f g : bool) (st : Viewer) :
  sized st -> sized (state_of (updateView f g st)).
Proof.
  intros Hs. rewrite updateView_gate. destruct (sortRequested f st); [|exact Hs].
  destruct f; [apply requestSort_sized; exact Hs|].
  apply (requestSort_sized g (refreshSortViewDir st)). exact Hs.
Qed.

Lemma updateSplatMeshIndexes_sized (n : Z) (st : Viewer) :
  sized st -> sized (state_of (updateSplatMeshIndexes (outIndexArray st) n st)).
Proof.
  intros Hs. unfold updateSplatMeshIndexes.
  destruct (outIndexArray st) as [src|]; [|exact Hs].
  destruct (JS.typed_set (splatIndex (geometry st)) src) as [arr|] eqn:Hset; [|exact Hs].
  apply typed_set_length in Hset. destruct Hs as [H1 H2].
  split; cbn; [congruence | exact H2].
Qed.

Lemma step_sized (ev : Event) (st : Viewer) :
  sized st -> sized (state_of (step ev st)).
Proof.
  intros Hs. destruct ev as [cam dims focal|out|f g|e]; cbn [step].
  - exact Hs.
  - destruct (outIndexArray st) as [old|] eqn:Hold; [|exact Hs].
    destruct (length out =? length old)%nat eqn:Hl; [|exact Hs].
    apply Nat.eqb_eq in Hl. destruct Hs as [H1 H2]. split; cbn; [exact H1|].
    intros o [= <-]. rewrite length_map, Hl. apply H2. exact Hold.
  - apply updateView_sized; exact Hs.
  - unfold onmessage.
    destruct (sortDone e).
    { apply (updateSplatMeshIndexes_sized _ (with_sortRunning false st)). exact Hs. }
    destruct (sortCanceled e); [exact Hs|].
    destruct (sortSetupPhase1Complete e).
    { unfold onSetupPhase1.
      change (vertexCount (with_posted _ st)) with (vertexCount st).
      destruct (JS.view_ok (e_outIndexBuffer e) (e_outIndexOffset e) (vertexCount st))
        eqn:Hout; cbn [negb]; [|exact Hs].
      assert (H2 : sized (with_outIndexArray
                            (Some (view_elements (e_outIndexBuffer e) (e_outIndexOffset e)
                                     (vertexCount st)))
                            (with_posted (posted st ++ [PostPositions]) st))).
      { destruct Hs as [H1 _]. split; cbn; [exact H1|].
        intros o [= <-]. unfold view_elements.
        destruct (view_ok_bounds _ _ _ Hout) as [_ Hb].
        rewrite length_firstn, length_skipn. lia. }
      destruct (negb (JS.view_ok (e_inIndexBuffer e) (e_inIndexOffset e) _)); exact H2. }
    destruct (sortSetupComplete e); [|exact Hs].
    unfold onSetupComplete.
    pose proof (updateSplatMeshIndexes_sized (vertexCount st) st Hs) as H1.
    destruct (updateSplatMeshIndexes (outIndexArray st) (vertexCount st) st)
      as [st1|err st1]; cbn [bind state_of] in *; [|exact H1].
    set (st2 := with_geometry _ st1).
    assert (H2 : sized st2) by exact H1.
    pose proof (updateView_sized true true st2 H2) as H3.
    destruct (updateView true true st2); exact H3.
Qed.

(** X13. A viewer whose draw-order attribute and out array have one
    element per splat keeps this over every run; so in every state it
    reaches, a [sortDone] message received once the out array exists
    publishes without throwing, and the instance count becomes the render
    count of the message. *)
Theorem publish_never_overflows (evs : list Event) (st : Viewer) (e : MessageData) :
  sized st ->
  sized (run evs st)
  /\ (sortDone e = true ->
      outIndexArray (run evs st) <> None ->
      returns (onmessage e (run evs st)) = true
      /\ instanceCount (geometry (state_of (onmessage e (run evs st))))
         = e_vertexRenderCount e).
Proof.
  intros Hs.
  assert (Hrun : sized (run evs st)).
  { revert st Hs. induction evs as [|ev evs IH]; intros st Hs; cbn; [exact Hs|].
    apply IH, step_sized, Hs. }
  split; [exact Hrun|].
  intros Hd Hout. destruct Hrun as [H1 H2].
  unfold onmessage, updateSplatMeshIndexes. rewrite Hd.
  change (outIndexArray (with_sortRunning false (run evs st)))
    with (outIndexArray (run evs st)).
  change (geometry (with_sortRunning false (run evs st))) with (geometry (run evs st)).
  destruct (outIndexArray (run evs st)) as [out|]; [|congruence].
  unfold JS.typed_set.
  replace (length out <=? length (splatIndex (geometry (run evs st))))%nat with true
    by (symmetry; apply Nat.leb_le; rewrite H1, (H2 out eq_refl); lia).
  cbn. split; reflexivity.
Qed.

End Rest.

(** * The attribute textures *)

Section TypedArrayFacts.

Variable A : Type.

Lemma ta_store_length (a : TypedArray A) (i : Z) (v : A) :
  ta_length (ta_store a i v) = ta_length a.
Proof. unfold ta_store. destruct (ta_in_range a i); reflexivity. Qed.

Lemma ta_stores_length (ws : list (Z * A)) :
  forall a : TypedArray A, ta_length (ta_stores a ws) = ta_length a.
Proof.
  induction ws as [|w ws IH]; intros a; cbn; [reflexivity|].
  unfold ta_stores in IH. rewrite IH. apply ta_store_length.
Qed.

Lemma ta_in_range_length (a b : TypedArray A) (j : Z) :
  ta_length a = ta_length b -> ta_in_range a j = ta_in_range b j.
Proof. unfold ta_in_range. intros ->. reflexivity. Qed.

Lemma ta_stores_app (a : TypedArray A) (l1 l2 : list (Z * A)) :
  ta_stores a (l1 ++ l2) = ta_stores (ta_stores a l1) l2.
Proof. unfold ta_stores. apply fold_left_app. Qed.

Lemma ta_stores_get_out (ws : list (Z * A)) :
  forall (a : TypedArray A) (j : Z),
    ~ In j (map fst ws) -> ta_get (ta_stores a ws) j = ta_get a j.
Proof.
  induction ws as [|[i v] ws IH]; intros a j Hout; cbn; [reflexivity|].
  cbn in Hout. unfold ta_stores in IH. rewrite IH by tauto.
  unfold ta_store. destruct (ta_in_range a i); [|reflexivity].
  cbn. destruct (Z.eqb_spec j i); [|reflexivity]. subst. tauto.
Qed.

Lemma ta_stores_get_in (spec : Z -> A) (ws : list (Z * A)) :
  (forall i v, In (i, v) ws -> v = spec i) ->
  forall (a : TypedArray A) (j : Z),
    ta_in_range a j = true ->
    In j (map fst ws) ->
    ta_get (ta_stores a ws) j = spec j.
Proof.
  induction ws as [|[i v] ws IH]; intros Hspec a j Hj Hin; [contradiction|].
  change (ta_stores a ((i, v) :: ws)) with (ta_stores (ta_store a i v) ws).
  destruct (in_dec Z.eq_dec j (map fst ws)) as [Hlater|Hlast].
  - apply IH; [intros; apply Hspec; right; assumption| |exact Hlater].
    rewrite (ta_in_range_length (ta_store a i v) a); [exact Hj|apply ta_store_length].
  - rewrite ta_stores_get_out by exact Hlast.
    destruct Hin as [Heq|Hin]; [|contradiction]. cbn in Heq. subst i.
    unfold ta_store. rewrite Hj. cbn. rewrite Z.eqb_refl.
    apply Hspec. left. reflexivity.
Qed.

Lemma fold_stores (W : Z -> list (Z * A)) (cs : list Z) :
  forall a : TypedArray A,
    fold_left (fun arr c => ta_stores arr (W c)) cs a = ta_stores a (flat_map W cs).
Proof.
  induction cs as [|c cs IH]; intros a; cbn [fold_left flat_map]; [reflexivity|].
  rewrite IH, ta_stores_app. reflexivity.
Qed.

Lemma ta_read_in_range (a : TypedArray A) (j : Z) :
  (0 <= j < ta_length a)%Z -> ta_read a j = Some (ta_get a j).
Proof.
  intros Hj. unfold ta_read, ta_in_range.
  replace (0 <=? j)%Z with true by (symmetry; apply Z.leb_le; lia).
  replace (j <? ta_length a)%Z with true by (symmetry; apply Z.ltb_lt; lia).
  reflexivity.
Qed.

End TypedArrayFacts.

Lemma upto_In (n c : Z) : In c (upto n) <-> (0 <= c < n)%Z.
Proof.
  unfold upto. rewrite in_map_iff. split.
  - intros (k & <- & Hk). apply in_seq in Hk. lia.
  - intros Hc. exists (Z.to_nat c). split; [lia|]. apply in_seq. lia.
Qed.

Lemma affine_div_mod (d c m : Z) :
  (0 <= m < d)%Z -> ((d * c + m) / d = c /\ (d * c + m) mod d = m)%Z.
Proof.
  intros Hm. split.
  - symmetry. apply Z.div_unique with (r := m); [left; exact Hm | reflexivity].
  - symmetry. apply Z.mod_unique with (q := c); [left; exact Hm | reflexivity].
Qed.

Lemma in_fst_flat_map (A : Type) (W : Z -> list (Z * A)) (cs : list Z) (j : Z) :
  In j (map fst (flat_map W cs)) <-> exists c, In c cs /\ In j (map fst (W c)).
Proof.
  rewrite in_map_iff. split.
  - intros ([i v] & <- & Hin). apply in_flat_map in Hin as (c & Hc & Hw).
    exists c. split; [exact Hc|]. apply in_map_iff. exists (i, v). tauto.
  - intros (c & Hc & Hin). apply in_map_iff in Hin as (w & <- & Hw).
    exists w. split; [reflexivity|]. apply in_flat_map. exists c. tauto.
Qed.

(** Decides the closed tests of a layout, and picks the assignment. *)
Ltac reduce_tests :=
  repeat match goal with
         | |- context [if ?b then _ else _] =>
             let v := eval vm_compute in b in change b with v; cbv iota
         end.

Ltac in_here := repeat (first [left; reflexivity | right]).

Ltac same_index := reduce_tests; repeat (f_equal; try lia).

Section AttributeFacts.

Context {num : NumberHost}.

Variable RowSizeFloats : Z.
Variable sb : SplatBufferData.

Lemma storeFloat_Some (x : float32) : storeFloat (Some x) = x.
Proof. apply fround_widen. Qed.

Lemma storeFloat_twice (r : option float32) :
  storeFloat (Some (storeFloat r)) = storeFloat r.
Proof. apply storeFloat_Some. Qed.

Lemma attributeData_fold (cs : list Z) :
  forall acc : AttributeData,
    ad_centerCovariances (fold_left (attributeDataStep RowSizeFloats sb) cs acc)
    = ta_stores (ad_centerCovariances acc)
        (flat_map (fun i => centerWrites RowSizeFloats sb i ++ covWrites sb i) cs)
    /\ ad_colors (fold_left (attributeDataStep RowSizeFloats sb) cs acc)
       = ta_stores (ad_colors acc) (flat_map (colorWrites sb) cs).
Proof.
  induction cs as [|c cs IH]; intros acc; cbn [fold_left flat_map]; [split; reflexivity|].
  destruct (IH (attributeDataStep RowSizeFloats sb acc c)) as [I1 I2].
  rewrite I1, I2. unfold attributeDataStep. cbn [ad_centerCovariances ad_colors].
  rewrite !ta_stores_app. split; reflexivity.
Qed.

Lemma centerCov_consistent (cs : list Z) (i : Z) (v : float32) :
  In (i, v) (flat_map (fun i => centerWrites RowSizeFloats sb i ++ covWrites sb i) cs) ->
  v = centerCovLayout RowSizeFloats sb i.
Proof.
  intros Hin. apply in_flat_map in Hin as (c & _ & Hw).
  unfold centerWrites, covWrites in Hw. cbn [app In] in Hw.
  unfold centerCovLayout.
  repeat (destruct Hw as [Hw|Hw];
          [apply pair_equal_spec in Hw as [<- <-];
           match goal with
           | |- context [((9 * c + ?m) mod 9)%Z] =>
               destruct (affine_div_mod 9 c m ltac:(lia)) as [-> ->]
           | |- context [((9 * c) mod 9)%Z] =>
               replace (9 * c)%Z with (9 * c + 0)%Z by lia;
               destruct (affine_div_mod 9 c 0 ltac:(lia)) as [-> ->]
           end; same_index|]).
  contradiction.
Qed.

Lemma centerCov_written (c m : Z) :
  (0 <= c < sb_vertexCount sb)%Z -> (0 <= m < 9)%Z ->
  In (9 * c + m)%Z
    (map fst (flat_map (fun i => centerWrites RowSizeFloats sb i ++ covWrites sb i)
                (upto (sb_vertexCount sb)))).
Proof.
  intros Hc Hm. apply in_fst_flat_map. exists c. split; [apply upto_In; exact Hc|].
  unfold centerWrites, covWrites. cbn [app map fst In].
  assert (Hcases : (m = 0 \/ m = 1 \/ m = 2 \/ m = 3 \/ m = 4 \/ m = 5 \/ m = 6
                   \/ m = 7 \/ m = 8)%Z) by lia.
  repeat (destruct Hcases as [->|Hcases]; [rewrite ?Z.add_0_r; in_here|]).
  subst m. in_here.
Qed.

(** The interleaved array of [getAttributeDataFromSplatBuffer]: nine floats
    per splat, the first three from the row of the splat and the other six
    from the precomputed covariances. *)
Lemma centerCovariances_read (c m : Z) :
  (0 <= c < sb_vertexCount sb)%Z -> (0 <= m < 9)%Z ->
  ta_read (ad_centerCovariances (getAttributeDataFromSplatBuffer RowSizeFloats sb))
    (9 * c + m)%Z
  = Some (centerCovLayout RowSizeFloats sb (9 * c + m)%Z).
Proof.
  intros Hc Hm. unfold getAttributeDataFromSplatBuffer.
  destruct (attributeData_fold (upto (sb_vertexCount sb))
              (mkAttributeData (ta_new 0%Z (sb_vertexCount sb * 4)%Z)
                 (ta_new zero32 (sb_vertexCount sb * 9)%Z))) as [-> _].
  cbn [ad_centerCovariances].
  rewrite ta_read_in_range by (rewrite ta_stores_length; cbn [ta_length ta_new]; lia).
  f_equal. apply ta_stores_get_in.
  - intros i v. apply centerCov_consistent.
  - unfold ta_in_range. cbn [ta_length ta_new].
    apply andb_true_iff. split; [apply Z.leb_le | apply Z.ltb_lt]; lia.
  - apply centerCov_written; assumption.
Qed.

Lemma colors_read (c m : Z) :
  (0 <= c < sb_vertexCount sb)%Z -> (0 <= m < 4)%Z ->
  ta_read (ad_colors (getAttributeDataFromSplatBuffer RowSizeFloats sb)) (4 * c + m)%Z
  = Some (storeByte (ta_read (sb_precomputedColor sb) (4 * c + m)%Z)).
Proof.
  intros Hc Hm. unfold getAttributeDataFromSplatBuffer.
  destruct (attributeData_fold (upto (sb_vertexCount sb))
              (mkAttributeData (ta_new 0%Z (sb_vertexCount sb * 4)%Z)
                 (ta_new zero32 (sb_vertexCount sb * 9)%Z))) as [_ ->].
  cbn [ad_colors].
  rewrite ta_read_in_range by (rewrite ta_stores_length; cbn [ta_length ta_new]; lia).
  f_equal.
  apply (ta_stores_get_in _ (fun j => storeByte (ta_read (sb_precomputedColor sb) j))).
  - intros i v Hin. apply in_flat_map in Hin as (c0 & _ & Hw).
    unfold colorWrites in Hw. cbn [In] in Hw.
    repeat (destruct Hw as [Hw|Hw]; [apply pair_equal_spec in Hw as [<- <-]; reflexivity|]).
    contradiction.
  - unfold ta_in_range. cbn [ta_length ta_new].
    apply andb_true_iff. split; [apply Z.leb_le | apply Z.ltb_lt]; lia.
  - apply in_fst_flat_map. exists c. split; [apply upto_In; exact Hc|].
    unfold colorWrites. cbn [map fst In].
    assert (Hcases : (m = 0 \/ m = 1 \/ m = 2 \/ m = 3)%Z) by lia.
    repeat (destruct Hcases as [->|Hcases]; [rewrite ?Z.add_0_r; in_here|]).
    subst m. in_here.
Qed.

End AttributeFacts.

Section TextureFacts.

Context {num : NumberHost}.

Ltac texture_size :=
  rewrite ta_stores_length; cbn [ta_length ta_new];
  unfold COVARIANCE_DATA_TEXTURE_WIDTH, COVARIANCE_DATA_TEXTURE_HEIGHT,
    CENTER_COLOR_DATA_TEXTURE_WIDTH, CENTER_COLOR_DATA_TEXTURE_HEIGHT; lia.

Ltac affine6 c :=
  match goal with
  | |- context [((c * 6 + ?m) mod 6)%Z] =>
      replace (c * 6 + m)%Z with (6 * c + m)%Z by lia;
      destruct (affine_div_mod 6 c m ltac:(lia)) as [-> ->]
  | |- context [((c * 6) mod 6)%Z] =>
      replace (c * 6)%Z with (6 * c + 0)%Z by lia;
      destruct (affine_div_mod 6 c 0 ltac:(lia)) as [-> ->]
  end.

Lemma covariance_consistent (cc : TypedArray float32) (cs : list Z) (i : Z) (v : float32) :
  In (i, v) (flat_map (covarianceWrites cc) cs) -> v = covarianceLayout cc i.
Proof.
  intros Hin. apply in_flat_map in Hin as (c & _ & Hw).
  unfold covarianceWrites in Hw. cbn [In] in Hw. unfold covarianceLayout.
  repeat (destruct Hw as [Hw|Hw]; [apply pair_equal_spec in Hw as [<- <-]; affine6 c; same_index|]).
  contradiction.
Qed.

Lemma centerColor_consistent (colors : TypedArray Z) (cc : TypedArray float32)
    (cs : list Z) (i : Z) (v : float32) :
  In (i, v) (flat_map (centerColorWrites colors cc) cs) ->
  v = centerColorLayout colors cc i.
Proof.
  intros Hin. apply in_flat_map in Hin as (c & _ & Hw).
  unfold centerColorWrites in Hw. cbn [In] in Hw. unfold centerColorLayout.
  repeat (destruct Hw as [Hw|Hw]; [apply pair_equal_spec in Hw as [<- <-]; affine6 c; same_index|]).
  contradiction.
Qed.

Lemma covariance_written (cc : TypedArray float32) (n c k : Z) :
  (0 <= c < n)%Z -> (0 <= k < 6)%Z ->
  In (6 * c + k)%Z (map fst (flat_map (covarianceWrites cc) (upto n))).
Proof.
  intros Hc Hk. apply in_fst_flat_map. exists c. split; [apply upto_In; exact Hc|].
  unfold covarianceWrites. cbn [map fst In].
  assert (Hcases : (k = 0 \/ k = 1 \/ k = 2 \/ k = 3 \/ k = 4 \/ k = 5)%Z) by lia.
  replace (6 * c + k)%Z with (c * 6 + k)%Z by lia.
  repeat (destruct Hcases as [->|Hcases]; [rewrite ?Z.add_0_r; in_here|]).
  subst k. in_here.
Qed.

Lemma centerColor_written (colors : TypedArray Z) (cc : TypedArray float32) (n c k : Z) :
  (0 <= c < n)%Z -> (0 <= k < 5)%Z ->
  In (6 * c + k)%Z (map fst (flat_map (centerColorWrites colors cc) (upto n))).
Proof.
  intros Hc Hk. apply in_fst_flat_map. exists c. split; [apply upto_In; exact Hc|].
  unfold centerColorWrites. cbn [map fst In].
  assert (Hcases : (k = 0 \/ k = 1 \/ k = 2 \/ k = 3 \/ k = 4)%Z) by lia.
  replace (6 * c + k)%Z with (c * 6 + k)%Z by lia.
  repeat (destruct Hcases as [->|Hcases]; [rewrite ?Z.add_0_r; in_here|]).
  subst k. in_here.
Qed.

(** The indices the two loops write: below [6 * n], and in the second loop
    never the sixth float of a splat. *)
Lemma covariance_indices (cc : TypedArray float32) (n j : Z) :
  In j (map fst (flat_map (covarianceWrites cc) (upto n))) -> (0 <= j < 6 * n)%Z.
Proof.
  intros Hin. apply in_fst_flat_map in Hin as (c & Hc & Hw). apply upto_In in Hc.
  unfold covarianceWrites in Hw. cbn [map fst In] in Hw.
  repeat (destruct Hw as [<-|Hw]; [lia|]). contradiction.
Qed.

Lemma centerColor_indices (colors : TypedArray Z) (cc : TypedArray float32) (n j : Z) :
  In j (map fst (flat_map (centerColorWrites colors cc) (upto n))) ->
  (0 <= j < 6 * n)%Z /\ (j mod 6 <> 5)%Z.
Proof.
  intros Hin. apply in_fst_flat_map in Hin as (c & Hc & Hw). apply upto_In in Hc.
  unfold centerColorWrites in Hw. cbn [map fst In] in Hw.
  repeat (destruct Hw as [<-|Hw];
          [split; [lia|];
           match goal with
           | |- ((c * 6 + ?m) mod 6 <> 5)%Z =>
               replace (c * 6 + m)%Z with (6 * c + m)%Z by lia;
               destruct (affine_div_mod 6 c m ltac:(lia)) as [_ ->]; lia
           | |- ((c * 6) mod 6 <> 5)%Z =>
               replace (c * 6)%Z with (6 * c + 0)%Z by lia;
               destruct (affine_div_mod 6 c 0 ltac:(lia)) as [_ ->]; lia
           end|]).
  contradiction.
Qed.

Lemma textures_unfold (colors : TypedArray Z) (cc : TypedArray float32) (n : Z)
    (g : Geometry) :
  covarianceTexture (fst (updateSplatMeshAttributes colors cc n g))
  = ta_stores
      (ta_new zero32
         (COVARIANCE_DATA_TEXTURE_WIDTH * COVARIANCE_DATA_TEXTURE_HEIGHT * 2)%Z)
      (flat_map (covarianceWrites cc) (upto n))
  /\ centerColorTexture (fst (updateSplatMeshAttributes colors cc n g))
     = ta_stores
         (ta_new zero32
            (CENTER_COLOR_DATA_TEXTURE_WIDTH * CENTER_COLOR_DATA_TEXTURE_HEIGHT * 2)%Z)
         (flat_map (centerColorWrites colors cc) (upto n)).
Proof.
  unfold updateSplatMeshAttributes. cbn [fst covarianceTexture centerColorTexture].
  split.
  - apply (fold_stores _ (covarianceWrites cc)).
  - apply (fold_stores _ (centerColorWrites colors cc)).
Qed.

Lemma texture_in_range (j : Z) :
  (0 <= j < 4096 * 4096 * 2)%Z ->
  ta_in_range (ta_new zero32 (4096 * 4096 * 2)%Z) j = true.
Proof.
  intros Hj. unfold ta_in_range. cbn [ta_length ta_new].
  apply andb_true_iff. split; [apply Z.leb_le | apply Z.ltb_lt]; lia.
Qed.

(** X14. The covariance texture holds the precomputed covariances of the
    splat buffer in their own order: for a splat [c] below the vertex count
    and a float [6 c + k] inside the texture, the texture has at that index
    the float the precomputed covariance buffer has there, and NaN if the
    buffer is too short. The interleaving of
    [getAttributeDataFromSplatBuffer] and the loop of
    [updateSplatMeshAttributes] undo each other. *)
Theorem covariance_texture_is_precomputed_covariance
    (RowSizeFloats : Z) (sb : SplatBufferData) (g : Geometry) (c k : Z) :
  (0 <= c < sb_vertexCount sb)%Z ->
  (0 <= k < 6)%Z ->
  (6 * c + k < 4096 * 4096 * 2)%Z ->
  ta_read (covarianceTexture (fst (uploadAttributes RowSizeFloats sb g))) (6 * c + k)%Z
  = Some (match ta_read (sb_precomputedCovariance sb) (6 * c + k)%Z with
          | Some x => x
          | None => fround num_nan
          end).
Proof.
  intros Hc Hk Hcap. unfold uploadAttributes.
  destruct (textures_unfold
              (ad_colors (getAttributeDataFromSplatBuffer RowSizeFloats sb))
              (ad_centerCovariances (getAttributeDataFromSplatBuffer RowSizeFloats sb))
              (sb_vertexCount sb) g) as [-> _].
  rewrite ta_read_in_range by (texture_size).
  f_equal.
  rewrite (ta_stores_get_in _ (covarianceLayout _) _ (covariance_consistent _ _));
    [|apply texture_in_range; lia | apply covariance_written; assumption].
  unfold covarianceLayout.
  destruct (affine_div_mod 6 c k Hk) as [-> ->].
  replace (9 * c + 3 + k)%Z with (9 * c + (3 + k))%Z by lia.
  rewrite centerCovariances_read by lia.
  rewrite storeFloat_Some. unfold centerCovLayout.
  destruct (affine_div_mod 9 c (3 + k) ltac:(lia)) as [-> ->].
  replace (3 + k <? 3)%Z with false by (symmetry; apply Z.ltb_ge; lia).
  replace (6 * c + (3 + k - 3))%Z with (6 * c + k)%Z by lia.
  destruct (ta_read (sb_precomputedCovariance sb) (6 * c + k)%Z);
    [apply storeFloat_Some | reflexivity].
Qed.

(** X15. The center-color texture has six floats per splat: for a splat
    [c] below the vertex count whose six floats are inside the texture,
    floats 2, 3 and 4 are the first three floats of the row of the splat in
    the splat buffer (NaN where the buffer is too short), float 5 is never
    written and stays zero, and floats 0 and 1 are the two packed pairs of
    color channels of the splat. *)
Theorem center_color_texture_layout
    (RowSizeFloats : Z) (sb : SplatBufferData) (g : Geometry) (c : Z) :
  (0 <= c < sb_vertexCount sb)%Z ->
  (6 * c + 5 < 4096 * 4096 * 2)%Z ->
  let texture := centerColorTexture (fst (uploadAttributes RowSizeFloats sb g)) in
  let color := fun m => channel (Some (storeByte (ta_read (sb_precomputedColor sb)
                                                    (4 * c + m)%Z))) in
  (forall j : Z, (0 <= j < 3)%Z ->
     ta_read texture (6 * c + 2 + j)%Z
     = Some (match ta_read (sb_bufferData sb) (RowSizeFloats * c + j)%Z with
             | Some x => x
             | None => fround num_nan
             end))
  /\ ta_read texture (6 * c + 5)%Z = Some zero32
  /\ ta_read texture (6 * c)%Z = Some (fround (rgToFloat (color 0%Z) (color 1%Z)))
  /\ ta_read texture (6 * c + 1)%Z = Some (fround (rgToFloat (color 2%Z) (color 3%Z))).
Proof.
  intros Hc Hcap texture color. subst texture. unfold uploadAttributes.
  destruct (textures_unfold
              (ad_colors (getAttributeDataFromSplatBuffer RowSizeFloats sb))
              (ad_centerCovariances (getAttributeDataFromSplatBuffer RowSizeFloats sb))
              (sb_vertexCount sb) g) as [_ ->].
  set (colors := ad_colors (getAttributeDataFromSplatBuffer RowSizeFloats sb)).
  set (cc := ad_centerCovariances (getAttributeDataFromSplatBuffer RowSizeFloats sb)).
  assert (Hwritten : forall k, (0 <= k < 5)%Z ->
            ta_read
              (ta_stores
                 (ta_new zero32
                    (CENTER_COLOR_DATA_TEXTURE_WIDTH * CENTER_COLOR_DATA_TEXTURE_HEIGHT * 2)%Z)
                 (flat_map (centerColorWrites colors cc) (upto (sb_vertexCount sb))))
              (6 * c + k)%Z
            = Some (centerColorLayout colors cc (6 * c + k)%Z)).
  { intros k Hk.
    rewrite ta_read_in_range by (texture_size).
    f_equal.
    apply (ta_stores_get_in _ (centerColorLayout colors cc) _
             (centerColor_consistent colors cc _));
      [apply texture_in_range; lia | apply centerColor_written; assumption]. }
  assert (Hcolor : forall m, (0 <= m < 4)%Z ->
            ta_read colors (4 * c + m)%Z
            = Some (storeByte (ta_read (sb_precomputedColor sb) (4 * c + m)%Z)))
    by (intros m Hm; apply colors_read; assumption).
  split; [|split; [|split]].
  - intros j Hj. replace (6 * c + 2 + j)%Z with (6 * c + (2 + j))%Z by lia.
    rewrite Hwritten by lia. f_equal. unfold centerColorLayout.
    destruct (affine_div_mod 6 c (2 + j) ltac:(lia)) as [-> ->].
    replace (2 + j =? 0)%Z with false by (symmetry; apply Z.eqb_neq; lia).
    replace (2 + j =? 1)%Z with false by (symmetry; apply Z.eqb_neq; lia).
    replace (9 * c + (2 + j - 2))%Z with (9 * c + j)%Z by lia.
    unfold cc. rewrite centerCovariances_read by lia.
    rewrite storeFloat_Some. unfold centerCovLayout.
    destruct (affine_div_mod 9 c j ltac:(lia)) as [-> ->].
    replace (j <? 3)%Z with true by (symmetry; apply Z.ltb_lt; lia).
    destruct (ta_read (sb_bufferData sb) (RowSizeFloats * c + j)%Z);
      [apply storeFloat_Some | reflexivity].
  - rewrite ta_read_in_range by (texture_size).
    f_equal. rewrite ta_stores_get_out; [reflexivity|].
    intros Hin. apply centerColor_indices in Hin as [_ Hmod].
    destruct (affine_div_mod 6 c 5 ltac:(lia)) as [_ H5]. congruence.
  - replace (6 * c)%Z with (6 * c + 0)%Z at 1 by lia.
    rewrite Hwritten by lia. f_equal. unfold centerColorLayout.
    destruct (affine_div_mod 6 c 0 ltac:(lia)) as [-> ->]. cbn [Z.eqb].
    replace (4 * c)%Z with (4 * c + 0)%Z at 1 by lia.
    rewrite !Hcolor by lia. reflexivity.
  - rewrite Hwritten by lia. f_equal. unfold centerColorLayout.
    destruct (affine_div_mod 6 c 1 ltac:(lia)) as [-> ->]. cbn [Z.eqb Pos.eqb].
    rewrite !Hcolor by lia. reflexivity.
Qed.

(** X16. Whatever the vertex count, the two textures have
    [4096 * 4096 * 2] floats and no store throws; a float at or after
    [6 * vertexCount] is zero in both, so the splats that do not fit are
    dropped without an error; the instance count becomes the vertex count
    and the draw-order attribute is not touched. *)
Theorem textures_keep_their_size
    (colors : TypedArray Z) (cc : TypedArray float32) (n : Z) (g : Geometry) (j : Z) :
  (0 <= j < 4096 * 4096 * 2)%Z ->
  (6 * n <= j)%Z ->
  let result := updateSplatMeshAttributes colors cc n g in
  ta_length (covarianceTexture (fst result)) = (4096 * 4096 * 2)%Z
  /\ ta_length (centerColorTexture (fst result)) = (4096 * 4096 * 2)%Z
  /\ ta_read (covarianceTexture (fst result)) j = Some zero32
  /\ ta_read (centerColorTexture (fst result)) j = Some zero32
  /\ instanceCount (snd result) = n
  /\ splatIndex (snd result) = splatIndex g.
Proof.
  intros Hj Hn result. subst result.
  destruct (textures_unfold colors cc n g) as [E1 E2]. rewrite E1, E2.
  rewrite !ta_stores_length. cbn [ta_length ta_new].
  unfold COVARIANCE_DATA_TEXTURE_WIDTH, COVARIANCE_DATA_TEXTURE_HEIGHT,
    CENTER_COLOR_DATA_TEXTURE_WIDTH, CENTER_COLOR_DATA_TEXTURE_HEIGHT.
  split; [reflexivity|]. split; [reflexivity|].
  split; [|split; [|split; reflexivity]].
  - rewrite ta_read_in_range by (texture_size).
    f_equal. rewrite ta_stores_get_out; [reflexivity|].
    intros Hin. apply covariance_indices in Hin. lia.
  - rewrite ta_read_in_range by (texture_size).
    f_equal. rewrite ta_stores_get_out; [reflexivity|].
    intros Hin. apply centerColor_indices in Hin as [Hin _]. lia.
Qed.

End TextureFacts.

(** * The faces of the reference mesh *)

Section Faces.

Variable indices : TypedArray Z.

Lemma count_bounds :
  (0 <= ta_length indices)%Z ->
  (0 <= faceCount indices
   /\ ta_length indices <= 3 * faceCount indices <= ta_length indices + 2)%Z.
Proof.
  intros Hlen. unfold faceCount.
  pose proof (Z.div_mod (ta_length indices + 2) 3 ltac:(lia)) as Hd.
  pose proof (Z.mod_pos_bound (ta_length indices + 2) 3 ltac:(lia)) as Hm.
  lia.
Qed.

Lemma facesLoop_from (m : nat) :
  forall (k fuel : nat) (acc : list Face),
    (0 <= ta_length indices)%Z ->
    Z.of_nat (k + m) = faceCount indices ->
    (m < fuel)%nat ->
    facesLoop fuel indices (3 * Z.of_nat k)%Z acc
    = Some (acc ++ map (fun j => faceAt indices (Z.of_nat j)) (seq k m)).
Proof.
  induction m as [|m IH]; intros k fuel acc Hlen Hk Hfuel;
    destruct fuel as [|fuel]; try lia; cbn [facesLoop seq map];
    pose proof (count_bounds Hlen) as Hc.
  - replace (3 * Z.of_nat k <? ta_length indices)%Z with false
      by (symmetry; apply Z.ltb_ge; lia).
    rewrite app_nil_r. reflexivity.
  - replace (3 * Z.of_nat k <? ta_length indices)%Z with true
      by (symmetry; apply Z.ltb_lt; lia).
    replace (3 * Z.of_nat k + 3)%Z with (3 * Z.of_nat (S k))%Z by lia.
    rewrite IH by lia. rewrite <- app_assoc. reflexivity.
Qed.

Lemma facesLoop_spec (fuel : nat) :
  (0 <= ta_length indices)%Z ->
  (faceCount indices < Z.of_nat fuel)%Z ->
  facesLoop fuel indices 0 []
  = Some (map (fun j => faceAt indices (Z.of_nat j))
            (seq 0 (Z.to_nat (faceCount indices)))).
Proof.
  intros Hlen Hfuel. pose proof (count_bounds Hlen) as Hc.
  exact (facesLoop_from (Z.to_nat (faceCount indices)) 0 fuel [] Hlen ltac:(lia) ltac:(lia)).
Qed.

Lemma faces_flatten (n : nat) :
  (3 * Z.of_nat n <= ta_length indices)%Z ->
  concat (map (fun j => faceAt indices (Z.of_nat j)) (seq 0 n))
  = map (fun j => Some (ta_get indices (Z.of_nat j))) (seq 0 (3 * n)).
Proof.
  induction n as [|n IH]; intros Hn; [reflexivity|].
  rewrite seq_S, map_app, concat_app, IH by lia.
  replace (3 * S n)%nat with (3 * n + 3)%nat by lia.
  rewrite seq_app, map_app. f_equal.
  cbn [Nat.add map concat seq app]. unfold faceAt.
  rewrite !ta_read_in_range by lia. rewrite app_nil_r.
  repeat (f_equal; try lia).
Qed.

(** X17. The loop of [updateMesh] returns, and cuts the index array into
    consecutive triples: it pushes [ceil(length / 3)] faces, face [k] is
    [[indices[3k], indices[3k+1], indices[3k+2]]], and when the length is a
    multiple of three the faces laid end to end are the index array. *)
Theorem faces_chunk_the_index_array (fuel : nat) :
  (0 <= ta_length indices)%Z ->
  ((ta_length indices + 2) / 3 < Z.of_nat fuel)%Z ->
  exists faces : list Face,
    facesLoop fuel indices 0 [] = Some faces
    /\ Z.of_nat (length faces) = ((ta_length indices + 2) / 3)%Z
    /\ (forall k : Z,
          (0 <= k < (ta_length indices + 2) / 3)%Z ->
          nth_error faces (Z.to_nat k)
          = Some [ta_read indices (3 * k)%Z; ta_read indices (3 * k + 1)%Z;
                  ta_read indices (3 * k + 2)%Z])
    /\ ((ta_length indices mod 3 = 0)%Z ->
        concat faces
        = map (fun j => Some (ta_get indices j)) (upto (ta_length indices))).
Proof.
  intros Hlen Hfuel. pose proof (count_bounds Hlen) as Hc.
  eexists. split; [apply facesLoop_spec; assumption|].
  split; [rewrite length_map, length_seq; fold (faceCount indices); lia|].
  split.
  - intros k Hk. fold (faceCount indices) in Hk.
    rewrite nth_error_map, nth_error_seq.
    replace (Z.to_nat k <? Z.to_nat (faceCount indices))%nat with true
      by (symmetry; apply Nat.ltb_lt; lia).
    cbn [option_map Nat.add]. rewrite Z2Nat.id by lia.
    unfold faceAt. rewrite Z.add_0_r. reflexivity.
  - intros Hmod.
    pose proof (Z.div_mod (ta_length indices) 3 ltac:(lia)) as Hd.
    rewrite Hmod in Hd.
    assert (Hcount : faceCount indices = (ta_length indices / 3)%Z).
    { unfold faceCount. symmetry. apply Z.div_unique with (r := 2%Z); lia. }
    rewrite faces_flatten by lia.
    unfold upto. rewrite map_map.
    replace (3 * Z.to_nat (faceCount indices))%nat with (Z.to_nat (ta_length indices)) by lia.
    reflexivity.
Qed.

(** X18. An index array whose length is not a multiple of three loses
    nothing and gets no error: the loop pushes one more face for the one or
    two indices left over, whose first entry is the first of them and whose
    third entry is [undefined]. *)
Theorem ragged_index_array_gives_undefined_vertex (fuel : nat) :
  (0 <= ta_length indices)%Z ->
  (ta_length indices mod 3 <> 0)%Z ->
  ((ta_length indices + 2) / 3 < Z.of_nat fuel)%Z ->
  exists faces : list Face,
    facesLoop fuel indices 0 [] = Some faces
    /\ Z.of_nat (length faces) = (ta_length indices / 3 + 1)%Z
    /\ nth_error faces (Z.to_nat (ta_length indices / 3))
       = Some [Some (ta_get indices (3 * (ta_length indices / 3))%Z);
               ta_read indices (3 * (ta_length indices / 3) + 1)%Z;
               None].
Proof.
  intros Hlen Hmod Hfuel. pose proof (count_bounds Hlen) as Hc.
  pose proof (Z.div_mod (ta_length indices) 3 ltac:(lia)) as Hd.
  pose proof (Z.mod_pos_bound (ta_length indices) 3 ltac:(lia)) as Hm.
  assert (Hq : (0 <= ta_length indices / 3)%Z) by (apply Z.div_pos; lia).
  assert (Hcount : faceCount indices = (ta_length indices / 3 + 1)%Z).
  { unfold faceCount. symmetry.
    apply Z.div_unique with (r := (ta_length indices mod 3 - 1)%Z); lia. }
  eexists. split; [apply facesLoop_spec; assumption|].
  split; [rewrite length_map, length_seq; lia|].
  rewrite nth_error_map, nth_error_seq.
  replace (Z.to_nat (ta_length indices / 3) <? Z.to_nat (faceCount indices))%nat with true
    by (symmetry; apply Nat.ltb_lt; lia).
  cbn [option_map Nat.add]. rewrite Z2Nat.id by lia.
  unfold faceAt. rewrite Z.add_0_r.
  rewrite (ta_read_in_range _ indices (3 * (ta_length indices / 3))%Z) by lia.
  do 3 f_equal. unfold ta_read, ta_in_range.
  replace (3 * (ta_length indices / 3) + 2 <? ta_length indices)%Z with false
    by (symmetry; apply Z.ltb_ge; lia).
  rewrite andb_false_r. reflexivity.
Qed.

End Faces.

(** * The further properties at work on the concrete scene *)

Lemma full_pass_witness :
  let st := Scene.idle Scene.restingCamera Scene.leaves in
  inIndexArray st = Some Scene.seededIn
  /\ (length (members (nodesWithIndexes st))
      <= length (JS.words (JS.buffer Scene.seededIn)))%nat
  /\ Forall uint32 (members (nodesWithIndexes st))
  /\ exists (st' : Viewer) (arr' : JS.Uint32Array),
      gatherSceneNodes true st = Ok st'
      /\ inIndexArray st' = Some arr'
      /\ vertexRenderCount st' = 11%Z.
Proof.
  intros st.
  assert (H1 : inIndexArray st = Some Scene.seededIn) by reflexivity.
  assert (H2 : (length (members (nodesWithIndexes st))
                <= length (JS.words (JS.buffer Scene.seededIn)))%nat)
    by (vm_compute; lia).
  assert (H3 : Forall uint32 (members (nodesWithIndexes st)))
    by (apply uint32_forallb; vm_compute; reflexivity).
  split; [exact H1|]. split; [exact H2|]. split; [exact H3|].
  destruct (full_pass_packs_every_splat st Scene.seededIn H1 H2 H3)
    as (st' & arr' & E & A & _ & V & _).
  exists st', arr'. split; [exact E|]. split; [exact A|].
  rewrite V. vm_compute. reflexivity.
Defined.

Lemma words_after_prefix_witness :
  let st := Scene.idle Scene.restingCamera Scene.leaves in
  inIndexArray st = Some Scene.seededIn
  /\ (length (members (nodesWithIndexes st))
      <= length (JS.words (JS.buffer Scene.seededIn)))%nat
  /\ exists (st' : Viewer) (arr' : JS.Uint32Array),
      gatherSceneNodes false st = Ok st'
      /\ inIndexArray st' = Some arr'
      /\ skipn (Z.to_nat (vertexRenderCount st')) (JS.words (JS.buffer arr'))
         = skipn (Z.to_nat (vertexRenderCount st')) (JS.words (JS.buffer Scene.seededIn)).
Proof.
  intros st.
  assert (H1 : inIndexArray st = Some Scene.seededIn) by reflexivity.
  assert (H2 : (length (members (nodesWithIndexes st))
                <= length (JS.words (JS.buffer Scene.seededIn)))%nat)
    by (vm_compute; lia).
  split; [exact H1|]. split; [exact H2|].
  destruct (pass_leaves_words_after_prefix false st Scene.seededIn H1 H2)
    as (st' & arr' & E & A & K & _).
  exists st', arr'. split; [exact E|]. split; [exact A | exact K].
Defined.

Lemma request_overflow_witness :
  let st := Startup.cramped Scene.restingCamera Scene.leaves in
  inIndexArray st = Some Startup.smallIn
  /\ (length (JS.words (JS.buffer Startup.smallIn))
      < length (members (candidateList true st)))%nat
  /\ sortRunning st = false
  /\ exists s : Viewer,
      updateView true true st = Throw JS.RangeError s
      /\ sortRunning s = false
      /\ posted s = posted st.
Proof.
  intros st.
  assert (H1 : inIndexArray st = Some Startup.smallIn) by reflexivity.
  assert (H2 : (length (JS.words (JS.buffer Startup.smallIn))
                < length (members (candidateList true st)))%nat)
    by (vm_compute; lia).
  assert (H3 : sortRunning st = false) by reflexivity.
  split; [exact H1|]. split; [exact H2|]. split; [exact H3|].
  destruct (request_overflow_throws true st Startup.smallIn H1 H2 H3)
    as (s & _ & E & R & P & _).
  exists s. split; [exact E|]. split; [exact R | exact P].
Defined.

Lemma request_before_handshake_witness :
  let st := Startup.beforeHandshake Scene.restingCamera Scene.leaves in
  inIndexArray st = None
  /\ sortRunning st = false
  /\ exists s : Viewer,
      updateView true false st = Throw JS.TypeError s
      /\ posted s = posted st.
Proof.
  intros st.
  assert (H1 : inIndexArray st = None) by reflexivity.
  assert (H2 : sortRunning st = false) by reflexivity.
  split; [exact H1|]. split; [exact H2|].
  destruct (request_before_handshake_throws false st H1 H2) as (s & E & P & _).
  exists s. split; [exact E | exact P].
Defined.

Lemma in_array_untouched_witness :
  let st := Scene.inFlight Scene.turnedCamera Scene.leaves in
  let ev := EvUpdateView true true in
  sortRunning st = true
  /\ isHandshake ev = false
  /\ inIndexArray (state_of (step ev st)) = inIndexArray st.
Proof.
  intros st ev.
  assert (H1 : sortRunning st = true) by reflexivity.
  assert (H2 : isHandshake ev = false) by reflexivity.
  split; [exact H1|]. split; [exact H2|].
  exact (in_array_untouched_in_flight ev st H1 H2).
Defined.

Lemma answer_lowers_the_flag_witness :
  let st := Scene.inFlight Scene.restingCamera Scene.leaves in
  (sortDone Scene.canceledMessage = true \/ sortCanceled Scene.canceledMessage = true)
  /\ sortRunning (state_of (onmessage Scene.canceledMessage st)) = false.
Proof.
  intros st.
  assert (H : sortDone Scene.canceledMessage = true
              \/ sortCanceled Scene.canceledMessage = true)
    by (right; reflexivity).
  split; [exact H|].
  exact (proj1 (answer_lowers_the_flag Scene.canceledMessage st H)).
Defined.

Lemma handshake_witness :
  let st := Startup.beforeHandshake Scene.restingCamera Scene.leaves in
  let e := Startup.phase1Message in
  sortDone e = false
  /\ sortCanceled e = false
  /\ sortSetupPhase1Complete e = true
  /\ JS.view_ok (e_outIndexBuffer e) (e_outIndexOffset e) (vertexCount st) = true
  /\ JS.view_ok (e_inIndexBuffer e) (e_inIndexOffset e) (vertexCount st) = true
  /\ (vertexCount st <= 2 ^ 32)%Z
  /\ exists (s : Viewer) (arr : JS.Uint32Array),
      onmessage e st = Ok s
      /\ inIndexArray s = Some arr
      /\ view_elements (JS.buffer arr) (JS.byteOffset arr) (JS.view_length arr)
         = identityIndexes (vertexCount st)
      /\ posted s = posted st ++ [PostPositions].
Proof.
  intros st e.
  assert (H1 : sortDone e = false) by reflexivity.
  assert (H2 : sortCanceled e = false) by reflexivity.
  assert (H3 : sortSetupPhase1Complete e = true) by reflexivity.
  assert (H4 : JS.view_ok (e_outIndexBuffer e) (e_outIndexOffset e) (vertexCount st) = true)
    by (vm_compute; reflexivity).
  assert (H5 : JS.view_ok (e_inIndexBuffer e) (e_inIndexOffset e) (vertexCount st) = true)
    by (vm_compute; reflexivity).
  assert (H6 : (vertexCount st <= 2 ^ 32)%Z) by (vm_compute; discriminate).
  split; [exact H1|]. split; [exact H2|]. split; [exact H3|].
  split; [exact H4|]. split; [exact H5|]. split; [exact H6|].
  destruct (handshake_seeds_the_identity e st H1 H2 H3 H4 H5 H6)
    as (s & arr & E & A & _ & _ & _ & V & _ & _ & _ & P & _).
  exists s, arr. split; [exact E|]. split; [exact A|]. split; [exact V | exact P].
Defined.

Lemma setup_complete_witness :
  let st := Scene.idle Scene.restingCamera Scene.leaves in
  let e := Startup.setupCompleteMessage in
  sortDone e = false
  /\ sortCanceled e = false
  /\ sortSetupPhase1Complete e = false
  /\ sortSetupComplete e = true
  /\ sortRunning st = false
  /\ inIndexArray st = Some Scene.seededIn
  /\ outIndexArray st = Some (identityIndexes 11)
  /\ (length (identityIndexes 11) <= length (splatIndex (geometry st)))%nat
  /\ (length (members (nodesWithIndexes st))
      <= length (JS.words (JS.buffer Scene.seededIn)))%nat
  /\ exists (s : Viewer) (job : SortJob),
      onmessage e st = Ok s
      /\ splatRenderingInitialized s = true
      /\ sortRunning s = true
      /\ posted s = posted st ++ [PostSort job]
      /\ job_vertexRenderCount job = 11%Z.
Proof.
  intros st e.
  assert (H1 : sortDone e = false) by reflexivity.
  assert (H2 : sortCanceled e = false) by reflexivity.
  assert (H3 : sortSetupPhase1Complete e = false) by reflexivity.
  assert (H4 : sortSetupComplete e = true) by reflexivity.
  assert (H5 : sortRunning st = false) by reflexivity.
  assert (H6 : inIndexArray st = Some Scene.seededIn) by reflexivity.
  assert (H7 : outIndexArray st = Some (identityIndexes 11)) by reflexivity.
  assert (H8 : (length (identityIndexes 11) <= length (splatIndex (geometry st)))%nat)
    by (vm_compute; lia).
  assert (H9 : (length (members (nodesWithIndexes st))
                <= length (JS.words (JS.buffer Scene.seededIn)))%nat)
    by (vm_compute; lia).
  split; [exact H1|]. split; [exact H2|]. split; [exact H3|]. split; [exact H4|].
  split; [exact H5|]. split; [exact H6|]. split; [exact H7|]. split; [exact H8|].
  split; [exact H9|].
  destruct (setup_complete_submits_a_full_pass e st Scene.seededIn (identityIndexes 11)
              H1 H2 H3 H4 H5 H6 H7 H8 H9)
    as (s & job & E & I & R & P & J & _).
  exists s, job. split; [exact E|]. split; [exact I|]. split; [exact R|].
  split; [exact P|]. rewrite J. vm_compute. reflexivity.
Defined.

Lemma camera_at_rest_witness :
  let st := Scene.idle Scene.turnedCamera Scene.leaves in
  let s := state_of (updateView false false st) in
  let dir := v3_applyQuaternion forward (quaternion (camera st)) in
  posted s <> posted st
  /\ (95 # 100 < v3_dot dir dir)%Q
  /\ (@v3_length Exact.ExactHost (v3_sub (position (camera st)) (position (camera st))) < 1)%Q
  /\ updateView false false s = Ok s.
Proof.
  intros st s dir.
  assert (H1 : posted s <> posted st)
    by (intros H; apply (f_equal (@length _)) in H; vm_compute in H; discriminate).
  assert (H2 : (95 # 100 < v3_dot dir dir)%Q) by (vm_compute; reflexivity).
  assert (H3 : (@v3_length Exact.ExactHost (v3_sub (position (camera st)) (position (camera st))) < 1)%Q)
    by (vm_compute; reflexivity).
  split; [exact H1|]. split; [exact H2|]. split; [exact H3|].
  exact (proj1 (camera_at_rest_requests_nothing false false st H1 H2 H3)).
Defined.

Lemma publish_never_overflows_witness :
  let st := Scene.idle Scene.turnedCamera Scene.leaves in
  let evs := [EvUpdateView false false; EvExecutorWrote [8; 9; 10; 0; 1; 2; 3; 4; 5; 6; 7]%Z;
              EvMessage (Scene.doneMessage 1)] in
  sized st /\ sized (run evs st).
Proof.
  intros st evs.
  assert (H : sized st) by (split; [reflexivity | intros out [= <-]; reflexivity]).
  split; [exact H|].
  exact (proj1 (publish_never_overflows evs st (Scene.doneMessage 1) H)).
Defined.

Lemma covariance_texture_witness :
  (0 <= 1 < sb_vertexCount ExactNumbers.twoSplats)%Z
  /\ (0 <= 4 < 6)%Z
  /\ (6 * 1 + 4 < 4096 * 4096 * 2)%Z
  /\ ta_read (covarianceTexture
                (fst (uploadAttributes 8 ExactNumbers.twoSplats Startup.noGeometry)))
       (6 * 1 + 4)%Z
     = Some (match ta_read (sb_precomputedCovariance ExactNumbers.twoSplats) (6 * 1 + 4)%Z with
             | Some x => x
             | None => fround num_nan
             end).
Proof.
  assert (H1 : (0 <= 1 < sb_vertexCount ExactNumbers.twoSplats)%Z) by (cbn; lia).
  assert (H2 : (0 <= 4 < 6)%Z) by lia.
  assert (H3 : (6 * 1 + 4 < 4096 * 4096 * 2)%Z) by lia.
  split; [exact H1|]. split; [exact H2|]. split; [exact H3|].
  exact (covariance_texture_is_precomputed_covariance 8 ExactNumbers.twoSplats
           Startup.noGeometry 1 4 H1 H2 H3).
Defined.

Lemma center_color_texture_witness :
  let texture :=
    centerColorTexture (fst (uploadAttributes 8 ExactNumbers.twoSplats Startup.noGeometry)) in
  (0 <= 1 < sb_vertexCount ExactNumbers.twoSplats)%Z
  /\ (6 * 1 + 5 < 4096 * 4096 * 2)%Z
  /\ ta_read texture (6 * 1 + 5)%Z = Some zero32.
Proof.
  intros texture.
  assert (H1 : (0 <= 1 < sb_vertexCount ExactNumbers.twoSplats)%Z) by (cbn; lia).
  assert (H2 : (6 * 1 + 5 < 4096 * 4096 * 2)%Z) by lia.
  split; [exact H1|]. split; [exact H2|].
  exact (proj1 (proj2 (center_color_texture_layout 8 ExactNumbers.twoSplats
                         Startup.noGeometry 1 H1 H2))).
Defined.

Lemma textures_keep_their_size_witness :
  let attributeData := getAttributeDataFromSplatBuffer 8 ExactNumbers.twoSplats in
  let result :=
    updateSplatMeshAttributes (ad_colors attributeData) (ad_centerCovariances attributeData)
      2 Startup.noGeometry in
  (0 <= 12 < 4096 * 4096 * 2)%Z
  /\ (6 * 2 <= 12)%Z
  /\ ta_length (covarianceTexture (fst result)) = (4096 * 4096 * 2)%Z
  /\ ta_read (covarianceTexture (fst result)) 12 = Some zero32.
Proof.
  intros attributeData result.
  assert (H1 : (0 <= 12 < 4096 * 4096 * 2)%Z) by lia.
  assert (H2 : (6 * 2 <= 12)%Z) by lia.
  split; [exact H1|]. split; [exact H2|].
  destruct (textures_keep_their_size (ad_colors attributeData)
              (ad_centerCovariances attributeData) 2 Startup.noGeometry 12 H1 H2)
    as (L & _ & R & _).
  split; [exact L | exact R].
Defined.

Lemma faces_witness :
  (0 <= ta_length Meshes.quad)%Z
  /\ ((ta_length Meshes.quad + 2) / 3 < Z.of_nat 3)%Z
  /\ exists faces : list Face,
      facesLoop 3 Meshes.quad 0 [] = Some faces
      /\ Z.of_nat (length faces) = ((ta_length Meshes.quad + 2) / 3)%Z.
Proof.
  assert (H1 : (0 <= ta_length Meshes.quad)%Z) by (vm_compute; discriminate).
  assert (H2 : ((ta_length Meshes.quad + 2) / 3 < Z.of_nat 3)%Z) by (vm_compute; reflexivity).
  split; [exact H1|]. split; [exact H2|].
  destruct (faces_chunk_the_index_array Meshes.quad 3 H1 H2) as (faces & E & L & _).
  exists faces. split; [exact E | exact L].
Defined.

Lemma ragged_faces_witness :
  (0 <= ta_length Meshes.ragged)%Z
  /\ (ta_length Meshes.ragged mod 3 <> 0)%Z
  /\ ((ta_length Meshes.ragged + 2) / 3 < Z.of_nat 3)%Z
  /\ exists faces : list Face,
      facesLoop 3 Meshes.ragged 0 [] = Some faces
      /\ Z.of_nat (length faces) = (ta_length Meshes.ragged / 3 + 1)%Z.
Proof.
  assert (H1 : (0 <= ta_length Meshes.ragged)%Z) by (vm_compute; discriminate).
  assert (H2 : (ta_length Meshes.ragged mod 3 <> 0)%Z) by (vm_compute; discriminate).
  assert (H3 : ((ta_length Meshes.ragged + 2) / 3 < Z.of_nat 3)%Z)
    by (vm_compute; reflexivity).
  split; [exact H1|]. split; [exact H2|]. split; [exact H3|].
  destruct (ragged_index_array_gives_undefined_vertex Meshes.ragged 3 H1 H2 H3)
    as (faces & E & L & _).
  exists faces. split; [exact E | exact L].
Defined.
